(** * Warbler: a shallow embedding of forms.py, models.py and app.py

    The development follows the three source modules.  [Forms] holds the
    WTForms field validators and the declared forms, [Models] the four
    tables, the unit of work on top of them and the methods of [User], and
    [App] the Flask view functions together with the request cycle that
    surrounds them.  The statements about the program come last. *)

From stdpp Require Import gmap strings list fin_maps sorting pretty.
From Stdlib Require Import ZArith Lia.

Local Open Scope Z_scope.

(** Python strings are sequences of characters and [len] counts them; here a
    string is a [string] and every [ascii] stands for one character. *)
Definition len (s : string) : Z := Z.of_nat (String.length s).

(** Truthiness of a [str]: only the empty string is falsy. *)
Definition truthy (s : string) : bool :=
  match s with EmptyString => false | String _ _ => true end.

(** [x or default] for an optional string. *)
Definition or_else (x : option string) (default : string) : string :=
  match x with
  | Some s => if truthy s then s else default
  | None => default
  end.

(* ====================================================================== *)
(** * forms.py *)
(* ====================================================================== *)

Module Forms.

(** The submitted form: a multi-dict, kept as the list of its pairs. *)
Definition FormData := list (string * string).

Definition getlist (name : string) (formdata : FormData) : list string :=
  (filter (λ p : string * string, p.1 = name) formdata).*2.

(** A bound field after [process]: the raw values and the coerced value.
    For [StringField], [PasswordField] and [TextAreaField] the value is the
    first raw one, [None] when the field was not submitted. *)
Record Field := mkField { raw_data : list string; data : option string }.

Definition process (formdata : option FormData) (name : string) : Field :=
  match formdata with
  | None => mkField [] None
  | Some fd => let raw := getlist name fd in mkField raw (head raw)
  end.

(** Characters removed by [str.strip()]. *)
Definition is_space (a : Ascii.ascii) : bool :=
  let n := Z.of_nat (Ascii.nat_of_ascii a) in
  ((9 <=? n) && (n <=? 13)) || ((28 <=? n) && (n <=? 32)).

Fixpoint all_space (s : string) : bool :=
  match s with
  | EmptyString => true
  | String a s' => is_space a && all_space s'
  end.

(** [s.strip()] is truthy exactly when [s] has a character that is not
    white space. *)
Definition string_check (s : string) : bool := negb (all_space s).

(** The validators used by forms.py.  [Length] carries [min] and [max],
    with WTForms' default of [-1] for a bound that is not given. *)
Inductive Validator :=
| InputRequired
| Optional
| Length (min max : Z)
| Email
| URL.

Inductive FieldError :=
| RequiredError
| LengthError (min max : Z)
| EmailError
| URLError.

(** What calling a validator does: return, raise [ValidationError], or
    raise [StopValidation] (with or without a message). *)
Inductive Verdict :=
| Return
| ValidationError (e : FieldError)
| StopValidation (e : option FieldError).

(** The checks of [Email] and [URL] live in third-party packages
    (email_validator, a regular expression of WTForms); they are taken as
    given predicates on the submitted value. *)
Class ShapeChecks := {
  valid_email : string → bool;
  valid_url : string → bool
}.

Section validators.
Context `{ShapeChecks}.

Definition call (v : Validator) (field : Field) : Verdict :=
  match v with
  | InputRequired =>
      match raw_data field with
      | r :: _ => if truthy r then Return
                  else StopValidation (Some RequiredError)
      | [] => StopValidation (Some RequiredError)
      end
  | Optional =>
      match raw_data field with
      | [] => StopValidation None
      | r :: _ => if string_check r then Return else StopValidation None
      end
  | Length min max =>
      let length := match data field with
                    | Some s => len s
                    | None => 0
                    end in
      if (min <=? length) && ((max =? -1) || (length <=? max))
      then Return
      else ValidationError (LengthError min max)
  | Email =>
      match data field with
      | Some s => if valid_email s then Return
                  else ValidationError EmailError
      | None => ValidationError EmailError
      end
  | URL =>
      if valid_url (default ""%string (data field)) then Return
      else ValidationError URLError
  end.

(** [Field._run_validation_chain]: validators run in order; a
    [ValidationError] is recorded and the chain goes on, a
    [StopValidation] ends it, the validator having emptied the errors
    collected so far. *)
Fixpoint run_validation_chain (validators : list Validator)
    (field : Field) (errors : list FieldError) : list FieldError :=
  match validators with
  | [] => errors
  | v :: rest =>
      match call v field with
      | Return => run_validation_chain rest field errors
      | ValidationError e => run_validation_chain rest field (errors ++ [e])
      | StopValidation None => []
      | StopValidation (Some e) => [e]
      end
  end.

Definition field_errors (validators : list Validator) (field : Field)
  : list FieldError :=
  run_validation_chain validators field [].

Definition field_validate (validators : list Validator) (field : Field)
  : bool :=
  bool_decide (field_errors validators field = []).

(** A form class: its named fields with their validators. *)
Definition FormClass := list (string * list Validator).

Definition CSRFProtection : FormClass := [].

Definition MessageForm : FormClass :=
  [ ("text"%string, [InputRequired]) ].

Definition UserAddForm : FormClass :=
  [ ("username"%string, [InputRequired; Length (-1) 30]);
    ("email"%string, [InputRequired; Email; Length (-1) 50]);
    ("password"%string, [InputRequired; Length 6 50]);
    ("image_url"%string, [Optional; URL; Length (-1) 255]) ].

Definition LoginForm : FormClass :=
  [ ("username"%string, [InputRequired; Length (-1) 30]);
    ("password"%string, [InputRequired; Length 6 50]) ].

(** [form.validate()]: the CSRF token is checked like any other field,
    then every field runs its chain; the form is valid when none of them
    reported an error. *)
Definition validate (form : FormClass) (csrf_token_ok : bool)
    (formdata : option FormData) : bool :=
  csrf_token_ok &&
  forallb (λ nf : string * list Validator,
             field_validate nf.2 (process formdata nf.1)) form.

Definition UserEditForm : FormClass :=
  [ ("username"%string, [InputRequired; Length (-1) 30]);
    ("email"%string, [InputRequired; Email; Length (-1) 50]);
    ("image_url"%string, [Optional; Length (-1) 255; URL]);
    ("header_image_url"%string, [Optional; Length (-1) 255; URL]);
    ("bio"%string, []);
    ("password"%string, [InputRequired; Length 6 50]) ].

(** [Form(obj=obj)]: a field starts from the attribute of [obj] that bears
    its name, [obj name], and a submitted value takes its place. *)
Definition process_obj (obj : string → option string)
    (formdata : option FormData) (name : string) : Field :=
  match formdata with
  | None => mkField [] (obj name)
  | Some fd =>
      let raw := getlist name fd in
      mkField raw (match raw with
                   | r :: _ => Some r
                   | [] => obj name
                   end)
  end.

Definition validate_obj (form : FormClass) (csrf_token_ok : bool)
    (obj : string → option string) (formdata : option FormData) : bool :=
  csrf_token_ok &&
  forallb (λ nf : string * list Validator,
             field_validate nf.2 (process_obj obj formdata nf.1)) form.

End validators.

End Forms.


(* ====================================================================== *)
(** * models.py *)
(* ====================================================================== *)

Module Models.

Definition DEFAULT_IMAGE_URL : string :=
  "https://icon-library.com/images/default-user-icon/" +:+
  "default-user-icon-28.jpg".

Definition DEFAULT_HEADER_IMAGE_URL : string :=
  "https://images.unsplash.com/photo-1519751138087-5bf79df62d5b?ixlib=" +:+
  "rb-4.0.3&ixid=MnwxMjA3fDB8MHxwaG90by1wYWdlfHx8fGVufDB8fHx8&auto=for" +:+
  "mat&fit=crop&w=2070&q=80".

(** ** Rows

    One record per mapped class; a column [c] of class [K] that is not
    unique across the classes is named [K_c]. *)

Record Follow := mkFollow {
  user_being_followed_id : Z;
  user_following_id : Z
}.

Record User := mkUser {
  User_id : Z;
  User_email : string;
  User_username : string;
  User_image_url : string;
  User_header_image_url : string;
  User_bio : string;
  User_location : string;
  User_password : string
}.

Record Message := mkMessage {
  Message_id : Z;
  Message_text : string;
  Message_timestamp : Z;
  Message_user_id : Z
}.

Record Like := mkLike {
  Like_user_id : Z;
  Like_message_id : Z
}.

#[global] Instance Follow_eq_dec : EqDecision Follow.
Proof. solve_decision. Defined.
#[global] Instance User_eq_dec : EqDecision User.
Proof. solve_decision. Defined.
#[global] Instance Message_eq_dec : EqDecision Message.
Proof. solve_decision. Defined.
#[global] Instance Like_eq_dec : EqDecision Like.
Proof. solve_decision. Defined.

#[global] Instance Follow_countable : Countable Follow.
Proof.
  refine (inj_countable'
            (λ f, (user_being_followed_id f, user_following_id f))
            (λ p, mkFollow p.1 p.2) _).
  by intros [].
Defined.

#[global] Instance Like_countable : Countable Like.
Proof.
  refine (inj_countable'
            (λ l, (Like_user_id l, Like_message_id l))
            (λ p, mkLike p.1 p.2) _).
  by intros [].
Defined.

(** ** Tables

    [users] and [messages] have the single primary key [id]: a finite map
    from the key to the row.  [follows] and [likes] have a composite primary
    key made of all their columns: a finite set of rows. *)

Record DB := mkDB {
  users : gmap Z User;
  messages : gmap Z Message;
  follows : gset Follow;
  likes : gset Like
}.

Definition with_users (t : gmap Z User) (d : DB) : DB :=
  mkDB t (messages d) (follows d) (likes d).
Definition with_messages (t : gmap Z Message) (d : DB) : DB :=
  mkDB (users d) t (follows d) (likes d).
Definition with_follows (t : gset Follow) (d : DB) : DB :=
  mkDB (users d) (messages d) t (likes d).
Definition with_likes (t : gset Like) (d : DB) : DB :=
  mkDB (users d) (messages d) (follows d) t.

(** The identity sequences behind [users.id] and [messages.id]: the last
    value handed out.  Sequences are not transactional. *)
Record Sequences := mkSequences {
  users_id_seq : Z;
  messages_id_seq : Z
}.

(** ** Exceptions *)

Inductive exn :=
| IntegrityError
| DataError
| MultipleResultsFound
| AttributeError
| ValueError
| HTTPException (code : Z).

(** ** What a request works on

    [txn] is the view of the open transaction of [db.session], [store] the
    committed rows; [session] is Flask's session and [flashes] the queue of
    flashed messages with their categories. *)

Record Ctx := mkCtx {
  txn : DB;
  store : DB;
  seqs : Sequences;
  session : gmap string Z;
  flashes : list (string * string)
}.

Definition with_txn (d : DB) (c : Ctx) : Ctx :=
  mkCtx d (store c) (seqs c) (session c) (flashes c).
Definition with_store (d : DB) (c : Ctx) : Ctx :=
  mkCtx (txn c) d (seqs c) (session c) (flashes c).
Definition with_seqs (s : Sequences) (c : Ctx) : Ctx :=
  mkCtx (txn c) (store c) s (session c) (flashes c).
Definition with_session (s : gmap string Z) (c : Ctx) : Ctx :=
  mkCtx (txn c) (store c) (seqs c) s (flashes c).
Definition with_flashes (f : list (string * string)) (c : Ctx) : Ctx :=
  mkCtx (txn c) (store c) (seqs c) (session c) f.

(** ** The monad of state and exceptions *)

Inductive Result (A : Type) :=
| Ok (a : A) (c : Ctx)
| Raise (e : exn) (c : Ctx).
Arguments Ok {A} a c.
Arguments Raise {A} e c.

Definition M (A : Type) : Type := Ctx → Result A.

#[global] Instance M_ret : MRet M := λ A a c, Ok a c.
#[global] Instance M_bind : MBind M := λ A B f m c,
  match m c with
  | Ok a c' => f a c'
  | Raise e c' => Raise e c'
  end.

Definition raise {A} (e : exn) : M A := λ c, Raise e c.
Definition gets {A} (f : Ctx → A) : M A := λ c, Ok (f c) c.
Definition modify (f : Ctx → Ctx) : M unit := λ c, Ok () (f c).

(** [try: body except: handler]; [handler e = None] when no clause catches
    [e]. *)
Definition try_except {A} (body : M A) (handler : exn → option (M A))
  : M A := λ c,
  match body c with
  | Ok a c' => Ok a c'
  | Raise e c' =>
      match handler e with
      | Some h => h c'
      | None => Raise e c'
      end
  end.

(** ** db.session *)

Definition commit : M unit := modify (λ c, with_store (txn c) c).
Definition rollback : M unit := modify (λ c, with_txn (store c) c).

(** A statement that the database refuses aborts the transaction, and the
    session rolls back before the error reaches the caller. *)
Definition fail_statement {A} (e : exn) : M A :=
  λ c, Raise e (with_txn (store c) c).

Definition check (b : bool) (e : exn) : M unit :=
  if b then mret () else fail_statement e.

Definition modify_txn (f : DB → DB) : M unit :=
  modify (λ c, with_txn (f (txn c)) c).

Definition nextval_users : M Z := λ c,
  let n := users_id_seq (seqs c) + 1 in
  Ok n (with_seqs (mkSequences n (messages_id_seq (seqs c))) c).

Definition nextval_messages : M Z := λ c,
  let n := messages_id_seq (seqs c) + 1 in
  Ok n (with_seqs (mkSequences (users_id_seq (seqs c)) n) c).

(** [db.session.get(User, id)] and [db.session.get(Message, id)]. *)
Definition get_User (d : DB) (id : Z) : option User := users d !! id.
Definition get_Message (d : DB) (id : Z) : option Message := messages d !! id.

Definition abort {A} (code : Z) : M A := raise (HTTPException code).

Definition get_or_404_User (id : Z) : M User :=
  d ← gets txn;
  match get_User d id with
  | Some u => mret u
  | None => abort 404
  end.

Definition get_or_404_Message (id : Z) : M Message :=
  d ← gets txn;
  match get_Message d id with
  | Some m => mret m
  | None => abort 404
  end.

(** ** The database engine

    Two things are left to the database by the schema and the queries.

    A SELECT delivers the rows of a table in an order of the engine's
    choosing, and [ORDER BY] then sorts them on the given key only; [scan]
    is that order for [messages].

    A [String(n)] column is a VARCHAR(n).  [varchar n s] is what the engine
    stores for [s], [None] when it refuses the value; a value that fits is
    stored as it is. *)
Class Engine := {
  scan : gmap Z Message → list Message;
  scan_perm : ∀ t, scan t ≡ₚ (map_to_list t).*2;
  varchar : Z → string → option string;
  varchar_fits : ∀ n s, len s ≤ n → varchar n s = Some s
}.

(** ** Statements

    [db.session.add(obj)] is modelled together with the flush that sends
    its INSERT.  In app.py every [add] is followed by [commit] under the
    same [try] (or under none), and loading a relationship flushes first,
    so flushing at once only fixes which of the two calls the constraint
    error is raised from.

    The checks are those of the declared schema: a [String(n)] column
    raises [DataError] for a value the engine refuses; [nullable=False],
    primary keys, [unique=True] and foreign keys raise [IntegrityError]. *)

Section statements.
Context `{Engine}.

Definition coerce (n : Z) (value : option string) : M (option string) :=
  match value with
  | Some s =>
      match varchar n s with
      | Some s' => mret (Some s')
      | None => fail_statement DataError
      end
  | None => mret None
  end.

Definition not_null {A} (value : option A) : M A :=
  match value with
  | Some a => mret a
  | None => fail_statement IntegrityError
  end.

(** [image_url=None] takes the column's default; [header_image_url], [bio]
    and [location] always do. *)
Definition add_User (username email : option string) (password : string)
    (image_url : option string) : M User :=
  id ← nextval_users;
  email ← coerce 50 email;
  username ← coerce 30 username;
  image_url ← coerce 255 (Some (default DEFAULT_IMAGE_URL image_url));
  password ← coerce 100 (Some password);
  email ← not_null email;
  username ← not_null username;
  image_url ← not_null image_url;
  password ← not_null password;
  let user := mkUser id email username image_url
                     DEFAULT_HEADER_IMAGE_URL "" "" password in
  d ← gets txn;
  check (bool_decide (users d !! id = None)) IntegrityError;;
  check (bool_decide (map_Forall (λ _ u, User_email u ≠ email) (users d)))
        IntegrityError;;
  check (bool_decide
           (map_Forall (λ _ u, User_username u ≠ username) (users d)))
        IntegrityError;;
  modify_txn (λ d, with_users (<[id := user]> (users d)) d);;
  mret user.

(** [timestamp] has [default=datetime.utcnow], read when the row is
    inserted: [utcnow] is the clock at that moment. *)
Definition add_Message (text : option string) (user_id : Z) (utcnow : Z)
  : M Message :=
  id ← nextval_messages;
  text ← coerce 140 text;
  text ← not_null text;
  let msg := mkMessage id text utcnow user_id in
  d ← gets txn;
  check (bool_decide (messages d !! id = None)) IntegrityError;;
  check (bool_decide (is_Some (users d !! user_id))) IntegrityError;;
  modify_txn (λ d, with_messages (<[id := msg]> (messages d)) d);;
  mret msg.

(** The flush of a modified [User]: UPDATE users SET ... WHERE id = ...,
    which writes the columns whose value changed.  [user] is the row as it
    was loaded in this transaction; [id], [location] and [password] are not
    assigned by any caller.  [bio] is a [Text] column, without a bound. *)
Definition set_column (n : Z) (old new : string) : M string :=
  if bool_decide (new = old) then mret old
  else match varchar n new with
       | Some s => mret s
       | None => fail_statement DataError
       end.

Definition update_User (user : User) (username email : option string)
    (image_url header_image_url : string) (bio : option string) : M unit :=
  username ← not_null username;
  email ← not_null email;
  bio ← not_null bio;
  username ← set_column 30 (User_username user) username;
  email ← set_column 50 (User_email user) email;
  image_url ← set_column 255 (User_image_url user) image_url;
  header_image_url ←
    set_column 255 (User_header_image_url user) header_image_url;
  d ← gets txn;
  check (bool_decide
           (email = User_email user
            ∨ map_Forall (λ _ u, User_email u ≠ email) (users d)))
        IntegrityError;;
  check (bool_decide
           (username = User_username user
            ∨ map_Forall (λ _ u, User_username u ≠ username) (users d)))
        IntegrityError;;
  let row := mkUser (User_id user) email username image_url header_image_url
                    bio (User_location user) (User_password user) in
  modify_txn (λ d, with_users (alter (λ _, row) (User_id user) (users d)) d).

End statements.

Definition add_Follow (follow : Follow) : M unit :=
  d ← gets txn;
  check (bool_decide (follow ∉ follows d)) IntegrityError;;
  check (bool_decide (is_Some (users d !! user_being_followed_id follow)))
        IntegrityError;;
  check (bool_decide (is_Some (users d !! user_following_id follow)))
        IntegrityError;;
  modify_txn (λ d, with_follows ({[follow]} ∪ follows d) d).

Definition add_Like (like : Like) : M unit :=
  d ← gets txn;
  check (bool_decide (like ∉ likes d)) IntegrityError;;
  check (bool_decide (is_Some (users d !! Like_user_id like)))
        IntegrityError;;
  check (bool_decide (is_Some (messages d !! Like_message_id like)))
        IntegrityError;;
  modify_txn (λ d, with_likes ({[like]} ∪ likes d) d).

(** [dbx(db.delete(Follow).filter_by(...))] and its siblings.  Deleting
    messages takes along the likes that reference them
    ([ondelete='CASCADE'] on [likes.message_id]). *)

Definition delete_Follow (P : Follow → Prop) `{∀ f, Decision (P f)}
  : M unit :=
  modify_txn (λ d, with_follows (filter (λ f, ¬ P f) (follows d)) d).

Definition delete_Like (P : Like → Prop) `{∀ l, Decision (P l)}
  : M unit :=
  modify_txn (λ d, with_likes (filter (λ l, ¬ P l) (likes d)) d).

Definition references_deleted (P : Message → Prop) (d : DB) (l : Like)
  : Prop :=
  match messages d !! Like_message_id l with
  | Some m => P m
  | None => False
  end.

#[global] Instance references_deleted_dec (P : Message → Prop)
  `{∀ m, Decision (P m)} d l : Decision (references_deleted P d l).
Proof. unfold references_deleted. destruct (messages d !! _); apply _. Defined.

Definition delete_Message (P : Message → Prop) `{∀ m, Decision (P m)}
  : M unit :=
  modify_txn (λ d,
    with_likes (filter (λ l, ¬ references_deleted P d l) (likes d))
      (with_messages
         (filter (λ kv : Z * Message, ¬ P kv.2) (messages d)) d)).

(** [DELETE FROM users WHERE id = ...], with the cascades declared on the
    foreign keys to [users.id]: both columns of [follows],
    [messages.user_id] (and through it the likes of those messages) and
    [likes.user_id]. *)
Definition delete_User_row (id : Z) : M unit :=
  delete_Follow (λ f, user_being_followed_id f = id
                      ∨ user_following_id f = id);;
  delete_Message (λ m, Message_user_id m = id);;
  delete_Like (λ l, Like_user_id l = id);;
  modify_txn (λ d, with_users (delete id (users d)) d).

(** ** Relationships

    A relationship is read from the transaction's view each time.  A
    many-to-one whose target row is missing loads as [None]. *)

Definition User_following_users (d : DB) (self : User) : list Follow :=
  filter (λ f, user_following_id f = User_id self) (elements (follows d)).

Definition User_followers_users (d : DB) (self : User) : list Follow :=
  filter (λ f, user_being_followed_id f = User_id self)
         (elements (follows d)).

Definition Follow_followed_user (d : DB) (follow : Follow) : option User :=
  get_User d (user_following_id follow).

Definition Follow_following_user (d : DB) (follow : Follow) : option User :=
  get_User d (user_being_followed_id follow).

Definition User_messages (d : DB) (self : User) : list Message :=
  filter (λ m, Message_user_id m = User_id self)
         (map_to_list (messages d)).*2.

Definition User_likes (d : DB) (self : User) : list Like :=
  filter (λ l, Like_user_id l = User_id self) (elements (likes d)).

Definition Message_likes (d : DB) (self : Message) : list Like :=
  filter (λ l, Like_message_id l = Message_id self) (elements (likes d)).

(** [db.session.delete(user)]: the relationships of [User] cascade
    ["all, delete-orphan"], so the unit of work first deletes the loaded
    [following_users], [followers_users], [messages] (each with its own
    [likes]) and [likes], then the user's row. *)
Definition session_delete_User (user : User) : M unit :=
  delete_Follow (λ f, user_following_id f = User_id user);;
  delete_Follow (λ f, user_being_followed_id f = User_id user);;
  delete_Message (λ m, Message_user_id m = User_id user);;
  delete_Like (λ l, Like_user_id l = User_id user);;
  delete_User_row (User_id user).

(** [db.session.delete(msg)]: [Message.likes] cascades too. *)
Definition session_delete_Message (msg : Message) : M unit :=
  delete_Like (λ l, Like_message_id l = Message_id msg);;
  delete_Message (λ m, Message_id m = Message_id msg).

(** ** class User *)

Definition User_following (d : DB) (self : User) : list (option User) :=
  Follow_following_user d <$> User_following_users d self.

Definition User_followers (d : DB) (self : User) : list (option User) :=
  Follow_followed_user d <$> User_followers_users d self.

Definition User_liked_messages (d : DB) (self : User)
  : list (option Message) :=
  (λ like, get_Message d (Like_message_id like)) <$> User_likes d self.

(** [==] on mapped objects is identity, and the session's identity map
    keeps one object per primary key; [None] equals no object. *)
Definition User_eqb (x : option User) (y : User) : bool :=
  match x with
  | Some x => bool_decide (User_id x = User_id y)
  | None => false
  end.

Definition Message_eqb (x : option Message) (y : Message) : bool :=
  match x with
  | Some x => bool_decide (Message_id x = Message_id y)
  | None => false
  end.

Definition User_is_followed_by (d : DB) (self other_user : User) : bool :=
  let found_user_list :=
    filter (λ user, User_eqb user other_user = true) (User_followers d self)
  in bool_decide (length found_user_list = 1%nat).

Definition User_is_following (d : DB) (self other_user : User) : bool :=
  let found_user_list :=
    filter (λ user, User_eqb user other_user = true) (User_following d self)
  in bool_decide (length found_user_list = 1%nat).

Definition User_follow (self other_user : User) : M unit :=
  add_Follow (mkFollow (User_id other_user) (User_id self)).

Definition User_unfollow (self other_user : User) : M unit :=
  delete_Follow (λ f, user_being_followed_id f = User_id other_user
                      ∧ user_following_id f = User_id self).

Definition User_toggle_like (self : User) (msg : Message) : M unit :=
  d ← gets txn;
  if existsb (λ m, Message_eqb m msg) (User_liked_messages d self)
  then delete_Like (λ l, Like_user_id l = User_id self
                         ∧ Like_message_id l = Message_id msg)
  else add_Like (mkLike (User_id self) (Message_id msg)).

(** ** Password hashing (flask_bcrypt)

    [generate_password_hash] draws a fresh salt at each call: the salt is
    an argument.  A bcrypt digest is 60 characters long; all that is used of
    it is that it fits the [String(100)] column. *)
Class Bcrypt := {
  generate_password_hash : string → string → string;
  check_password_hash : string → string → bool;
  password_hash_fits :
    ∀ salt password, len (generate_password_hash salt password) ≤ 100
}.

Section with_bcrypt.
Context `{Bcrypt} `{Engine}.

Definition User_signup (salt : string) (username email password : option string)
    (image_url : option string) : M User :=
  match password with
  | Some password =>
      if truthy password then
        let hashed_pwd := generate_password_hash salt password in
        add_User username email hashed_pwd image_url
      else raise ValueError
  | None => raise ValueError
  end.

Definition scalar_one_or_none {A} (rows : list A) : M (option A) :=
  match rows with
  | [] => mret None
  | [row] => mret (Some row)
  | _ => raise MultipleResultsFound
  end.

(** [None] stands for the [False] that the method returns when there is no
    match. *)
Definition User_authenticate (username password : string)
  : M (option User) :=
  d ← gets txn;
  user ← scalar_one_or_none
           (filter (λ u, User_username u = username)
                   (map_to_list (users d)).*2);
  match user with
  | Some user =>
      let is_auth := check_password_hash (User_password user) password in
      if is_auth then mret (Some user) else mret None
  | None => mret None
  end.

End with_bcrypt.

(** ** The home feed query *)

Definition timestamp_desc (a b : Message) : Prop :=
  Message_timestamp b ≤ Message_timestamp a.

#[global] Instance timestamp_desc_dec a b : Decision (timestamp_desc a b).
Proof. unfold timestamp_desc. apply _. Defined.

(** [db.select(Message).where(Message.user_id.in_(ids))
      .order_by(Message.timestamp.desc()).limit(n)] *)
Definition select_Message_feed `{Engine} (d : DB) (ids : list Z) (n : nat)
  : list Message :=
  take n
    (merge_sort timestamp_desc
       (filter (λ m, Message_user_id m ∈ ids) (scan (messages d)))).

End Models.


(* ====================================================================== *)
(** * app.py *)
(* ====================================================================== *)

Module App.
Import Forms Models.

Definition CURR_USER_KEY : string := "curr_user".

Inductive Method := GET | POST.

#[global] Instance Method_eq_dec : EqDecision Method.
Proof. solve_decision. Defined.

(** A request, with what the server reads from its surroundings while it
    handles it: whether the anti-forgery token of the form checks out, the
    clock, and the salt drawn for a password hash. *)
Record Request := mkRequest {
  method : Method;
  form : FormData;
  csrf_token_ok : bool;
  utcnow : Z;
  salt : string
}.

(** Values handed to a template. *)
Inductive Value :=
| VForm (formdata : option FormData)
| VUser (user : option User)
| VMessage (msg : Message)
| VMessages (msgs : list Message)
| VInt (n : Z).

(** What a view (or the error handling around it) answers. *)
Inductive Response :=
| Redirect (location : string)
| Rendered (template : string) (context : list (string * Value)) (status : Z)
| ErrorPage (code : Z)
| InternalServerError.

Definition redirect (location : string) : M Response :=
  mret (Redirect location).

Definition render_template (template : string)
    (context : list (string * Value)) : M Response :=
  mret (Rendered template context 200).

Definition flash (message category : string) : M unit :=
  modify (λ c, with_flashes (flashes c ++ [(message, category)]) c).

(** ** FlaskForm *)

Definition is_submitted (rq : Request) : bool :=
  match method rq with
  | POST => true
  | GET => false
  end.

Definition formdata (rq : Request) : option FormData :=
  if is_submitted rq then Some (form rq) else None.

Definition validate_on_submit `{ShapeChecks} (fc : FormClass) (rq : Request)
  : bool :=
  is_submitted rq && validate fc (csrf_token_ok rq) (formdata rq).

(** [form.<name>.data] *)
Definition field_data (rq : Request) (name : string) : option string :=
  data (process (formdata rq) name).

(** ** User signup/login/logout *)

Definition add_user_to_g (c : Ctx) : option User :=
  match session c !! CURR_USER_KEY with
  | Some id => get_User (txn c) id
  | None => None
  end.

Definition do_login (user : User) : M unit :=
  modify (λ c, with_session (<[CURR_USER_KEY := User_id user]> (session c)) c).

Definition do_logout : M unit :=
  modify (λ c, with_session (delete CURR_USER_KEY (session c)) c).

Definition unauthorized : M Response :=
  flash "Access unauthorized." "danger";;
  redirect "/".

Section views.
Context `{ShapeChecks} `{Bcrypt} `{Engine}.

Definition signup (g_user : option User) (rq : Request) : M Response :=
  do_logout;;
  let form := VForm (formdata rq) in
  if validate_on_submit UserAddForm rq then
    r ← try_except
          (user ← User_signup (salt rq)
                     (field_data rq "username")
                     (field_data rq "email")
                     (field_data rq "password")
                     (Some (or_else (field_data rq "image_url")
                                    DEFAULT_IMAGE_URL));
           commit;;
           mret (inl user))
          (λ e, match e with
                | IntegrityError =>
                    Some (flash "Username already taken" "danger";;
                          page ← render_template "users/signup.jinja"
                                   [("form"%string, form)];
                          mret (inr page))
                | _ => None
                end);
    match r with
    | inl user => do_login user;; redirect "/"
    | inr page => mret page
    end
  else render_template "users/signup.jinja" [("form"%string, form)].

(** A valid [LoginForm] has both values ([InputRequired]); the branch for a
    missing one stands for the error Python would raise on [None]. *)
Definition login (g_user : option User) (rq : Request) : M Response :=
  let form := VForm (formdata rq) in
  if validate_on_submit LoginForm rq then
    match field_data rq "username", field_data rq "password" with
    | Some username, Some password =>
        user ← User_authenticate username password;
        match user with
        | Some user =>
            do_login user;;
            flash ("Hello, " +:+ User_username user +:+ "!") "success";;
            redirect "/"
        | None =>
            flash "Invalid credentials." "danger";;
            render_template "users/login.jinja" [("form"%string, form)]
        end
    | _, _ => raise AttributeError
    end
  else render_template "users/login.jinja" [("form"%string, form)].

Definition logout (g_user : option User) (rq : Request) : M Response :=
  match validate_on_submit CSRFProtection rq, g_user with
  | true, Some _ =>
      do_logout;;
      flash "You have successfully logged out." "success";;
      redirect "/login"
  | _, _ => unauthorized
  end.

(** ** General user routes *)

Definition show_user (user_id : Z) (g_user : option User) (rq : Request)
  : M Response :=
  match g_user with
  | None => unauthorized
  | Some _ =>
      user ← get_or_404_User user_id;
      render_template "users/show.jinja" [("user"%string, VUser (Some user))]
  end.

Definition show_following (user_id : Z) (g_user : option User)
    (rq : Request) : M Response :=
  match g_user with
  | None => unauthorized
  | Some _ =>
      user ← get_or_404_User user_id;
      render_template "users/following.jinja"
        [("user"%string, VUser (Some user))]
  end.

Definition show_followers (user_id : Z) (g_user : option User)
    (rq : Request) : M Response :=
  match g_user with
  | None => unauthorized
  | Some _ =>
      user ← get_or_404_User user_id;
      render_template "users/followers.jinja"
        [("user"%string, VUser (Some user))]
  end.

Definition start_following (follow_id : Z) (g_user : option User)
    (rq : Request) : M Response :=
  match validate_on_submit CSRFProtection rq, g_user with
  | true, Some user =>
      followed_user ← get_or_404_User follow_id;
      User_follow user followed_user;;
      commit;;
      redirect ("/users/" +:+ pretty (User_id user) +:+ "/following")
  | _, _ => unauthorized
  end.

Definition stop_following (follow_id : Z) (g_user : option User)
    (rq : Request) : M Response :=
  match validate_on_submit CSRFProtection rq, g_user with
  | true, Some user =>
      followed_user ← get_or_404_User follow_id;
      User_unfollow user followed_user;;
      commit;;
      redirect ("/users/" +:+ pretty (User_id user) +:+ "/following")
  | _, _ => unauthorized
  end.

Definition show_likes (user_id : Z) (g_user : option User) (rq : Request)
  : M Response :=
  match g_user with
  | None => unauthorized
  | Some _ =>
      d ← gets txn;
      let user := get_User d user_id in
      render_template "users/likes.jinja" [("user"%string, VUser user)]
  end.

(** [request.form.get("came_from", "/")] *)
Definition form_get (rq : Request) (name default : string) : string :=
  match getlist name (form rq) with
  | v :: _ => v
  | [] => default
  end.

Definition toggle_like (message_id : Z) (g_user : option User)
    (rq : Request) : M Response :=
  match validate_on_submit CSRFProtection rq, g_user with
  | true, Some user =>
      liked_message ← get_or_404_Message message_id;
      let redirection_url := form_get rq "came_from" "/" in
      if bool_decide (Message_user_id liked_message = User_id user)
      then abort 403
      else
        User_toggle_like user liked_message;;
        commit;;
        redirect redirection_url
  | _, _ => unauthorized
  end.

Definition delete_user (g_user : option User) (rq : Request) : M Response :=
  match validate_on_submit CSRFProtection rq, g_user with
  | true, Some user =>
      do_logout;;
      delete_Message (λ m, Message_user_id m = User_id user);;
      session_delete_User user;;
      commit;;
      redirect "/signup"
  | _, _ => unauthorized
  end.

(** ** Messages routes *)

Definition add_message (g_user : option User) (rq : Request) : M Response :=
  match g_user with
  | None => unauthorized
  | Some user =>
      if validate_on_submit MessageForm rq then
        add_Message (field_data rq "text") (User_id user) (utcnow rq);;
        commit;;
        redirect ("/users/" +:+ pretty (User_id user))
      else
        render_template "messages/create.jinja"
          [("form"%string, VForm (formdata rq))]
  end.

Definition show_message (message_id : Z) (g_user : option User)
    (rq : Request) : M Response :=
  match g_user with
  | None => unauthorized
  | Some _ =>
      msg ← get_or_404_Message message_id;
      render_template "messages/show.jinja" [("message"%string, VMessage msg)]
  end.

Definition delete_message (message_id : Z) (g_user : option User)
    (rq : Request) : M Response :=
  match validate_on_submit CSRFProtection rq, g_user with
  | true, Some user =>
      msg ← get_or_404_Message message_id;
      if bool_decide (Message_user_id msg ≠ User_id user) then unauthorized
      else
        session_delete_Message msg;;
        commit;;
        redirect ("/users/" +:+ pretty (User_id user))
  | _, _ => unauthorized
  end.

(** ** Homepage and error pages *)

(** [[user.id for user in users]]; reading [.id] off [None] raises. *)
Definition ids_of (users : list (option User)) : M (list Z) :=
  mapM (λ user : option User,
          match user with
          | Some user => mret (User_id user)
          | None => raise AttributeError
          end) users.

Definition homepage (g_user : option User) (rq : Request) : M Response :=
  match g_user with
  | Some user =>
      d ← gets txn;
      ids ← ids_of (User_following d user);
      let following_ids := ids ++ [User_id user] in
      let messages := select_Message_feed d following_ids 100 in
      render_template "home.jinja" [("messages"%string, VMessages messages)]
  | None => render_template "home-anon.jinja" []
  end.

Definition page_not_found : Response := Rendered "404.jinja" [] 404.

(** ** The request cycle *)

(** The rules of the URL map, but for the user listing ([/users]) and the
    profile edit ([/users/profile]). *)
Inductive Endpoint :=
| signup_
| login_
| logout_
| show_user_ (user_id : Z)
| show_following_ (user_id : Z)
| show_followers_ (user_id : Z)
| start_following_ (follow_id : Z)
| stop_following_ (follow_id : Z)
| show_likes_ (user_id : Z)
| toggle_like_ (message_id : Z)
| delete_user_
| add_message_
| show_message_ (message_id : Z)
| delete_message_ (message_id : Z)
| homepage_.

(** The methods each rule of the URL map accepts. *)
Definition methods (e : Endpoint) : list Method :=
  match e with
  | signup_ | login_ | add_message_ => [GET; POST]
  | logout_ | start_following_ _ | stop_following_ _ | toggle_like_ _
  | delete_user_ | delete_message_ _ => [POST]
  | show_user_ _ | show_following_ _ | show_followers_ _ | show_likes_ _
  | show_message_ _ | homepage_ => [GET]
  end.

Definition view_function (e : Endpoint)
  : option User → Request → M Response :=
  match e with
  | signup_ => signup
  | login_ => login
  | logout_ => logout
  | show_user_ user_id => show_user user_id
  | show_following_ user_id => show_following user_id
  | show_followers_ user_id => show_followers user_id
  | start_following_ follow_id => start_following follow_id
  | stop_following_ follow_id => stop_following follow_id
  | show_likes_ user_id => show_likes user_id
  | toggle_like_ message_id => toggle_like message_id
  | delete_user_ => delete_user
  | add_message_ => add_message
  | show_message_ message_id => show_message message_id
  | delete_message_ message_id => delete_message message_id
  | homepage_ => homepage
  end.

(** An [HTTPException] becomes its error page, the 404 one through
    [page_not_found]; any other exception is a 500. *)
Definition handle_exception (e : exn) : Response :=
  match e with
  | HTTPException code =>
      if bool_decide (code = 404) then page_not_found else ErrorPage code
  | _ => InternalServerError
  end.

(** [db.session] is scoped to the request: its transaction starts from the
    committed rows, and when the request is over the session is removed,
    which rolls back what was not committed. *)
Definition shutdown_session (c : Ctx) : Ctx := with_txn (store c) c.

(** [add_user_to_g] runs before the view; the view's answer, or the page
    for the exception it raised, is the response. *)
Definition handle (e : Endpoint) (rq : Request) (c : Ctx) : Response * Ctx :=
  let c := shutdown_session c in
  if bool_decide (method rq ∈ methods e) then
    let g_user := add_user_to_g c in
    match view_function e g_user rq c with
    | Ok resp c' => (resp, shutdown_session c')
    | Raise ex c' => (handle_exception ex, shutdown_session c')
    end
  else (ErrorPage 405, c).

(** ** The profile edit, and the request cycle for any view *)

(** [getattr(user, name)] for the names of the fields of [UserEditForm]. *)
Definition User_getattr (user : User) (name : string) : option string :=
  if bool_decide (name = "username"%string) then Some (User_username user)
  else if bool_decide (name = "email"%string) then Some (User_email user)
  else if bool_decide (name = "image_url"%string)
       then Some (User_image_url user)
  else if bool_decide (name = "header_image_url"%string)
       then Some (User_header_image_url user)
  else if bool_decide (name = "bio"%string) then Some (User_bio user)
  else if bool_decide (name = "password"%string)
       then Some (User_password user)
  else None.

Definition validate_on_submit_obj (fc : FormClass)
    (obj : string → option string) (rq : Request) : bool :=
  is_submitted rq && validate_obj fc (csrf_token_ok rq) obj (formdata rq).

Definition field_data_obj (obj : string → option string) (rq : Request)
    (name : string) : option string :=
  data (process_obj obj (formdata rq) name).

(** As in [login], the branch for a missing password stands for the error
    Python would raise on [None]; a valid form has the value. *)
Definition edit_profile (g_user : option User) (rq : Request) : M Response :=
  match g_user with
  | None => unauthorized
  | Some user =>
      let obj := User_getattr user in
      let page :=
        render_template "users/edit.jinja"
          [("form"%string, VForm (formdata rq));
           ("user_id"%string, VInt (User_id user))] in
      if validate_on_submit_obj UserEditForm obj rq then
        match field_data_obj obj rq "password" with
        | Some password =>
            auth ← User_authenticate (User_username user) password;
            match auth with
            | Some _ =>
                try_except
                  (update_User user
                     (field_data_obj obj rq "username")
                     (field_data_obj obj rq "email")
                     (or_else (field_data_obj obj rq "image_url")
                              DEFAULT_IMAGE_URL)
                     (or_else (field_data_obj obj rq "header_image_url")
                              DEFAULT_HEADER_IMAGE_URL)
                     (field_data_obj obj rq "bio");;
                   commit;;
                   redirect ("/users/" +:+ pretty (User_id user)))
                  (λ e, match e with
                        | IntegrityError =>
                            Some (rollback;;
                                  flash "Username already taken" "danger";;
                                  page)
                        | _ => None
                        end)
            | None =>
                flash "Wrong password, please try again." "danger";;
                page
            end
        | None => raise AttributeError
        end
      else page
  end.

(** The request cycle of [handle], for a view and the methods its rule
    accepts. *)
Definition serve (allowed : list Method)
    (view : option User → Request → M Response) (rq : Request) (c : Ctx)
  : Response * Ctx :=
  let c := shutdown_session c in
  if bool_decide (method rq ∈ allowed) then
    let g_user := add_user_to_g c in
    match view g_user rq c with
    | Ok resp c' => (resp, shutdown_session c')
    | Raise ex c' => (handle_exception ex, shutdown_session c')
    end
  else (ErrorPage 405, c).

End views.

End App.


(* ====================================================================== *)
(** * Constraints of the schema and sample data *)
(* ====================================================================== *)

Import Forms Models App.

(** The constraints the schema declares, as a property of the rows: primary
    keys, [unique=True] on [username] and [email], and the foreign keys. *)
Record db_ok (d : DB) : Prop := mk_db_ok {
  users_pk : ∀ k u, users d !! k = Some u → User_id u = k;
  messages_pk : ∀ k m, messages d !! k = Some m → Message_id m = k;
  username_unique : ∀ k1 k2 u1 u2,
    users d !! k1 = Some u1 → users d !! k2 = Some u2 →
    User_username u1 = User_username u2 → k1 = k2;
  email_unique : ∀ k1 k2 u1 u2,
    users d !! k1 = Some u1 → users d !! k2 = Some u2 →
    User_email u1 = User_email u2 → k1 = k2;
  messages_fk : ∀ k m,
    messages d !! k = Some m → is_Some (users d !! Message_user_id m);
  follows_fk : ∀ f, f ∈ follows d →
    is_Some (users d !! user_being_followed_id f)
    ∧ is_Some (users d !! user_following_id f);
  likes_fk : ∀ l, l ∈ likes d →
    is_Some (users d !! Like_user_id l)
    ∧ is_Some (messages d !! Like_message_id l)
}.

(** The session names a user whose row is stored: [g.user] is that user. *)
Definition logged_in (c : Ctx) (u : User) : Prop :=
  ∃ id, session c !! CURR_USER_KEY = Some id ∧ users (store c) !! id = Some u.

(** The rows a user's feed draws from: the user's own messages and those
    of the users the user follows. *)
Definition in_feed (d : DB) (u : User) (m : Message) : Prop :=
  Message_user_id m = User_id u
  ∨ mkFollow (Message_user_id m) (User_id u) ∈ follows d.

#[global] Instance in_feed_dec d u m : Decision (in_feed d u m).
Proof. unfold in_feed. apply _. Defined.

Definition feed_candidates (d : DB) (u : User) : list Message :=
  filter (in_feed d u) (map_to_list (messages d)).*2.

(** The number of stored users with a given username. *)
Definition count_username (d : DB) (name : string) : nat :=
  length (filter (λ u, User_username u = name) (map_to_list (users d)).*2).

(** The rows of the open transaction and the committed rows both meet the
    constraints. *)
Definition ctx_ok (c : Ctx) : Prop := db_ok (txn c) ∧ db_ok (store c).

(** [keeps m]: from rows that meet the constraints, [m] ends, normally or
    with an exception, on rows that meet them. *)
Definition keeps {A} (m : M A) : Prop :=
  ∀ c, ctx_ok c →
    match m c with
    | Ok _ c' => ctx_ok c'
    | Raise _ c' => ctx_ok c'
    end.

(** What is left of the rows once the user [id] is deleted: the user's row,
    the user's messages, the follows at either end of which the user is,
    the user's likes and the likes of the user's messages are gone. *)
Definition purge_user (id : Z) (d : DB) : DB :=
  mkDB (delete id (users d))
       (filter (λ kv : Z * Message, Message_user_id kv.2 ≠ id) (messages d))
       (filter (λ f, user_being_followed_id f ≠ id ∧ user_following_id f ≠ id)
               (follows d))
       (filter (λ l, Like_user_id l ≠ id
                     ∧ ¬ references_deleted (λ m, Message_user_id m = id) d l)
               (likes d)).

(** The rows with the like [l] flipped: removed when present, added when
    absent. *)
Definition toggle_row (d : DB) (l : Like) : DB :=
  with_likes (if bool_decide (l ∈ likes d) then likes d ∖ {[l]}
              else {[l]} ∪ likes d) d.

(** ** Gates, framing and the request cycle over all routes *)

(** The views behind the authorization gate. *)
Definition protected (e : Endpoint) : bool :=
  match e with
  | signup_ | login_ | homepage_ => false
  | _ => true
  end.

(** The views that check the anti-forgery form before anything else. *)
Definition csrf_guarded (e : Endpoint) : bool :=
  match e with
  | logout_ | start_following_ _ | stop_following_ _ | toggle_like_ _
  | delete_user_ | delete_message_ _ => true
  | _ => false
  end.

(** The row a view fetches with [get_or_404] is not there. *)
Definition missing_target (d : DB) (e : Endpoint) : Prop :=
  match e with
  | show_user_ id | show_following_ id | show_followers_ id
  | start_following_ id | stop_following_ id => users d !! id = None
  | toggle_like_ id | show_message_ id | delete_message_ id =>
      messages d !! id = None
  | _ => False
  end.

(** The answer of a request that is turned away: a redirect to the home
    page with the flash, and nothing else changed. *)
Definition unauthorized_outcome (c : Ctx) : Response * Ctx :=
  (Redirect "/",
   with_flashes
     (flashes c ++ [("Access unauthorized."%string, "danger"%string)])
     (shutdown_session c)).

(** [fixes f m]: however [m] ends, the part [f] of the context is as it
    was. *)
Definition fixes {A X} (f : Ctx → X) (m : M A) : Prop :=
  ∀ c, match m c with
       | Ok _ c' => f c' = f c
       | Raise _ c' => f c' = f c
       end.

(** Parts of the context that the open transaction, or the sequences, are
    no part of. *)
Definition txn_blind {X} (f : Ctx → X) : Prop :=
  ∀ d c, f (with_txn d c) = f c.
Definition seqs_blind {X} (f : Ctx → X) : Prop :=
  ∀ s c, f (with_seqs s c) = f c.

(** A request to any route of the model: one of the endpoints of [handle],
    or the profile edit. *)
Inductive Route :=
| view_ (e : Endpoint)
| edit_profile_.

Definition dispatch `{ShapeChecks} `{Bcrypt} `{Engine}
    (r : Route) (rq : Request) (c : Ctx) : Response * Ctx :=
  match r with
  | view_ e => handle e rq c
  | edit_profile_ => serve [GET; POST] edit_profile rq c
  end.

(** The requests of a list, served one after the other. *)
Definition serve_all `{ShapeChecks} `{Bcrypt} `{Engine}
    (rqs : list (Route * Request)) (c : Ctx) : Ctx :=
  foldl (λ c rrq, (dispatch rrq.1 rrq.2 c).2) c rqs.

Definition is_redirect (r : Response) : bool :=
  match r with
  | Redirect _ => true
  | _ => false
  end.

(** [settles m]: [m] leaves the committed rows as they were, unless it
    answers with a redirect. *)
Definition settles (m : M Response) : Prop :=
  ∀ c, match m c with
       | Ok r c' => is_redirect r = true ∨ store c' = store c
       | Raise _ c' => store c' = store c
       end.

(** A step that returns without touching the context, or fails as a
    refused statement does. *)
Definition pure_or_fails {A} (m : M A) : Prop :=
  ∀ c, (∃ a, m c = Ok a c) ∨ (∃ e, m c = Raise e (with_txn (store c) c)).

Module Sample.

(** Stand-ins for the libraries and the engine, to run the model on data. *)

Definition checks : ShapeChecks :=
  {| valid_email := λ s, bool_decide (s ≠ ""%string);
     valid_url := λ s, bool_decide (s ≠ ""%string) |}.

Definition digest : string := "$2b$12$0123456789abcdefghijklmnopqrstuvwxyzABCDEFGHIJKLMNOPQ".

Definition bcrypt : Bcrypt :=
  {| generate_password_hash := λ _ _, digest;
     check_password_hash := λ _ password,
       bool_decide (password = "password"%string);
     password_hash_fits := λ _ _, ltac:(by vm_compute) |}.

Definition refuse_long (n : Z) (s : string) : option string :=
  if len s <=? n then Some s else None.

Definition refuse_long_fits n s : len s ≤ n → refuse_long n s = Some s :=
  λ Hle, ltac:(unfold refuse_long; destruct (Z.leb_spec (len s) n);
               [reflexivity | lia]).

(** Two engines that differ only in the order in which they deliver rows. *)
Definition engine : Engine :=
  {| scan := λ t, (map_to_list t).*2;
     scan_perm := λ t, Permutation_refl _;
     varchar := refuse_long;
     varchar_fits := refuse_long_fits |}.

Definition engine' : Engine :=
  {| scan := λ t, reverse (map_to_list t).*2;
     scan_perm := λ t, reverse_Permutation _;
     varchar := refuse_long;
     varchar_fits := refuse_long_fits |}.

Definition u1 : User :=
  mkUser 1 "u1@email.com" "u1" DEFAULT_IMAGE_URL DEFAULT_HEADER_IMAGE_URL
         "" "" digest.
Definition u2 : User :=
  mkUser 2 "u2@email.com" "u2" DEFAULT_IMAGE_URL DEFAULT_HEADER_IMAGE_URL
         "" "" digest.

Definition m1 : Message := mkMessage 1 "m1-text" 10 1.
Definition m2 : Message := mkMessage 2 "m2-text" 10 2.

(** [u1] follows [u2] and likes [u2]'s message. *)
Definition rows : DB :=
  mkDB (<[1 := u1]> (<[2 := u2]> ∅))
       (<[1 := m1]> (<[2 := m2]> ∅))
       {[ mkFollow 2 1 ]}
       {[ mkLike 1 2 ]}.

(** A context in which [u1] is logged in. *)
Definition ctx : Ctx :=
  mkCtx rows rows (mkSequences 2 2) {[ CURR_USER_KEY := 1 ]} [].

Definition post (form : FormData) : Request :=
  mkRequest POST form true 100 "salt".

Definition get : Request := mkRequest GET [] true 100 "salt".

Definition text141 : string :=
  "aaaaaaaaaaaaaaaaaaaaaaaaaaaaaaaaaaaaaaaaaaaaaaaaaaaaaaaaaaaaaaaaaaaaaa" +:+
  "aaaaaaaaaaaaaaaaaaaaaaaaaaaaaaaaaaaaaaaaaaaaaaaaaaaaaaaaaaaaaaaaaaaaaa" +:+
  "a".

End Sample.

(** Requests on the sample data. *)
Module Requests.

(** [Sample.ctx] with nobody logged in. *)
Definition anon : Ctx := with_session ∅ Sample.ctx.

Definition bad_token : Request := mkRequest POST [] false 100 "salt".

Definition signup_form : FormData :=
  [ ("username"%string, "u3"%string);
    ("email"%string, "u3@email.com"%string);
    ("password"%string, "password"%string) ].

Definition u3 : User :=
  mkUser 3 "u3@email.com" "u3" DEFAULT_IMAGE_URL DEFAULT_HEADER_IMAGE_URL
         "" "" Sample.digest.

Definition login_form (username password : string) : FormData :=
  [ ("username"%string, username); ("password"%string, password) ].

Definition edit_form (username password : string) : FormData :=
  [ ("username"%string, username);
    ("email"%string, "u1@email.com"%string);
    ("bio"%string, "hi"%string);
    ("password"%string, password) ].

End Requests.


(* ====================================================================== *)
(** * Running the monad *)
(* ====================================================================== *)

Lemma run_bind {A B} (m : M A) (f : A → M B) c :
  (m ≫= f) c
  = match m c with Ok a c' => f a c' | Raise e c' => Raise e c' end.
Proof. reflexivity. Qed.

Lemma run_ret {A} (a : A) c : (mret a : M A) c = Ok a c.
Proof. reflexivity. Qed.

(** Unfolds the monad and the accessors of the context, and nothing else. *)
Ltac run :=
  repeat (progress
    (unfold mbind, M_bind, mret, M_ret, gets, modify, modify_txn,
       raise, abort, fail_statement, check, commit;
     cbn [txn store seqs session flashes
          with_txn with_store with_seqs with_session with_flashes
          users messages follows likes
          with_users with_messages with_follows with_likes
          shutdown_session fst snd])).

Lemma run_get_or_404_Message id c m :
  messages (txn c) !! id = Some m → get_or_404_Message id c = Ok m c.
Proof.
  intros Hm. unfold get_or_404_Message. rewrite run_bind. simpl.
  unfold get_Message. by rewrite Hm.
Qed.

Lemma run_get_or_404_User_None id c :
  users (txn c) !! id = None →
  get_or_404_User id c = Raise (HTTPException 404) c.
Proof.
  intros Hm. unfold get_or_404_User. rewrite run_bind. simpl.
  unfold get_User. by rewrite Hm.
Qed.

(** * Requests *)

Lemma csrf_form_valid `{ShapeChecks} rq :
  method rq = POST → csrf_token_ok rq = true →
  validate_on_submit CSRFProtection rq = true.
Proof.
  intros Hm Hc. unfold validate_on_submit, is_submitted, validate.
  by rewrite Hm, Hc.
Qed.

Lemma logged_in_g_user c u :
  logged_in c u → add_user_to_g (shutdown_session c) = Some u.
Proof.
  intros (id & Hs & Hu). unfold add_user_to_g. simpl. by rewrite Hs.
Qed.

Lemma method_allowed_GET_POST rq :
  bool_decide (method rq ∈ [GET; POST]) = true.
Proof. apply bool_decide_eq_true. destruct (method rq); set_solver. Qed.

(** * Lists and tables *)

Lemma singleton_of_NoDup {A} (l : list A) a :
  NoDup l → (∀ x, x ∈ l ↔ x = a) → l = [a].
Proof.
  intros Hnd Hin. apply Permutation_singleton_r.
  apply NoDup_Permutation; [done | apply NoDup_singleton |].
  intros x. rewrite Hin. by rewrite list_elem_of_singleton.
Qed.

Lemma filter_only {A} (P : A → Prop) `{∀ a, Decision (P a)} (l : list A) a :
  NoDup l → a ∈ l → P a → (∀ x, x ∈ l → P x → x = a) → filter P l = [a].
Proof.
  intros Hnd Hin HP Hall. apply singleton_of_NoDup; [by apply NoDup_filter|].
  intros x. rewrite list_elem_of_filter. split.
  - intros [? ?]. by apply Hall.
  - by intros ->.
Qed.

Lemma filter_none {A} (P : A → Prop) `{∀ a, Decision (P a)} (l : list A) :
  (∀ x, x ∈ l → ¬ P x) → filter P l = [].
Proof.
  intros Hall. apply elem_of_nil_inv. intros x.
  rewrite list_elem_of_filter. intros [? ?]. by eapply Hall.
Qed.

Lemma length_filter_fmap {A B} (g : A → B) (P : B → Prop)
    `{∀ b, Decision (P b)} (l : list A) :
  length (filter P (g <$> l)) = length (filter (λ a, P (g a)) l).
Proof.
  induction l as [|a l IH]; [done|]. rewrite fmap_cons, !filter_cons.
  destruct (decide (P (g a))); simpl; by rewrite IH.
Qed.

Lemma elem_of_users_values d u :
  u ∈ (map_to_list (users d)).*2 ↔ ∃ k, users d !! k = Some u.
Proof.
  rewrite list_elem_of_fmap. split.
  - intros ([k u'] & -> & Hin). exists k. by apply elem_of_map_to_list.
  - intros (k & Hk). exists (k, u). split; [done|].
    by apply elem_of_map_to_list.
Qed.

Lemma users_values_NoDup d : db_ok d → NoDup (map_to_list (users d)).*2.
Proof.
  intros Hok. apply NoDup_fmap_2_strong; [| apply NoDup_map_to_list].
  intros [k1 u1] [k2 u2] H1 H2 Heq. simpl in Heq. subst u2.
  apply elem_of_map_to_list in H1, H2.
  apply (users_pk d Hok) in H1, H2. congruence.
Qed.

Lemma filter_username_stored d k u :
  db_ok d → users d !! k = Some u →
  filter (λ u', User_username u' = User_username u)
         (map_to_list (users d)).*2 = [u].
Proof.
  intros Hok Hk. apply singleton_of_NoDup.
  - apply NoDup_filter, users_values_NoDup, Hok.
  - intros x. rewrite list_elem_of_filter, elem_of_users_values. split.
    + intros (Hname & k' & Hk').
      assert (k' = k) as ->
        by exact (username_unique d Hok k' k x u Hk' Hk Hname).
      congruence.
    + intros ->. eauto.
Qed.

Lemma filter_username_unknown d name :
  (∀ k u, users d !! k = Some u → User_username u ≠ name) →
  filter (λ u', User_username u' = name) (map_to_list (users d)).*2 = [].
Proof.
  intros Hno. apply filter_none. intros x Hx Hname.
  apply elem_of_users_values in Hx as (k & Hk). by eapply Hno.
Qed.

Lemma count_username_stored d k u :
  db_ok d → users d !! k = Some u →
  count_username d (User_username u) = 1%nat.
Proof.
  intros Hok Hk. unfold count_username. by erewrite filter_username_stored.
Qed.

Lemma with_follows_id d : with_follows (follows d) d = d.
Proof. by destruct d. Qed.

Lemma with_txn_id c : with_txn (txn c) c = c.
Proof. by destruct c. Qed.

(** * The sample rows *)

Lemma Sample_rows_ok : db_ok Sample.rows.
Proof.
  assert (∀ k u, users Sample.rows !! k = Some u →
            (k = 1 ∧ u = Sample.u1) ∨ (k = 2 ∧ u = Sample.u2)) as Hu.
  { intros k u. unfold Sample.rows. cbn [users].
    rewrite !lookup_insert_Some, lookup_empty.
    intros [[<- <-]|[_ [[<- <-]|[_ [=]]]]]; auto. }
  assert (∀ k m, messages Sample.rows !! k = Some m →
            (k = 1 ∧ m = Sample.m1) ∨ (k = 2 ∧ m = Sample.m2)) as Hm.
  { intros k m. unfold Sample.rows. cbn [messages].
    rewrite !lookup_insert_Some, lookup_empty.
    intros [[<- <-]|[_ [[<- <-]|[_ [=]]]]]; auto. }
  split.
  - intros k u [[-> ->]|[-> ->]]%Hu; done.
  - intros k m [[-> ->]|[-> ->]]%Hm; done.
  - intros k1 k2 u1 u2 [[-> ->]|[-> ->]]%Hu [[-> ->]|[-> ->]]%Hu; done.
  - intros k1 k2 u1 u2 [[-> ->]|[-> ->]]%Hu [[-> ->]|[-> ->]]%Hu; done.
  - intros k m [[-> ->]|[-> ->]]%Hm; by eexists.
  - intros f Hf. unfold Sample.rows in Hf. cbn [follows] in Hf.
    apply elem_of_singleton in Hf as ->. split; by eexists.
  - intros l Hl. unfold Sample.rows in Hl. cbn [likes] in Hl.
    apply elem_of_singleton in Hl as ->. split; by eexists.
Qed.

Lemma Sample_logged_in : logged_in Sample.ctx Sample.u1.
Proof. by exists 1. Qed.

(* ====================================================================== *)
(** * The declared constraints are an invariant of the request cycle *)
(* ====================================================================== *)

Lemma keeps_ret {A} (a : A) : keeps (mret a).
Proof. by intros c Hc. Qed.

Lemma keeps_bind {A B} (m : M A) (f : A → M B) :
  keeps m → (∀ a, keeps (f a)) → keeps (m ≫= f).
Proof.
  intros Hm Hf c Hc. rewrite run_bind. specialize (Hm c Hc).
  destruct (m c) as [a c'|e c']; [by apply Hf|done].
Qed.

Lemma keeps_raise {A} e : keeps (raise e : M A).
Proof. by intros c Hc. Qed.

Lemma keeps_gets {A} (f : Ctx → A) : keeps (gets f).
Proof. by intros c Hc. Qed.

Lemma keeps_fail_statement {A} e : keeps (fail_statement e : M A).
Proof. intros c [_ Hs]. by split. Qed.

Lemma keeps_check b e : keeps (check b e).
Proof. destruct b; [apply keeps_ret|apply keeps_fail_statement]. Qed.

Lemma keeps_commit : keeps commit.
Proof. intros c [Ht _]. by split. Qed.

Lemma keeps_try_except {A} (body : M A) handler :
  keeps body → (∀ e h, handler e = Some h → keeps h) →
  keeps (try_except body handler).
Proof.
  intros Hb Hh c Hc. unfold try_except. specialize (Hb c Hc).
  destruct (body c) as [a c'|e c']; [done|].
  destruct (handler e) as [h|] eqn:He; [by eapply Hh|done].
Qed.

Lemma keeps_with_session (f : Ctx → gmap string Z) :
  keeps (modify (λ c, with_session (f c) c)).
Proof. by intros c Hc. Qed.

Lemma keeps_flash msg cat : keeps (flash msg cat).
Proof. by intros c Hc. Qed.

Lemma keeps_do_login u : keeps (do_login u).
Proof. by intros c Hc. Qed.

Lemma keeps_do_logout : keeps do_logout.
Proof. by intros c Hc. Qed.

Lemma keeps_nextval_users : keeps nextval_users.
Proof. by intros c Hc. Qed.

Lemma keeps_nextval_messages : keeps nextval_messages.
Proof. by intros c Hc. Qed.

Lemma keeps_modify_txn (f : DB → DB) :
  (∀ d, db_ok d → db_ok (f d)) → keeps (modify_txn f).
Proof. intros Hf c [Ht Hs]. split; [by apply Hf|done]. Qed.

Lemma keeps_get_or_404_User id : keeps (get_or_404_User id).
Proof.
  apply keeps_bind; [apply keeps_gets|]. intros d.
  destruct (get_User d id); [apply keeps_ret|apply keeps_raise].
Qed.

Lemma keeps_get_or_404_Message id : keeps (get_or_404_Message id).
Proof.
  apply keeps_bind; [apply keeps_gets|]. intros d.
  destruct (get_Message d id); [apply keeps_ret|apply keeps_raise].
Qed.

(** ** The statements *)

Lemma delete_follows_ok (P : Follow → Prop) `{∀ f, Decision (P f)} d :
  db_ok d → db_ok (with_follows (filter (λ f, ¬ P f) (follows d)) d).
Proof.
  intros [Hupk Hmpk Hname Hmail Hmfk Hffk Hlfk]. split; try done.
  cbn [with_follows follows users]. intros f [_ Hf]%elem_of_filter. eauto.
Qed.

Lemma delete_likes_ok (P : Like → Prop) `{∀ l, Decision (P l)} d :
  db_ok d → db_ok (with_likes (filter (λ l, ¬ P l) (likes d)) d).
Proof.
  intros [Hupk Hmpk Hname Hmail Hmfk Hffk Hlfk]. split; try done.
  cbn [with_likes likes users messages]. intros l [_ Hl]%elem_of_filter. eauto.
Qed.

Lemma delete_messages_ok (P : Message → Prop) `{∀ m, Decision (P m)} d :
  db_ok d →
  db_ok (with_likes (filter (λ l, ¬ references_deleted P d l) (likes d))
           (with_messages
              (filter (λ kv : Z * Message, ¬ P kv.2) (messages d)) d)).
Proof.
  intros [Hupk Hmpk Hname Hmail Hmfk Hffk Hlfk].
  split; cbn [with_likes with_messages users messages follows likes];
    try done.
  - intros k m [Hk _]%map_lookup_filter_Some. eauto.
  - intros k m [Hk _]%map_lookup_filter_Some. eauto.
  - intros l [Href Hl]%elem_of_filter.
    destruct (Hlfk l Hl) as [Hu [m Hm]]. split; [done|].
    exists m. apply map_lookup_filter_Some. split; [done|]. simpl.
    unfold references_deleted in Href. by rewrite Hm in Href.
Qed.

Lemma keeps_delete_Follow (P : Follow → Prop) `{∀ f, Decision (P f)} :
  keeps (delete_Follow P).
Proof. apply keeps_modify_txn. intros d. apply delete_follows_ok. Qed.

Lemma keeps_delete_Like (P : Like → Prop) `{∀ l, Decision (P l)} :
  keeps (delete_Like P).
Proof. apply keeps_modify_txn. intros d. apply delete_likes_ok. Qed.

Lemma keeps_delete_Message (P : Message → Prop) `{∀ m, Decision (P m)} :
  keeps (delete_Message P).
Proof. apply keeps_modify_txn. intros d. apply delete_messages_ok. Qed.

Lemma delete_user_row_ok id d :
  db_ok d →
  (∀ k m, messages d !! k = Some m → Message_user_id m ≠ id) →
  (∀ f, f ∈ follows d →
     user_being_followed_id f ≠ id ∧ user_following_id f ≠ id) →
  (∀ l, l ∈ likes d → Like_user_id l ≠ id) →
  db_ok (with_users (delete id (users d)) d).
Proof.
  intros [Hupk Hmpk Hname Hmail Hmfk Hffk Hlfk] Hm Hf Hl.
  assert (∀ k, k ≠ id → is_Some (users d !! k) →
               is_Some (delete id (users d) !! k)) as Hkeep.
  { intros k Hk [u Hu]. exists u. by apply lookup_delete_Some. }
  split; cbn [with_users users messages follows likes]; try done.
  - intros k u [_ Hk]%lookup_delete_Some. eauto.
  - intros k1 k2 u1 u2 [_ H1]%lookup_delete_Some [_ H2]%lookup_delete_Some.
    eauto.
  - intros k1 k2 u1 u2 [_ H1]%lookup_delete_Some [_ H2]%lookup_delete_Some.
    eauto.
  - intros k m Hk. apply Hkeep; eauto.
  - intros f Hin. destruct (Hf f Hin), (Hffk f Hin). split; by apply Hkeep.
  - intros l Hin. destruct (Hlfk l Hin). split; [|done].
    apply Hkeep; eauto.
Qed.

Lemma keeps_delete_User_row id : keeps (delete_User_row id).
Proof.
  intros c [Ht Hs].
  unfold delete_User_row, delete_Follow, delete_Message, delete_Like,
    modify_txn, modify, mbind, M_bind.
  cbn [txn store with_txn]. split; [|done].
  apply delete_user_row_ok.
  - by apply delete_likes_ok, delete_messages_ok, delete_follows_ok.
  - cbn [with_likes with_messages with_follows messages].
    by intros k m [_ ?]%map_lookup_filter_Some.
  - cbn [with_likes with_messages with_follows follows].
    intros f [Hne _]%elem_of_filter. tauto.
  - cbn [with_likes with_messages with_follows likes].
    by intros l [? _]%elem_of_filter.
Qed.

Lemma keeps_add_Follow f : keeps (add_Follow f).
Proof.
  intros c [Ht Hs]. unfold add_Follow. run.
  repeat (case_bool_decide; run); try done.
  split; [|done]. destruct Ht as [Hupk Hmpk Hname Hmail Hmfk Hffk Hlfk].
  split; try done. cbn [with_follows follows users].
  intros f' [->%elem_of_singleton|Hf']%elem_of_union; eauto.
Qed.

Lemma keeps_add_Like l : keeps (add_Like l).
Proof.
  intros c [Ht Hs]. unfold add_Like. run.
  repeat (case_bool_decide; run); try done.
  split; [|done]. destruct Ht as [Hupk Hmpk Hname Hmail Hmfk Hffk Hlfk].
  split; try done. cbn [with_likes likes users messages].
  intros l' [->%elem_of_singleton|Hl']%elem_of_union; eauto.
Qed.

Section statements_keep.
Context `{Engine}.

Lemma keeps_coerce n v : keeps (coerce n v).
Proof.
  destruct v as [s|]; [|apply keeps_ret]. simpl.
  destruct (varchar n s); [apply keeps_ret|apply keeps_fail_statement].
Qed.

Lemma keeps_not_null {A} (v : option A) : keeps (not_null v).
Proof. destruct v; [apply keeps_ret|apply keeps_fail_statement]. Qed.

Lemma insert_user_ok d id (user : User) :
  db_ok d →
  User_id user = id →
  users d !! id = None →
  map_Forall (λ _ u, User_email u ≠ User_email user) (users d) →
  map_Forall (λ _ u, User_username u ≠ User_username user) (users d) →
  db_ok (with_users (<[id := user]> (users d)) d).
Proof.
  intros [Hupk Hmpk Hname Hmail Hmfk Hffk Hlfk] Hid Hfresh Hem Hun.
  assert (∀ k, is_Some (users d !! k) →
               is_Some (<[id := user]> (users d) !! k)) as Hmono.
  { intros k Hk. apply lookup_insert_is_Some.
    destruct (decide (id = k)); [by left|by right]. }
  split; cbn [with_users users messages follows likes]; try done.
  - intros k u [[<- <-]|[_ Hk]]%lookup_insert_Some; eauto.
  - intros k1 k2 u1 u2 [[<- <-]|[_ H1]]%lookup_insert_Some
      [[<- <-]|[_ H2]]%lookup_insert_Some Heq; try done.
    + destruct (Hun k2 u2 H2). done.
    + destruct (Hun k1 u1 H1). done.
    + eauto.
  - intros k1 k2 u1 u2 [[<- <-]|[_ H1]]%lookup_insert_Some
      [[<- <-]|[_ H2]]%lookup_insert_Some Heq; try done.
    + destruct (Hem k2 u2 H2). done.
    + destruct (Hem k1 u1 H1). done.
    + eauto.
  - intros k m Hk. apply Hmono. eauto.
  - intros f Hf. destruct (Hffk f Hf). split; by apply Hmono.
  - intros l Hl. destruct (Hlfk l Hl). split; [by apply Hmono|done].
Qed.

Lemma keeps_add_User username email password image_url :
  keeps (add_User username email password image_url).
Proof.
  unfold add_User.
  apply keeps_bind; [apply keeps_nextval_users|]. intros id.
  apply keeps_bind; [apply keeps_coerce|]. intros email'.
  apply keeps_bind; [apply keeps_coerce|]. intros username'.
  apply keeps_bind; [apply keeps_coerce|]. intros image_url'.
  apply keeps_bind; [apply keeps_coerce|]. intros password'.
  apply keeps_bind; [apply keeps_not_null|]. intros e.
  apply keeps_bind; [apply keeps_not_null|]. intros n.
  apply keeps_bind; [apply keeps_not_null|]. intros i.
  apply keeps_bind; [apply keeps_not_null|]. intros p.
  intros c [Ht Hs]. run.
  repeat (case_bool_decide; run); try done.
  split; [|done]. by apply insert_user_ok.
Qed.

Lemma insert_message_ok d id (msg : Message) :
  db_ok d →
  Message_id msg = id →
  is_Some (users d !! Message_user_id msg) →
  db_ok (with_messages (<[id := msg]> (messages d)) d).
Proof.
  intros [Hupk Hmpk Hname Hmail Hmfk Hffk Hlfk] Hid Hfk.
  split; cbn [with_messages users messages follows likes]; try done.
  - intros k m [[<- <-]|[_ Hk]]%lookup_insert_Some; eauto.
  - intros k m [[<- <-]|[_ Hk]]%lookup_insert_Some; eauto.
  - intros l Hl. destruct (Hlfk l Hl) as [? Hm]. split; [done|].
    apply lookup_insert_is_Some.
    destruct (decide (id = Like_message_id l)); [by left|by right].
Qed.

Lemma keeps_add_Message text user_id utcnow :
  keeps (add_Message text user_id utcnow).
Proof.
  unfold add_Message.
  apply keeps_bind; [apply keeps_nextval_messages|]. intros id.
  apply keeps_bind; [apply keeps_coerce|]. intros text'.
  apply keeps_bind; [apply keeps_not_null|]. intros t.
  intros c [Ht Hs]. run.
  repeat (case_bool_decide; run); try done.
  split; [|done]. by apply insert_message_ok.
Qed.

End statements_keep.

(** ** The methods of [User] and the views *)

Create HintDb keeps.

#[local] Hint Resolve keeps_ret keeps_raise keeps_gets keeps_fail_statement
  keeps_check keeps_commit keeps_flash keeps_do_login keeps_do_logout
  keeps_get_or_404_User keeps_get_or_404_Message
  keeps_delete_Follow keeps_delete_Like keeps_delete_Message
  keeps_delete_User_row keeps_add_Follow keeps_add_Like : keeps.

#[local] Hint Extern 2 (keeps (_ ≫= _)) =>
  apply keeps_bind; [|intros ?] : keeps.

#[local] Hint Extern 1 (keeps (if ?b then _ else _)) => destruct b : keeps.

#[local] Hint Extern 1 (keeps (abort _)) => apply keeps_raise : keeps.

Lemma keeps_User_follow self other : keeps (User_follow self other).
Proof. apply keeps_add_Follow. Qed.

Lemma keeps_User_unfollow self other : keeps (User_unfollow self other).
Proof. apply keeps_delete_Follow. Qed.

Lemma keeps_User_toggle_like self msg : keeps (User_toggle_like self msg).
Proof.
  apply keeps_bind; [apply keeps_gets|]. intros d.
  destruct (existsb _ _); [apply keeps_delete_Like|apply keeps_add_Like].
Qed.

Lemma keeps_session_delete_User user : keeps (session_delete_User user).
Proof.
  unfold session_delete_User.
  apply keeps_bind; [apply keeps_delete_Follow|]. intros _.
  apply keeps_bind; [apply keeps_delete_Follow|]. intros _.
  apply keeps_bind; [apply keeps_delete_Message|]. intros _.
  apply keeps_bind; [apply keeps_delete_Like|]. intros _.
  apply keeps_delete_User_row.
Qed.

Lemma keeps_session_delete_Message msg : keeps (session_delete_Message msg).
Proof.
  apply keeps_bind; [apply keeps_delete_Like|]. intros _.
  apply keeps_delete_Message.
Qed.

Lemma keeps_scalar_one_or_none {A} (rows : list A) :
  keeps (scalar_one_or_none rows).
Proof.
  destruct rows as [|r [|r' rows]];
    [apply keeps_ret|apply keeps_ret|apply keeps_raise].
Qed.

Lemma keeps_ids_of l : keeps (ids_of l).
Proof.
  unfold ids_of. induction l as [|[u|] l IH]; cbn [mapM].
  - apply keeps_ret.
  - apply keeps_bind; [apply keeps_ret|]. intros id.
    apply keeps_bind; [apply IH|]. intros ids. apply keeps_ret.
  - apply keeps_bind; [apply keeps_raise|]. intros id.
    apply keeps_bind; [apply IH|]. intros ids. apply keeps_ret.
Qed.

Lemma keeps_unauthorized : keeps unauthorized.
Proof.
  apply keeps_bind; [apply keeps_flash|]. intros _. apply keeps_ret.
Qed.

#[local] Hint Resolve keeps_User_follow keeps_User_unfollow
  keeps_User_toggle_like keeps_session_delete_User
  keeps_session_delete_Message keeps_scalar_one_or_none keeps_ids_of
  keeps_unauthorized : keeps.

Section views_keep.
Context `{ShapeChecks} `{Bcrypt} `{Engine}.

Lemma keeps_User_signup salt username email password image_url :
  keeps (User_signup salt username email password image_url).
Proof.
  unfold User_signup. destruct password as [p|]; [|apply keeps_raise].
  destruct (truthy p); [apply keeps_add_User|apply keeps_raise].
Qed.

Lemma keeps_User_authenticate username password :
  keeps (User_authenticate username password).
Proof.
  apply keeps_bind; [apply keeps_gets|]. intros d.
  apply keeps_bind; [apply keeps_scalar_one_or_none|]. intros [u|].
  - destruct (check_password_hash _ _); apply keeps_ret.
  - apply keeps_ret.
Qed.

Lemma keeps_signup g_user rq : keeps (signup g_user rq).
Proof.
  unfold signup. apply keeps_bind; [apply keeps_do_logout|]. intros _.
  destruct (validate_on_submit UserAddForm rq); [|apply keeps_ret].
  apply keeps_bind.
  - apply keeps_try_except.
    + apply keeps_bind; [apply keeps_User_signup|]. intros user.
      apply keeps_bind; [apply keeps_commit|]. intros _. apply keeps_ret.
    + intros [] h [= <-].
      apply keeps_bind; [apply keeps_flash|]. intros _.
      apply keeps_bind; [apply keeps_ret|]. intros page. apply keeps_ret.
  - intros [user|page]; [|apply keeps_ret].
    apply keeps_bind; [apply keeps_do_login|]. intros _. apply keeps_ret.
Qed.

Lemma keeps_login g_user rq : keeps (login g_user rq).
Proof.
  unfold login.
  destruct (validate_on_submit LoginForm rq); [|apply keeps_ret].
  destruct (field_data rq "username") as [username|]; [|apply keeps_raise].
  destruct (field_data rq "password") as [password|]; [|apply keeps_raise].
  apply keeps_bind; [apply keeps_User_authenticate|].
  intros [user|]; auto 10 with keeps.
Qed.

Lemma keeps_add_message g_user rq : keeps (add_message g_user rq).
Proof.
  unfold add_message. destruct g_user as [user|]; [|apply keeps_unauthorized].
  destruct (validate_on_submit MessageForm rq); [|apply keeps_ret].
  apply keeps_bind; [apply keeps_add_Message|]. intros _.
  auto 10 with keeps.
Qed.

(** Every view keeps the constraints. *)
Lemma keeps_view_function e g_user rq : keeps (view_function e g_user rq).
Proof.
  destruct e; cbn [view_function];
    [apply keeps_signup | apply keeps_login | .. ];
    try apply keeps_add_message;
    unfold logout, show_user, show_following, show_followers,
      start_following, stop_following, show_likes, toggle_like, delete_user,
      show_message, delete_message, homepage, redirect, render_template;
    repeat case_match; auto 10 with keeps.
Qed.

(** Whatever the request to one of these endpoints, the rows stored after
    it meet the declared constraints if those before it did. *)
Lemma handle_db_ok e rq c :
  db_ok (store c) → db_ok (store (handle e rq c).2).
Proof.
  intros Hok. unfold handle. case_bool_decide; [|done].
  assert (ctx_ok (shutdown_session c)) as Hc by (by split).
  pose proof (keeps_view_function e (add_user_to_g (shutdown_session c)) rq
                _ Hc) as Hk.
  destruct (view_function _ _ _ _) as [resp c'|ex c']; by destruct Hk.
Qed.

End views_keep.

(* ====================================================================== *)
(** * Form validation *)
(* ====================================================================== *)

Lemma process_cases fd name :
  process fd name = mkField [] None
  ∨ ∃ r rest, process fd name = mkField (r :: rest) (Some r).
Proof.
  unfold process. destruct fd as [fd|]; [|by left].
  destruct (getlist name fd) as [|r rest]; [by left|right; eauto].
Qed.

Lemma truthy_len s : truthy s = true ↔ 0 < len s.
Proof. unfold len. destruct s; simpl; split; (done || lia). Qed.

Lemma field_data_process rq name s :
  field_data rq name = Some s →
  ∃ rest, process (formdata rq) name = mkField (s :: rest) (Some s).
Proof.
  unfold field_data.
  destruct (process_cases (formdata rq) name) as [-> | (r & rest & ->)];
    simpl; [done|]. intros [= ->]. eauto.
Qed.

Section form_lemmas.
Context `{ShapeChecks}.

(** A field under [InputRequired(), Length(min, max)] validates only with a
    submitted, non-empty value whose length is within the bounds. *)
Lemma required_length_valid min max fd name :
  field_validate [InputRequired; Length min max] (process fd name) = true →
  ∃ s, data (process fd name) = Some s ∧ truthy s = true
       ∧ min ≤ len s ∧ (max = -1 ∨ len s ≤ max).
Proof.
  unfold field_validate, field_errors.
  destruct (process_cases fd name) as [-> | (r & rest & ->)]; simpl; [done|].
  destruct (truthy r) eqn:Hr; simpl; [|done].
  destruct (Z.leb_spec min (len r)); simpl; [|done].
  destruct (Z.eqb_spec max (-1)); simpl; [by eauto 10|].
  destruct (Z.leb_spec (len r) max); simpl; [by eauto 10|done].
Qed.

Lemma required_email_length_valid max fd name :
  field_validate [InputRequired; Email; Length (-1) max] (process fd name)
  = true →
  ∃ s, data (process fd name) = Some s ∧ truthy s = true
       ∧ (max = -1 ∨ len s ≤ max).
Proof.
  unfold field_validate, field_errors.
  destruct (process_cases fd name) as [-> | (r & rest & ->)]; simpl; [done|].
  destruct (truthy r) eqn:Hr; simpl; [|done].
  destruct (valid_email r); simpl.
  - destruct (Z.eqb_spec max (-1)); simpl.
    + intros _. eauto 10.
    + destruct (Z.leb_spec (-1) (len r)); simpl; [|done].
      destruct (Z.leb_spec (len r) max); simpl; [by eauto 10|done].
  - destruct ((-1 <=? len r) && ((max =? -1) || (len r <=? max)));
      simpl; done.
Qed.

Lemma required_valid fd name text rest :
  process fd name = mkField (text :: rest) (Some text) →
  truthy text = true →
  field_validate [InputRequired] (process fd name) = true.
Proof.
  intros -> Ht. unfold field_validate, field_errors. simpl. by rewrite Ht.
Qed.

(** What a valid signup form tells about the submitted values. *)
Lemma UserAddForm_valid rq :
  validate_on_submit UserAddForm rq = true →
  method rq = POST
  ∧ (∃ s, field_data rq "username" = Some s ∧ truthy s = true ∧ len s ≤ 30)
  ∧ (∃ s, field_data rq "email" = Some s ∧ truthy s = true ∧ len s ≤ 50)
  ∧ (∃ s, field_data rq "password" = Some s ∧ truthy s = true
          ∧ 6 ≤ len s ≤ 50).
Proof.
  unfold validate_on_submit, validate, UserAddForm, field_data. simpl.
  rewrite !andb_true_iff.
  intros (Hsub & _ & Hu & He & Hp & _).
  split; [unfold is_submitted in Hsub; by destruct (method rq)|].
  apply required_length_valid in Hu as (s & ? & ? & ? & [|]); [done|].
  apply required_email_length_valid in He as (s' & ? & ? & [|]); [done|].
  apply required_length_valid in Hp as (p & ? & ? & ? & [|]); [done|].
  eauto 15.
Qed.

(** A valid login form carries both values. *)
Lemma LoginForm_valid rq :
  validate_on_submit LoginForm rq = true →
  (∃ s, field_data rq "username" = Some s)
  ∧ (∃ s, field_data rq "password" = Some s).
Proof.
  unfold validate_on_submit, validate, LoginForm, field_data. simpl.
  rewrite !andb_true_iff.
  intros (_ & _ & Hu & Hp & _).
  apply required_length_valid in Hu as (s & ? & _).
  apply required_length_valid in Hp as (p & ? & _).
  eauto.
Qed.

End form_lemmas.

(** The bounds of the password field are met by passwords of 6 and of 50
    characters. *)
Example signup_password_of_6_and_50_validates :
  @validate_on_submit Sample.checks UserAddForm
     (Sample.post [("username", "u3"); ("email", "u3@email.com");
                   ("password", "123456")]%string) = true
  ∧ @validate_on_submit Sample.checks UserAddForm
     (Sample.post
        [("username", "u3"); ("email", "u3@email.com");
         ("password",
          "01234567890123456789012345678901234567890123456789")]%string)
    = true.
Proof. by vm_compute. Qed.

Section signup_validation.
Context `{ShapeChecks} `{Bcrypt} `{Engine}.

(** C10.  A signup whose password is not between 6 and 50 characters
    (inclusive) does not pass the validation of the signup form; the form
    is shown again, and the stored rows are those from before the request:
    no user is created. *)
Theorem signup_rejects_password_length rq c :
  ¬ (∃ p, field_data rq "password" = Some p ∧ 6 ≤ len p ≤ 50) →
  validate_on_submit UserAddForm rq = false
  ∧ handle signup_ rq c
    = (Rendered "users/signup.jinja"
                [("form"%string, VForm (formdata rq))] 200,
       with_session (delete CURR_USER_KEY (session c)) (shutdown_session c))
  ∧ store (handle signup_ rq c).2 = store c.
Proof.
  intros Hp.
  assert (validate_on_submit UserAddForm rq = false) as Hv.
  { destruct (validate_on_submit UserAddForm rq) eqn:Hv; [|done].
    apply UserAddForm_valid in Hv as (_ & _ & _ & p & ? & ? & ?).
    destruct Hp. eauto. }
  split; [done|].
  assert (handle signup_ rq c
    = (Rendered "users/signup.jinja"
                [("form"%string, VForm (formdata rq))] 200,
       with_session (delete CURR_USER_KEY (session c)) (shutdown_session c)))
    as ->.
  { unfold handle. simpl methods. rewrite method_allowed_GET_POST.
    unfold view_function, signup. run. by rewrite Hv. }
  done.
Qed.

End signup_validation.

Lemma signup_rejects_password_length_witness :
  let rq := Sample.post [("username", "u3"); ("email", "u3@email.com");
                         ("password", "12345")]%string in
  @validate_on_submit Sample.checks UserAddForm rq = false
  ∧ @handle Sample.checks Sample.bcrypt Sample.engine signup_ rq Sample.ctx
    = (Rendered "users/signup.jinja"
                [("form"%string, VForm (formdata rq))] 200,
       with_session (delete CURR_USER_KEY (session Sample.ctx))
                    (shutdown_session Sample.ctx))
  ∧ store (@handle Sample.checks Sample.bcrypt Sample.engine signup_ rq
             Sample.ctx).2 = store Sample.ctx.
Proof.
  intros rq.
  apply (@signup_rejects_password_length
           Sample.checks Sample.bcrypt Sample.engine rq Sample.ctx).
  intros (p & Hp & Hlen). vm_compute in Hp. injection Hp as <-.
  vm_compute in Hlen. destruct Hlen as [Hlen _]. by apply Hlen.
Defined.

Section messages.
Context `{ShapeChecks} `{Bcrypt} `{Engine}.

(** C8 (what the code does).  A logged-in user posts a text of more than
    140 characters: the message form validates, so the request is not
    answered with the form shown again; the text goes on to the INSERT.
    When the engine refuses the value for the [String(140)] column the
    request ends in a server error, with the stored rows unchanged. *)
Theorem add_message_long_text_not_rejected rq c u text :
  method rq = POST →
  csrf_token_ok rq = true →
  logged_in c u →
  field_data rq "text" = Some text →
  140 < len text →
  validate_on_submit MessageForm rq = true
  ∧ (handle add_message_ rq c).1
    ≠ Rendered "messages/create.jinja"
               [("form"%string, VForm (formdata rq))] 200
  ∧ (varchar 140 text = None →
     (handle add_message_ rq c).1 = InternalServerError
     ∧ store (handle add_message_ rq c).2 = store c).
Proof.
  intros Hm Hc Hu Ht Hlen.
  assert (validate_on_submit MessageForm rq = true) as Hv.
  { unfold validate_on_submit, validate, MessageForm, is_submitted.
    rewrite Hm, Hc. simpl.
    destruct (field_data_process rq _ _ Ht) as (rest & Hp).
    rewrite (required_valid _ _ text rest); [done|done|].
    apply truthy_len. lia. }
  split; [done|].
  unfold handle. rewrite Hm. simpl.
  rewrite (logged_in_g_user c u Hu).
  unfold add_message. rewrite Hv, Ht.
  unfold add_Message, coerce, not_null. run.
  destruct (varchar 140 text) as [t'|]; simpl.
  - split; [|done].
    repeat (case_bool_decide; simpl); done.
  - split; [done|]. intros _. done.
Qed.

(** Empty text, or no text at all, does not pass the message form: the form
    is shown again and nothing is stored. *)
Lemma add_message_empty_text_rejected rq c u :
  logged_in c u →
  (field_data rq "text" = None ∨ field_data rq "text" = Some ""%string) →
  handle add_message_ rq c
  = (Rendered "messages/create.jinja"
              [("form"%string, VForm (formdata rq))] 200,
     shutdown_session c).
Proof.
  intros Hu Ht.
  assert (validate_on_submit MessageForm rq = false) as Hv.
  { unfold validate_on_submit, validate, MessageForm. simpl.
    unfold field_data in Ht. unfold field_validate, field_errors.
    destruct (process_cases (formdata rq) "text")
      as [Hp | (r & rest & Hp)]; rewrite Hp in *; simpl in *.
    - by rewrite !andb_false_r.
    - destruct Ht as [[=]|[= ->]]. simpl. by rewrite !andb_false_r. }
  unfold handle. simpl methods. rewrite method_allowed_GET_POST.
  rewrite (logged_in_g_user c u Hu).
  unfold view_function, add_message. by rewrite Hv.
Qed.

End messages.

Lemma add_message_long_text_not_rejected_witness :
  let rq := Sample.post [("text"%string, Sample.text141)] in
  @validate_on_submit Sample.checks MessageForm rq = true
  ∧ (@handle Sample.checks Sample.bcrypt Sample.engine add_message_ rq
       Sample.ctx).1
    ≠ Rendered "messages/create.jinja"
               [("form"%string, VForm (formdata rq))] 200
  ∧ (@varchar Sample.engine 140 Sample.text141 = None →
     (@handle Sample.checks Sample.bcrypt Sample.engine add_message_ rq
        Sample.ctx).1 = InternalServerError
     ∧ store (@handle Sample.checks Sample.bcrypt Sample.engine add_message_
                rq Sample.ctx).2 = store Sample.ctx).
Proof.
  intros rq.
  apply (@add_message_long_text_not_rejected
           Sample.checks Sample.bcrypt Sample.engine rq Sample.ctx
           Sample.u1 Sample.text141).
  - reflexivity.
  - reflexivity.
  - exists 1. split; reflexivity.
  - vm_compute. reflexivity.
  - vm_compute. reflexivity.
Defined.

(** On the sample engine, which refuses over-long values, posting 141
    characters is a server error. *)
Example add_message_141_characters :
  (@handle Sample.checks Sample.bcrypt Sample.engine add_message_
     (Sample.post [("text"%string, Sample.text141)]) Sample.ctx).1
  = InternalServerError.
Proof. by vm_compute. Qed.

(* ====================================================================== *)
(** * Likes, missing rows, authentication *)
(* ====================================================================== *)

Section like_own_message.
Context `{ShapeChecks} `{Bcrypt} `{Engine}.

(** C2.  A logged-in user who asks to like one of their own messages (with
    a valid anti-forgery token) is answered with the 403 error page.
    Nothing else happens: no message is flashed, the session is kept and the
    stored rows, the likes among them, are those from before.  The answer
    differs from the one to a request without authorization, which is a
    redirect to the home page with a flashed message. *)
Theorem toggle_like_own_message_forbidden rq c u id m :
  method rq = POST →
  csrf_token_ok rq = true →
  logged_in c u →
  messages (store c) !! id = Some m →
  Message_user_id m = User_id u →
  handle (toggle_like_ id) rq c = (ErrorPage 403, shutdown_session c)
  ∧ likes (store (handle (toggle_like_ id) rq c).2) = likes (store c)
  ∧ unauthorized c
    = Ok (Redirect "/")
         (with_flashes
            (flashes c ++ [("Access unauthorized."%string, "danger"%string)])
            c)
  ∧ ErrorPage 403 ≠ Redirect "/".
Proof.
  intros Hm Hc Hu Hmsg Hown.
  assert (handle (toggle_like_ id) rq c = (ErrorPage 403, shutdown_session c))
    as ->.
  { unfold handle. rewrite Hm. simpl.
    unfold toggle_like. rewrite (csrf_form_valid rq Hm Hc).
    rewrite (logged_in_g_user c u Hu).
    rewrite run_bind, (run_get_or_404_Message id _ m) by done.
    by rewrite bool_decide_true by done. }
  done.
Qed.

(** Without a stored user behind the session, or without a valid token, the
    same request gets the unauthorized outcome instead. *)
Lemma toggle_like_unauthorized rq c id :
  method rq = POST →
  (csrf_token_ok rq = false ∨ add_user_to_g (shutdown_session c) = None) →
  handle (toggle_like_ id) rq c
  = (Redirect "/",
     with_flashes
       (flashes c ++ [("Access unauthorized."%string, "danger"%string)])
       (shutdown_session c)).
Proof.
  intros Hm Hno. unfold handle. rewrite Hm. simpl. unfold toggle_like.
  destruct Hno as [Hc | Hg].
  - unfold validate_on_submit, validate. rewrite Hc.
    by rewrite andb_false_r.
  - rewrite Hg. by destruct (validate_on_submit CSRFProtection rq).
Qed.

End like_own_message.

Lemma toggle_like_own_message_forbidden_witness :
  @handle Sample.checks Sample.bcrypt Sample.engine (toggle_like_ 1)
     (Sample.post []) Sample.ctx
  = (ErrorPage 403, shutdown_session Sample.ctx)
  ∧ likes (store (@handle Sample.checks Sample.bcrypt Sample.engine
                    (toggle_like_ 1) (Sample.post []) Sample.ctx).2)
    = likes (store Sample.ctx)
  ∧ unauthorized Sample.ctx
    = Ok (Redirect "/")
         (with_flashes
            (flashes Sample.ctx
             ++ [("Access unauthorized."%string, "danger"%string)])
            Sample.ctx)
  ∧ ErrorPage 403 ≠ Redirect "/".
Proof.
  apply (@toggle_like_own_message_forbidden
           Sample.checks Sample.bcrypt Sample.engine
           (Sample.post []) Sample.ctx Sample.u1 1 Sample.m1).
  - reflexivity.
  - reflexivity.
  - exists 1. split; reflexivity.
  - reflexivity.
  - reflexivity.
Defined.

Section missing_rows.
Context `{ShapeChecks} `{Bcrypt} `{Engine}.

(** C9 (what the code does).  A logged-in user asks for pages of a user id
    that has no row.  [show_likes] raises no 404: it hands [None] as [user]
    to the likes template and answers with what the template renders.  The
    profile, following and followers pages of the same id are answered with
    the 404 page. *)
Theorem show_likes_missing_user rq c u id :
  method rq = GET →
  logged_in c u →
  users (store c) !! id = None →
  handle (show_likes_ id) rq c
  = (Rendered "users/likes.jinja" [("user"%string, VUser None)] 200,
     shutdown_session c)
  ∧ handle (show_user_ id) rq c = (page_not_found, shutdown_session c)
  ∧ handle (show_following_ id) rq c = (page_not_found, shutdown_session c)
  ∧ handle (show_followers_ id) rq c = (page_not_found, shutdown_session c).
Proof.
  intros Hm Hu Hid. unfold handle. rewrite Hm. simpl.
  rewrite (logged_in_g_user c u Hu).
  unfold show_likes, show_user, show_following, show_followers.
  rewrite !run_bind, (run_get_or_404_User_None id) by done. simpl.
  unfold get_User. simpl. by rewrite Hid.
Qed.

End missing_rows.

Lemma show_likes_missing_user_witness :
  @handle Sample.checks Sample.bcrypt Sample.engine (show_likes_ 987654321)
     Sample.get Sample.ctx
  = (Rendered "users/likes.jinja" [("user"%string, VUser None)] 200,
     shutdown_session Sample.ctx)
  ∧ @handle Sample.checks Sample.bcrypt Sample.engine (show_user_ 987654321)
      Sample.get Sample.ctx
    = (page_not_found, shutdown_session Sample.ctx)
  ∧ @handle Sample.checks Sample.bcrypt Sample.engine
      (show_following_ 987654321) Sample.get Sample.ctx
    = (page_not_found, shutdown_session Sample.ctx)
  ∧ @handle Sample.checks Sample.bcrypt Sample.engine
      (show_followers_ 987654321) Sample.get Sample.ctx
    = (page_not_found, shutdown_session Sample.ctx).
Proof.
  apply (@show_likes_missing_user
           Sample.checks Sample.bcrypt Sample.engine
           Sample.get Sample.ctx Sample.u1 987654321).
  - reflexivity.
  - exists 1. split; reflexivity.
  - vm_compute. reflexivity.
Defined.

Section authentication.
Context `{Bcrypt}.

(** C5.  With the declared constraints holding, [User.authenticate] with
    the username of a stored user and a password that does not check
    against the stored hash, and [User.authenticate] with a username that
    no stored user has (and any password), return the same value, the
    no-match one, and leave the context as it was. *)
Theorem authenticate_no_match_indistinguishable c k u wrong unknown any :
  db_ok (txn c) →
  users (txn c) !! k = Some u →
  check_password_hash (User_password u) wrong = false →
  (∀ k' u', users (txn c) !! k' = Some u' → User_username u' ≠ unknown) →
  User_authenticate (User_username u) wrong c
  = User_authenticate unknown any c
  ∧ User_authenticate unknown any c = Ok None c.
Proof.
  intros Hok Hk Hwrong Hunknown. unfold User_authenticate. run.
  rewrite (filter_username_stored _ k u) by done.
  rewrite filter_username_unknown by done. simpl. by rewrite Hwrong.
Qed.

End authentication.

Lemma authenticate_no_match_indistinguishable_witness :
  @User_authenticate Sample.bcrypt "u1" "bad-password" Sample.ctx
  = @User_authenticate Sample.bcrypt "bad-username" "password" Sample.ctx
  ∧ @User_authenticate Sample.bcrypt "bad-username" "password" Sample.ctx
    = Ok None Sample.ctx.
Proof.
  apply (@authenticate_no_match_indistinguishable
           Sample.bcrypt Sample.ctx 1 Sample.u1
           "bad-password" "bad-username" "password").
  - exact Sample_rows_ok.
  - reflexivity.
  - reflexivity.
  - intros k' u' Hk'. unfold Sample.ctx, Sample.rows in Hk'.
    cbn [txn users] in Hk'.
    rewrite !lookup_insert_Some, lookup_empty in Hk'.
    destruct Hk' as [[_ <-]|[_ [[_ <-]|[_ [=]]]]]; discriminate.
Defined.

Section duplicate_signup.
Context `{ShapeChecks} `{Bcrypt} `{Engine}.

(** C3.  A signup that carries a username which a stored user already
    has, on rows that meet the declared constraints.  Whatever else is
    submitted, the request does not end in the redirect of a successful
    signup, the stored rows after it are exactly those from before (nothing
    is inserted, in part or in whole), and exactly one of them has that
    username.  When the form is valid (and the image URL, if any, fits its
    column) the INSERT is refused on the uniqueness of the username,
    "Username already taken" is flashed and the signup form is shown
    again. *)
Theorem signup_duplicate_username rq c name k u :
  db_ok (store c) →
  field_data rq "username" = Some name →
  users (store c) !! k = Some u →
  User_username u = name →
  let r := handle signup_ rq c in
  store r.2 = store c
  ∧ count_username (store r.2) name = 1%nat
  ∧ r.1 ≠ Redirect "/"
  ∧ (validate_on_submit UserAddForm rq = true →
     len (or_else (field_data rq "image_url") DEFAULT_IMAGE_URL) ≤ 255 →
     r.1 = Rendered "users/signup.jinja"
                    [("form"%string, VForm (formdata rq))] 200
     ∧ flashes r.2
       = flashes c ++ [("Username already taken"%string, "danger"%string)]).
Proof.
  intros Hok Hname Hk Hu r.
  assert (count_username (store c) name = 1%nat) as Hcount.
  { subst name. by eapply count_username_stored. }
  subst r. unfold handle. simpl methods. rewrite method_allowed_GET_POST.
  unfold view_function, signup. run.
  destruct (validate_on_submit UserAddForm rq) eqn:Hv; [|done].
  destruct (UserAddForm_valid rq Hv)
    as (Hm & (s & Hs & _ & Hslen) & (e & He & _ & Helen)
        & (p & Hp & Hpt & _)).
  assert (s = name) as -> by congruence.
  unfold try_except, User_signup. run.
  rewrite Hp, Hpt, He, Hname.
  unfold add_User, coerce, not_null. run.
  rewrite (varchar_fits 50 e), (varchar_fits 30 name) by done. simpl.
  destruct (varchar 255 _) as [image_url|] eqn:Himg; simpl.
  - rewrite varchar_fits by apply password_hash_fits. simpl.
    repeat (case_bool_decide; simpl); try done.
    exfalso.
    match goal with
    | Hall : map_Forall (λ _ u, User_username u ≠ name) _ |- _ =>
        apply (Hall k u Hk Hu)
    end.
  - do 3 (split; [done|]). intros _ Hfit.
    by rewrite varchar_fits in Himg.
Qed.

End duplicate_signup.

Lemma signup_duplicate_username_witness :
  let rq := Sample.post [("username", "u1"); ("email", "new@email.com");
                         ("password", "password")]%string in
  let r := @handle Sample.checks Sample.bcrypt Sample.engine signup_ rq
             Sample.ctx in
  store r.2 = store Sample.ctx
  ∧ count_username (store r.2) "u1" = 1%nat
  ∧ r.1 ≠ Redirect "/"
  ∧ (@validate_on_submit Sample.checks UserAddForm rq = true →
     len (or_else (field_data rq "image_url") DEFAULT_IMAGE_URL) ≤ 255 →
     r.1 = Rendered "users/signup.jinja"
                    [("form"%string, VForm (formdata rq))] 200
     ∧ flashes r.2
       = flashes Sample.ctx
         ++ [("Username already taken"%string, "danger"%string)]).
Proof.
  intros rq.
  apply (@signup_duplicate_username
           Sample.checks Sample.bcrypt Sample.engine rq Sample.ctx
           "u1"%string 1 Sample.u1).
  - exact Sample_rows_ok.
  - vm_compute. reflexivity.
  - reflexivity.
  - reflexivity.
Defined.

(** The sample signup with the username of [u1]: the form is valid, and
    the answer is the form again with the flashed message. *)
Example signup_duplicate_username_sample :
  let rq := Sample.post [("username", "u1"); ("email", "new@email.com");
                         ("password", "password")]%string in
  let r := @handle Sample.checks Sample.bcrypt Sample.engine signup_ rq
             Sample.ctx in
  @validate_on_submit Sample.checks UserAddForm rq = true
  ∧ r.1 = Rendered "users/signup.jinja"
                   [("form"%string, VForm (formdata rq))] 200
  ∧ flashes r.2 = [("Username already taken"%string, "danger"%string)]
  ∧ store r.2 = Sample.rows.
Proof. by vm_compute. Qed.

(* ====================================================================== *)
(** * Follows *)
(* ====================================================================== *)

Lemma User_eqb_get d id y :
  (∀ k u, users d !! k = Some u → User_id u = k) →
  users d !! User_id y = Some y →
  User_eqb (get_User d id) y = true ↔ id = User_id y.
Proof.
  intros Hpk Hy. unfold User_eqb, get_User. split.
  - destruct (users d !! id) as [x|] eqn:Hx; [|done].
    rewrite bool_decide_eq_true. intros <-. symmetry. by apply Hpk.
  - intros ->. rewrite Hy. by apply bool_decide_eq_true.
Qed.

(** [is_following] and [is_followed_by] tell whether the edge is in
    [follows]. *)
Lemma User_is_following_spec d self other :
  (∀ k u, users d !! k = Some u → User_id u = k) →
  users d !! User_id other = Some other →
  User_is_following d self other
  = bool_decide (mkFollow (User_id other) (User_id self) ∈ follows d).
Proof.
  intros Hpk Ho. unfold User_is_following, User_following,
    User_following_users, Follow_following_user.
  rewrite length_filter_fmap, list_filter_filter.
  pose proof (λ id, User_eqb_get d id other Hpk Ho) as Heq.
  destruct (decide (mkFollow (User_id other) (User_id self) ∈ follows d))
    as [Hin|Hin];
    [rewrite (bool_decide_true (_ ∈ _)) by done
    |rewrite (bool_decide_false (_ ∈ _)) by done].
  - rewrite (filter_only _ _ (mkFollow (User_id other) (User_id self)));
      [done | apply NoDup_elements | by apply elem_of_elements | |].
    + simpl. split; [by apply Heq|done].
    + intros [a b] _ [Ha Hb]. simpl in *. apply Heq in Ha. congruence.
  - rewrite filter_none; [done|].
    intros [a b] Hx [Ha Hb]. simpl in *. apply Heq in Ha.
    apply elem_of_elements in Hx. congruence.
Qed.

Lemma User_is_followed_by_spec d self other :
  (∀ k u, users d !! k = Some u → User_id u = k) →
  users d !! User_id other = Some other →
  User_is_followed_by d self other
  = bool_decide (mkFollow (User_id self) (User_id other) ∈ follows d).
Proof.
  intros Hpk Ho. unfold User_is_followed_by, User_followers,
    User_followers_users, Follow_followed_user.
  rewrite length_filter_fmap, list_filter_filter.
  pose proof (λ id, User_eqb_get d id other Hpk Ho) as Heq.
  destruct (decide (mkFollow (User_id self) (User_id other) ∈ follows d))
    as [Hin|Hin];
    [rewrite (bool_decide_true (_ ∈ _)) by done
    |rewrite (bool_decide_false (_ ∈ _)) by done].
  - rewrite (filter_only _ _ (mkFollow (User_id self) (User_id other)));
      [done | apply NoDup_elements | by apply elem_of_elements | |].
    + simpl. split; [by apply Heq|done].
    + intros [a b] _ [Ha Hb]. simpl in *. apply Heq in Ha. congruence.
  - rewrite filter_none; [done|].
    intros [a b] Hx [Ha Hb]. simpl in *. apply Heq in Ha.
    apply elem_of_elements in Hx. congruence.
Qed.

Lemma filter_follows_absent (S : gset Follow) a b :
  mkFollow a b ∉ S →
  filter (λ f, ¬ (user_being_followed_id f = a ∧ user_following_id f = b)) S
  = S.
Proof.
  intros Hno. apply set_eq. intros [x y]. rewrite elem_of_filter. simpl.
  split; [by intros [_ ?]|]. intros Hin. split; [|done].
  intros [-> ->]. done.
Qed.

Lemma filter_follows_added (S : gset Follow) a b :
  mkFollow a b ∉ S →
  filter (λ f, ¬ (user_being_followed_id f = a ∧ user_following_id f = b))
         ({[mkFollow a b]} ∪ S)
  = S.
Proof.
  intros Hno. apply set_eq. intros [x y].
  rewrite elem_of_filter, elem_of_union, elem_of_singleton. simpl.
  split.
  - intros [Hne [[= -> ->]|Hin]]; [by destruct Hne | done].
  - intros Hin. split; [|by right]. intros [-> ->]. done.
Qed.

(** C6.  [A] and [B] are stored users and there is no edge from [A] to
    [B].  Following and committing succeeds, after which [A.is_following(B)]
    and [B.is_followed_by(A)] are both true; unfollowing and committing then
    succeeds, after which both are false and the rows are those from before
    the follow.  Unfollowing when there is no edge succeeds and leaves the
    context as it was.  ([A] and [B] need not be distinct.) *)
Theorem follow_then_unfollow c A B :
  db_ok (txn c) →
  users (txn c) !! User_id A = Some A →
  users (txn c) !! User_id B = Some B →
  mkFollow (User_id B) (User_id A) ∉ follows (txn c) →
  ∃ c1 c2,
    (User_follow A B;; commit) c = Ok () c1
    ∧ User_is_following (txn c1) A B = true
    ∧ User_is_followed_by (txn c1) B A = true
    ∧ (User_unfollow A B;; commit) c1 = Ok () c2
    ∧ User_is_following (txn c2) A B = false
    ∧ User_is_followed_by (txn c2) B A = false
    ∧ txn c2 = txn c
    ∧ User_unfollow A B c = Ok () c.
Proof.
  intros Hok HA HB Hno.
  pose proof (users_pk _ Hok) as Hpk.
  eexists _, _. split.
  { unfold User_follow, add_Follow. run.
    rewrite bool_decide_true by done. simpl.
    rewrite !bool_decide_true by eauto. simpl. reflexivity. }
  simpl. rewrite User_is_following_spec, User_is_followed_by_spec by done.
  simpl. rewrite !bool_decide_true by (apply elem_of_union_l, elem_of_singleton; done).
  do 2 (split; [done|]). split.
  { unfold User_unfollow, delete_Follow. run. reflexivity. }
  simpl. rewrite User_is_following_spec, User_is_followed_by_spec by done.
  simpl. rewrite filter_follows_added by done.
  rewrite !bool_decide_false by done.
  do 2 (split; [done|]). split.
  { by destruct (txn c). }
  unfold User_unfollow, delete_Follow. run.
  by rewrite filter_follows_absent, with_follows_id, with_txn_id.
Qed.

Lemma follow_then_unfollow_witness :
  ∃ c1 c2,
    (User_follow Sample.u2 Sample.u1;; commit) Sample.ctx = Ok () c1
    ∧ User_is_following (txn c1) Sample.u2 Sample.u1 = true
    ∧ User_is_followed_by (txn c1) Sample.u1 Sample.u2 = true
    ∧ (User_unfollow Sample.u2 Sample.u1;; commit) c1 = Ok () c2
    ∧ User_is_following (txn c2) Sample.u2 Sample.u1 = false
    ∧ User_is_followed_by (txn c2) Sample.u1 Sample.u2 = false
    ∧ txn c2 = txn Sample.ctx
    ∧ User_unfollow Sample.u2 Sample.u1 Sample.ctx = Ok () Sample.ctx.
Proof.
  apply (follow_then_unfollow Sample.ctx Sample.u2 Sample.u1).
  - exact Sample_rows_ok.
  - reflexivity.
  - reflexivity.
  - vm_compute. intros [=].
Defined.

(* ====================================================================== *)
(** * Toggling a like *)
(* ====================================================================== *)

Lemma Message_eqb_get d id y :
  (∀ k m, messages d !! k = Some m → Message_id m = k) →
  messages d !! Message_id y = Some y →
  Message_eqb (get_Message d id) y = true ↔ id = Message_id y.
Proof.
  intros Hpk Hy. unfold Message_eqb, get_Message. split.
  - destruct (messages d !! id) as [x|] eqn:Hx; [|done].
    rewrite bool_decide_eq_true. intros <-. symmetry. by apply Hpk.
  - intros ->. rewrite Hy. by apply bool_decide_eq_true.
Qed.

(** [msg in self.liked_messages] tells whether the edge is in [likes]. *)
Lemma liked_messages_spec d self msg :
  (∀ k m, messages d !! k = Some m → Message_id m = k) →
  messages d !! Message_id msg = Some msg →
  existsb (λ m, Message_eqb m msg) (User_liked_messages d self)
  = bool_decide (mkLike (User_id self) (Message_id msg) ∈ likes d).
Proof.
  intros Hpk Hm.
  pose proof (λ id, Message_eqb_get d id msg Hpk Hm) as Heq.
  apply eq_true_iff_eq. rewrite existsb_exists, bool_decide_eq_true.
  unfold User_liked_messages, User_likes. split.
  - intros (x & Hx & Hxm). apply list_elem_of_In, list_elem_of_fmap in Hx.
    destruct Hx as ([a b] & -> & Hl).
    apply list_elem_of_filter in Hl as [Ha Hl]. simpl in *.
    apply Heq in Hxm. apply elem_of_elements in Hl. congruence.
  - intros Hin. exists (get_Message d (Message_id msg)). split.
    + apply list_elem_of_In, list_elem_of_fmap.
      exists (mkLike (User_id self) (Message_id msg)). split; [done|].
      apply list_elem_of_filter. split; [done|]. by apply elem_of_elements.
    + by apply Heq.
Qed.

Lemma filter_likes_difference (S : gset Like) a b :
  filter (λ l, ¬ (Like_user_id l = a ∧ Like_message_id l = b)) S
  = S ∖ {[mkLike a b]}.
Proof.
  apply set_eq. intros [x y].
  rewrite elem_of_filter, elem_of_difference, elem_of_singleton. simpl.
  split; intros [Hne Hin]; split; try done.
  - intros [= -> ->]. by apply Hne.
  - intros [-> ->]. by apply Hin.
Qed.

Lemma toggle_row_toggle_row d l : toggle_row (toggle_row d l) l = d.
Proof.
  unfold toggle_row. destruct d as [us ms fs ls]. simpl.
  destruct (decide (l ∈ ls)) as [Hin|Hin].
  - rewrite (bool_decide_true (l ∈ ls)) by done.
    rewrite bool_decide_false
      by (rewrite elem_of_difference, elem_of_singleton; tauto).
    unfold with_likes. simpl. f_equal. apply set_eq. intros x.
    rewrite elem_of_union, elem_of_difference, elem_of_singleton.
    destruct (decide (x = l)) as [->|]; tauto.
  - rewrite (bool_decide_false (l ∈ ls)) by done.
    rewrite bool_decide_true by (apply elem_of_union_l, elem_of_singleton; done).
    unfold with_likes. simpl. f_equal. apply set_eq. intros x.
    rewrite elem_of_difference, elem_of_union, elem_of_singleton.
    split; [tauto|]. intros Hx. split; [tauto|]. by intros ->.
Qed.

Lemma toggle_row_flips d l : l ∈ likes (toggle_row d l) ↔ l ∉ likes d.
Proof.
  unfold toggle_row. simpl. case_bool_decide as Hin.
  - rewrite elem_of_difference, elem_of_singleton. tauto.
  - rewrite elem_of_union, elem_of_singleton. tauto.
Qed.

Section toggle.
Context `{ShapeChecks} `{Bcrypt} `{Engine}.

(** One request to like a message of someone else flips the edge, commits
    and redirects to where the user came from. *)
Lemma toggle_like_step rq c u id m :
  (∀ k u, users (store c) !! k = Some u → User_id u = k) →
  (∀ k m, messages (store c) !! k = Some m → Message_id m = k) →
  method rq = POST →
  csrf_token_ok rq = true →
  logged_in c u →
  messages (store c) !! id = Some m →
  Message_user_id m ≠ User_id u →
  handle (toggle_like_ id) rq c
  = (Redirect (form_get rq "came_from" "/"),
     let d := toggle_row (store c) (mkLike (User_id u) id) in
     with_store d (with_txn d c)).
Proof.
  intros Hupk Hmpk Hm Hc Hu Hmsg Hown.
  pose proof (Hmpk _ _ Hmsg) as Hid.
  destruct Hu as (sid & Hsid & Hrow).
  pose proof (Hupk _ _ Hrow) as Huid.
  unfold handle. rewrite Hm. simpl.
  unfold toggle_like. rewrite (csrf_form_valid rq Hm Hc).
  rewrite (logged_in_g_user c u) by (exists sid; done).
  rewrite run_bind, (run_get_or_404_Message id _ m) by done.
  rewrite bool_decide_false by done.
  unfold User_toggle_like, toggle_row. run.
  rewrite liked_messages_spec by (by rewrite ?Hid).
  rewrite Hid.
  destruct (decide (mkLike (User_id u) id ∈ likes (store c))) as [Hin|Hin].
  - rewrite !(bool_decide_true (_ ∈ _)) by done.
    unfold delete_Like. run. by rewrite filter_likes_difference.
  - rewrite !(bool_decide_false (_ ∈ _)) by done.
    unfold add_Like. run.
    rewrite (bool_decide_true (_ ∉ _)) by done. simpl.
    rewrite Huid, Hrow, Hmsg.
    rewrite !bool_decide_true by eauto. simpl. done.
Qed.

(** C7.  A logged-in user [u] and a stored message that is not [u]'s.
    Two requests to toggle the like, one after the other, both succeed;
    after the first the edge is present exactly when it was absent before
    (so one call alone is not idempotent), and after the second the stored
    rows are those from before the first. *)
Theorem toggle_like_twice rq1 rq2 c u id m :
  db_ok (store c) →
  method rq1 = POST → csrf_token_ok rq1 = true →
  method rq2 = POST → csrf_token_ok rq2 = true →
  logged_in c u →
  messages (store c) !! id = Some m →
  Message_user_id m ≠ User_id u →
  let r1 := handle (toggle_like_ id) rq1 c in
  let r2 := handle (toggle_like_ id) rq2 r1.2 in
  r1.1 = Redirect (form_get rq1 "came_from" "/")
  ∧ r2.1 = Redirect (form_get rq2 "came_from" "/")
  ∧ (mkLike (User_id u) id ∈ likes (store r1.2)
     ↔ mkLike (User_id u) id ∉ likes (store c))
  ∧ store r2.2 = store c.
Proof.
  intros Hok Hm1 Hc1 Hm2 Hc2 Hu Hmsg Hown r1 r2.
  pose proof (users_pk _ Hok) as Hupk.
  pose proof (messages_pk _ Hok) as Hmpk.
  assert (r1 = (Redirect (form_get rq1 "came_from" "/"),
     let d := toggle_row (store c) (mkLike (User_id u) id) in
     with_store d (with_txn d c))) as Hr1.
  { by eapply toggle_like_step. }
  assert (r2 = (Redirect (form_get rq2 "came_from" "/"),
     let d := toggle_row (store r1.2) (mkLike (User_id u) id) in
     with_store d (with_txn d r1.2))) as Hr2.
  { subst r2. rewrite Hr1. by eapply toggle_like_step. }
  rewrite Hr2, Hr1. simpl.
  split; [done|]. split; [done|]. split.
  - apply (toggle_row_flips (store c)).
  - apply toggle_row_toggle_row.
Qed.

End toggle.

Lemma toggle_like_twice_witness :
  let rq := Sample.post [("came_from", "/messages/2")]%string in
  let r1 := @handle Sample.checks Sample.bcrypt Sample.engine
              (toggle_like_ 2) rq Sample.ctx in
  let r2 := @handle Sample.checks Sample.bcrypt Sample.engine
              (toggle_like_ 2) rq r1.2 in
  r1.1 = Redirect (form_get rq "came_from" "/")
  ∧ r2.1 = Redirect (form_get rq "came_from" "/")
  ∧ (mkLike (User_id Sample.u1) 2 ∈ likes (store r1.2)
     ↔ mkLike (User_id Sample.u1) 2 ∉ likes (store Sample.ctx))
  ∧ store r2.2 = store Sample.ctx.
Proof.
  intros rq.
  apply (@toggle_like_twice Sample.checks Sample.bcrypt Sample.engine
           rq rq Sample.ctx Sample.u1 2 Sample.m2).
  - exact Sample_rows_ok.
  - reflexivity.
  - reflexivity.
  - reflexivity.
  - reflexivity.
  - exists 1. split; reflexivity.
  - reflexivity.
  - vm_compute. intros [=].
Defined.

(* ====================================================================== *)
(** * Deleting a user *)
(* ====================================================================== *)

Lemma not_owned_filter_idemp (ms : gmap Z Message) id :
  filter (λ kv : Z * Message, Message_user_id kv.2 ≠ id)
         (filter (λ kv : Z * Message, Message_user_id kv.2 ≠ id) ms)
  = filter (λ kv : Z * Message, Message_user_id kv.2 ≠ id) ms.
Proof.
  apply map_filter_id. intros k m Hk.
  by apply map_lookup_filter_Some in Hk as [_ ?].
Qed.

Lemma not_owned_filter_lookup (ms : gmap Z Message) id k :
  ¬ match filter (λ kv : Z * Message, Message_user_id kv.2 ≠ id) ms !! k with
    | Some m => Message_user_id m = id
    | None => False
    end.
Proof.
  destruct (filter _ ms !! k) as [m|] eqn:Hk; [|tauto].
  by apply map_lookup_filter_Some in Hk as [_ ?].
Qed.

(** Purging a user keeps the declared constraints: no row is left that
    refers to a row that is gone. *)
Lemma purge_user_db_ok id d : db_ok d → db_ok (purge_user id d).
Proof.
  intros [Hupk Hmpk Hname Hmail Hmfk Hffk Hlfk].
  split; unfold purge_user; cbn [users messages follows likes].
  - intros k u [_ Hk]%lookup_delete_Some. eauto.
  - intros k m [Hk _]%map_lookup_filter_Some. eauto.
  - intros k1 k2 u1 u2 [_ H1]%lookup_delete_Some [_ H2]%lookup_delete_Some.
    eauto.
  - intros k1 k2 u1 u2 [_ H1]%lookup_delete_Some [_ H2]%lookup_delete_Some.
    eauto.
  - intros k m [Hk Hown]%map_lookup_filter_Some. simpl in Hown.
    destruct (Hmfk k m Hk) as [u Hu]. exists u.
    by apply lookup_delete_Some.
  - intros f [[Ha Hb] Hf]%elem_of_filter.
    destruct (Hffk f Hf) as [[u1 H1] [u2 H2]].
    split; eexists; apply lookup_delete_Some; eauto.
  - intros l [[Ha Hb] Hl]%elem_of_filter.
    destruct (Hlfk l Hl) as [[u1 H1] [m Hm]].
    split.
    + eexists; apply lookup_delete_Some; eauto.
    + exists m. apply map_lookup_filter_Some. split; [done|]. simpl.
      unfold references_deleted in Hb. by rewrite Hm in Hb.
Qed.

Section delete.
Context `{ShapeChecks} `{Bcrypt} `{Engine}.

(** The account deletion request, in closed form. *)
Lemma delete_user_result rq c u :
  method rq = POST →
  csrf_token_ok rq = true →
  logged_in c u →
  handle delete_user_ rq c
  = (Redirect "/signup",
     let d := purge_user (User_id u) (store c) in
     with_session (delete CURR_USER_KEY (session c))
                  (with_store d (with_txn d c))).
Proof.
  intros Hm Hc Hu.
  unfold handle. rewrite Hm. simpl.
  unfold delete_user. rewrite (csrf_form_valid rq Hm Hc).
  rewrite (logged_in_g_user c u Hu).
  destruct c as [t [us ms fs ls] sq se fl].
  unfold session_delete_User, delete_User_row, delete_Message,
    delete_Follow, delete_Like, do_logout, redirect.
  run. unfold references_deleted, purge_user, references_deleted.
  run. rewrite !not_owned_filter_idemp.
  assert (∀ A B (a a' : A) (b b' : B), a = a' → b = b' → (a, b) = (a', b'))
    as Hpair by (by intros; subst).
  apply Hpair; [done|].
  assert (∀ f1 f2 l1 l2, f1 = f2 → l1 = l2 →
    ∀ u m, mkDB u m f1 l1 = mkDB u m f2 l2) as Hdb by (by intros; subst).
  assert (∀ d1 d2 : DB, d1 = d2 →
    mkCtx d1 d1 sq (delete CURR_USER_KEY se) fl
    = mkCtx d2 d2 sq (delete CURR_USER_KEY se) fl)
    as Hctx by (by intros; subst).
  apply Hctx, Hdb.
  - apply set_eq. intros [a b]. set_unfold. simpl. tauto.
  - apply set_eq. intros l. set_unfold.
    pose proof (not_owned_filter_lookup ms (User_id u) (Like_message_id l)).
    tauto.
Qed.

(** C1.  A logged-in user [u] deletes their account (with a valid
    anti-forgery token).  The request is answered with a redirect to the
    signup page, and in the rows stored afterwards: there is no user row
    with [u]'s id, no message of [u], no follow with [u] at either end and
    no like by [u].  If the declared constraints held before they hold
    after, so no remaining row refers to a row that is gone. *)
Theorem delete_user_removes_owned_rows rq c u :
  method rq = POST →
  csrf_token_ok rq = true →
  logged_in c u →
  let r := handle delete_user_ rq c in
  let d := store r.2 in
  r.1 = Redirect "/signup"
  ∧ users d !! User_id u = None
  ∧ (∀ k m, messages d !! k = Some m → Message_user_id m ≠ User_id u)
  ∧ (∀ f, f ∈ follows d →
       user_being_followed_id f ≠ User_id u
       ∧ user_following_id f ≠ User_id u)
  ∧ (∀ l, l ∈ likes d → Like_user_id l ≠ User_id u)
  ∧ (db_ok (store c) → db_ok d).
Proof.
  intros Hm Hc Hu r d. subst d r.
  rewrite (delete_user_result rq c u Hm Hc Hu).
  cbn [fst snd store with_session with_store with_txn].
  split; [done|]. split; [apply lookup_delete_eq|].
  split; [by intros k m [_ ?]%map_lookup_filter_Some|].
  split; [by intros f [? _]%elem_of_filter|].
  split; [by intros l [[? _] _]%elem_of_filter|].
  apply purge_user_db_ok.
Qed.

End delete.

Lemma delete_user_removes_owned_rows_witness :
  let r := @handle Sample.checks Sample.bcrypt Sample.engine delete_user_
             (Sample.post []) Sample.ctx in
  let d := store r.2 in
  r.1 = Redirect "/signup"
  ∧ users d !! User_id Sample.u1 = None
  ∧ (∀ k m, messages d !! k = Some m →
       Message_user_id m ≠ User_id Sample.u1)
  ∧ (∀ f, f ∈ follows d →
       user_being_followed_id f ≠ User_id Sample.u1
       ∧ user_following_id f ≠ User_id Sample.u1)
  ∧ (∀ l, l ∈ likes d → Like_user_id l ≠ User_id Sample.u1)
  ∧ (db_ok (store Sample.ctx) → db_ok d).
Proof.
  apply (@delete_user_removes_owned_rows
           Sample.checks Sample.bcrypt Sample.engine
           (Sample.post []) Sample.ctx Sample.u1).
  - reflexivity.
  - reflexivity.
  - exists 1. split; reflexivity.
Defined.

(** On the sample rows, deleting [u1] leaves [u2] and [u2]'s message. *)
Example delete_user_sample :
  let r := @handle Sample.checks Sample.bcrypt Sample.engine delete_user_
             (Sample.post []) Sample.ctx in
  store r.2 = mkDB {[ 2 := Sample.u2 ]} {[ 2 := Sample.m2 ]} ∅ ∅
  ∧ session r.2 = ∅.
Proof. by vm_compute. Qed.

(* ====================================================================== *)
(** * The home feed *)
(* ====================================================================== *)

#[local] Instance timestamp_desc_trans : Transitive timestamp_desc.
Proof. unfold timestamp_desc. intros a b c ??. lia. Qed.

#[local] Instance timestamp_desc_total : Total timestamp_desc.
Proof. unfold timestamp_desc. intros a b. lia. Qed.

(** With the foreign keys holding, the ids read off [g.user.following] are
    the followed ends of the user's follow edges. *)
Lemma ids_of_follows d (l : list Follow) c :
  (∀ k u, users d !! k = Some u → User_id u = k) →
  (∀ f, f ∈ l → is_Some (users d !! user_being_followed_id f)) →
  ids_of (Follow_following_user d <$> l) c
  = Ok (user_being_followed_id <$> l) c.
Proof.
  intros Hpk. unfold ids_of. induction l as [|f l IH]; intros Hfk; [done|].
  rewrite fmap_cons. cbn [mapM]. rewrite run_bind.
  destruct (Hfk f) as [x Hx]; [by left|].
  unfold Follow_following_user at 1, get_User. rewrite Hx.
  rewrite run_ret, run_bind, IH by (intros; apply Hfk; by right).
  rewrite run_ret, fmap_cons. by rewrite (Hpk _ _ Hx).
Qed.

Lemma following_ids_in_feed d u m :
  Message_user_id m
    ∈ (user_being_followed_id <$> User_following_users d u) ++ [User_id u]
  ↔ in_feed d u m.
Proof.
  unfold in_feed, User_following_users.
  rewrite elem_of_app, list_elem_of_singleton, list_elem_of_fmap. split.
  - intros [([a b] & Ha & [Hb Hin]%list_elem_of_filter)|?]; [|by left].
    right. simpl in *. subst. by apply elem_of_elements.
  - intros [?|Hin]; [by right|]. left.
    exists (mkFollow (Message_user_id m) (User_id u)). split; [done|].
    apply list_elem_of_filter. split; [done|]. by apply elem_of_elements.
Qed.

Section feed.
Context `{ShapeChecks} `{Bcrypt} `{Engine}.

(** C4, as the code has it.  For a logged-in user [u], on rows that meet
    the declared constraints and whatever the engine, the home page is
    rendered with a list [ms] of messages such that: [ms] has at most 100
    entries; [ms] together with a list [rest] of left-out messages is,
    up to order, the stored messages written by [u] or by a user [u]
    follows; messages are left out only when [ms] has 100 entries, and then
    none of them is more recent than any message of [ms]; [ms] is in
    descending order of timestamp.  Nothing is said on the order of
    messages with equal timestamps. *)
Theorem homepage_feed rq c u :
  db_ok (store c) →
  method rq = GET →
  logged_in c u →
  ∃ ms rest,
    handle homepage_ rq c
    = (Rendered "home.jinja" [("messages"%string, VMessages ms)] 200,
       shutdown_session c)
    ∧ (length ms ≤ 100)%nat
    ∧ ms ++ rest ≡ₚ feed_candidates (store c) u
    ∧ (rest ≠ [] → length ms = 100%nat)
    ∧ StronglySorted timestamp_desc ms
    ∧ (∀ m m', m ∈ ms → m' ∈ rest →
         Message_timestamp m' ≤ Message_timestamp m).
Proof.
  intros Hok Hm Hu.
  pose proof (users_pk _ Hok) as Hpk.
  set (ids := (user_being_followed_id <$> User_following_users (store c) u)
              ++ [User_id u]).
  set (sorted := merge_sort timestamp_desc
         (filter (λ m, Message_user_id m ∈ ids) (scan (messages (store c))))).
  assert (StronglySorted timestamp_desc sorted) as Hsorted
    by apply (StronglySorted_merge_sort _).
  rewrite <- (take_drop 100 sorted) in Hsorted.
  exists (take 100 sorted), (drop 100 sorted).
  split; [|split; [|split; [|split; [|split]]]].
  - unfold handle. rewrite Hm. simpl.
    rewrite (logged_in_g_user c u Hu). unfold homepage.
    rewrite run_bind. unfold gets at 1. cbn [shutdown_session with_txn txn].
    rewrite run_bind. unfold User_following.
    rewrite (ids_of_follows (store c) _ _ Hpk).
    + reflexivity.
    + intros f [_ Hf%elem_of_elements]%list_elem_of_filter.
      by apply (follows_fk _ Hok).
  - rewrite length_take. lia.
  - rewrite take_drop. unfold sorted, feed_candidates.
    rewrite merge_sort_Permutation, scan_perm.
    erewrite list_filter_iff; [done|].
    intros m. apply following_ids_in_feed.
  - intros Hrest. apply length_take_le.
    destruct (decide (100 ≤ length sorted)%nat); [done|].
    destruct Hrest. apply drop_ge. lia.
  - by apply StronglySorted_app_1_l in Hsorted.
  - intros m m' Hin Hin'.
    apply (StronglySorted_app_1_elem_of _ _ _ _ _ Hsorted Hin Hin').
Qed.

End feed.

Lemma homepage_feed_witness :
  ∃ ms rest,
    @handle Sample.checks Sample.bcrypt Sample.engine homepage_ Sample.get
       Sample.ctx
    = (Rendered "home.jinja" [("messages"%string, VMessages ms)] 200,
       shutdown_session Sample.ctx)
    ∧ (length ms ≤ 100)%nat
    ∧ ms ++ rest ≡ₚ feed_candidates (store Sample.ctx) Sample.u1
    ∧ (rest ≠ [] → length ms = 100%nat)
    ∧ StronglySorted timestamp_desc ms
    ∧ (∀ m m', m ∈ ms → m' ∈ rest →
         Message_timestamp m' ≤ Message_timestamp m).
Proof.
  apply (@homepage_feed Sample.checks Sample.bcrypt Sample.engine
           Sample.get Sample.ctx Sample.u1).
  - exact Sample_rows_ok.
  - reflexivity.
  - exists 1. split; reflexivity.
Defined.

(** C4, as the spec has it, fails.  On the sample rows [u1] follows [u2],
    and the message of [u1] (id 1) and that of [u2] (id 2) bear the same
    timestamp.  The same request on the same rows shows them as 2, 1 on one
    engine and as 1, 2 on the other: the query does not fix the order of
    messages with equal timestamps, by identifier or otherwise. *)
Lemma homepage_feed_ties_not_ordered :
  db_ok (store Sample.ctx)
  ∧ logged_in Sample.ctx Sample.u1
  ∧ Message_timestamp Sample.m1 = Message_timestamp Sample.m2
  ∧ (@handle Sample.checks Sample.bcrypt Sample.engine homepage_ Sample.get
       Sample.ctx).1
    = Rendered "home.jinja"
               [("messages"%string, VMessages [Sample.m2; Sample.m1])] 200
  ∧ (@handle Sample.checks Sample.bcrypt Sample.engine' homepage_ Sample.get
       Sample.ctx).1
    = Rendered "home.jinja"
               [("messages"%string, VMessages [Sample.m1; Sample.m2])] 200.
Proof.
  split; [exact Sample_rows_ok|]. split; [exact Sample_logged_in|].
  split; [reflexivity|]. split; by vm_compute.
Qed.

(* ====================================================================== *)
(** * Who may ask: the authorization gate, the token, missing rows *)
(* ====================================================================== *)

Lemma no_session_user c :
  (∀ id, session c !! CURR_USER_KEY = Some id → users (store c) !! id = None) →
  add_user_to_g (shutdown_session c) = None.
Proof.
  intros Hno. unfold add_user_to_g. simpl.
  destruct (session c !! CURR_USER_KEY) as [id|] eqn:Hs; [|done].
  by apply Hno.
Qed.

Section gates.
Context `{ShapeChecks} `{Bcrypt} `{Engine}.


(** X2.  A POST whose anti-forgery token does not check out is turned away
    by each of the six views that validate [g.csrf_form], logged in or
    not: same flash, same redirect, nothing stored. *)
Theorem invalid_token_unauthorized e rq c :
  csrf_guarded e = true →
  method rq = POST →
  csrf_token_ok rq = false →
  handle e rq c = unauthorized_outcome c.
Proof.
  intros He Hm Hc.
  assert (validate_on_submit CSRFProtection rq = false) as Hv.
  { unfold validate_on_submit, validate. rewrite Hc. by rewrite andb_false_r. }
  unfold handle. rewrite Hm.
  destruct e; try done; cbn [view_function methods];
    unfold logout, start_following, stop_following, toggle_like, delete_user,
      delete_message; by rewrite Hv.
Qed.

(** X3.  For a logged-in user (and a valid token where the view wants
    one), the eight views that fetch their row with [get_or_404] answer
    with the 404 page when the row is not stored, and change nothing, not
    even the flashes. *)
Theorem missing_row_not_found e rq c u :
  logged_in c u →
  method rq ∈ methods e →
  (method rq = POST → csrf_token_ok rq = true) →
  missing_target (store c) e →
  handle e rq c = (page_not_found, shutdown_session c).
Proof.
  intros Hu Hm Hc Hmiss. unfold handle.
  rewrite (bool_decide_true _ Hm), (logged_in_g_user c u Hu).
  assert (∀ id, users (store c) !! id = None →
     get_or_404_User id (shutdown_session c)
     = Raise (HTTPException 404) (shutdown_session c)) as HU.
  { intros id Hid. by apply run_get_or_404_User_None. }
  assert (∀ id, messages (store c) !! id = None →
     get_or_404_Message id (shutdown_session c)
     = Raise (HTTPException 404) (shutdown_session c)) as HM.
  { intros id Hid. unfold get_or_404_Message. rewrite run_bind. simpl.
    unfold get_Message. by rewrite Hid. }
  destruct e; try done; cbn [view_function methods missing_target] in *.
  1-3: unfold show_user, show_following, show_followers;
       by rewrite run_bind, HU.
  1-2: apply list_elem_of_singleton in Hm;
       unfold start_following, stop_following;
       rewrite (csrf_form_valid rq Hm (Hc Hm));
       by rewrite run_bind, HU.
  - apply list_elem_of_singleton in Hm. unfold toggle_like.
    rewrite (csrf_form_valid rq Hm (Hc Hm)). by rewrite run_bind, HM.
  - unfold show_message. by rewrite run_bind, HM.
  - apply list_elem_of_singleton in Hm. unfold delete_message.
    rewrite (csrf_form_valid rq Hm (Hc Hm)). by rewrite run_bind, HM.
Qed.

End gates.

(* ====================================================================== *)
(** * What a request can change *)
(* ====================================================================== *)

Section framing.
Context {X : Type} (f : Ctx → X).

Lemma fixes_ret {A} (a : A) : fixes f (mret a).
Proof. by intros c. Qed.

Lemma fixes_raise {A} e : fixes f (raise e : M A).
Proof. by intros c. Qed.

Lemma fixes_gets {A} (g : Ctx → A) : fixes f (gets g).
Proof. by intros c. Qed.

Lemma fixes_bind {A B} (m : M A) (k : A → M B) :
  fixes f m → (∀ a, fixes f (k a)) → fixes f (m ≫= k).
Proof.
  intros Hm Hk c. rewrite run_bind. specialize (Hm c).
  destruct (m c) as [a c'|e c']; [|done].
  specialize (Hk a c'). rewrite <- Hm. by destruct (k a c').
Qed.

Lemma fixes_try_except {A} (body : M A) handler :
  fixes f body → (∀ e h, handler e = Some h → fixes f h) →
  fixes f (try_except body handler).
Proof.
  intros Hb Hh c. unfold try_except. specialize (Hb c).
  destruct (body c) as [a c'|e c']; [done|].
  destruct (handler e) as [h|] eqn:He; [|done].
  specialize (Hh e h He c'). rewrite <- Hb. by destruct (h c').
Qed.

Lemma fixes_fail_statement {A} e :
  txn_blind f → fixes f (fail_statement e : M A).
Proof. intros Hf c. apply Hf. Qed.

Lemma fixes_check b e : txn_blind f → fixes f (check b e).
Proof. destruct b; [intros _; apply fixes_ret|apply fixes_fail_statement]. Qed.

Lemma fixes_modify_txn g : txn_blind f → fixes f (modify_txn g).
Proof. intros Hf c. apply Hf. Qed.

Lemma fixes_rollback : txn_blind f → fixes f rollback.
Proof. intros Hf c. apply Hf. Qed.

Lemma fixes_nextval_users : seqs_blind f → fixes f nextval_users.
Proof. intros Hf c. apply Hf. Qed.

Lemma fixes_nextval_messages : seqs_blind f → fixes f nextval_messages.
Proof. intros Hf c. apply Hf. Qed.

Lemma fixes_get_or_404_User id : fixes f (get_or_404_User id).
Proof.
  apply fixes_bind; [apply fixes_gets|]. intros d.
  destruct (get_User d id); [apply fixes_ret|apply fixes_raise].
Qed.

Lemma fixes_get_or_404_Message id : fixes f (get_or_404_Message id).
Proof.
  apply fixes_bind; [apply fixes_gets|]. intros d.
  destruct (get_Message d id); [apply fixes_ret|apply fixes_raise].
Qed.

Lemma fixes_ids_of l : fixes f (ids_of l).
Proof.
  unfold ids_of. induction l as [|[u|] l IH]; cbn [mapM].
  - apply fixes_ret.
  - apply fixes_bind; [apply fixes_ret|]. intros id.
    apply fixes_bind; [apply IH|]. intros ids. apply fixes_ret.
  - apply fixes_bind; [apply fixes_raise|]. intros id.
    apply fixes_bind; [apply IH|]. intros ids. apply fixes_ret.
Qed.

Lemma fixes_User_authenticate `{Bcrypt} username password :
  fixes f (User_authenticate username password).
Proof.
  apply fixes_bind; [apply fixes_gets|]. intros d.
  apply fixes_bind.
  - unfold scalar_one_or_none.
    destruct (filter _ _) as [|r [|r' rows]];
      [apply fixes_ret|apply fixes_ret|apply fixes_raise].
  - intros [u|]; [|apply fixes_ret].
    destruct (check_password_hash _ _); apply fixes_ret.
Qed.

Lemma fixes_coerce `{Engine} n v : txn_blind f → fixes f (coerce n v).
Proof.
  intros Hf. destruct v as [s|]; [|apply fixes_ret]. simpl.
  destruct (varchar n s); [apply fixes_ret|by apply fixes_fail_statement].
Qed.

Lemma fixes_not_null {A} (v : option A) : txn_blind f → fixes f (not_null v).
Proof.
  intros Hf. destruct v; [apply fixes_ret|by apply fixes_fail_statement].
Qed.

Lemma fixes_set_column `{Engine} n old new :
  txn_blind f → fixes f (set_column n old new).
Proof.
  intros Hf. unfold set_column. case_bool_decide; [apply fixes_ret|].
  destruct (varchar n new); [apply fixes_ret|by apply fixes_fail_statement].
Qed.

End framing.

Create HintDb fixes.

#[local] Hint Resolve fixes_ret fixes_raise fixes_gets fixes_fail_statement
  fixes_check fixes_modify_txn fixes_rollback fixes_nextval_users
  fixes_nextval_messages fixes_get_or_404_User fixes_get_or_404_Message
  fixes_ids_of fixes_User_authenticate fixes_coerce fixes_not_null
  fixes_set_column : fixes.

#[local] Hint Extern 2 (fixes _ (_ ≫= _)) =>
  apply fixes_bind; [|intros ?] : fixes.

#[local] Hint Extern 1 (fixes _ (if ?b then _ else _)) => destruct b : fixes.

#[local] Hint Extern 1 (fixes _ (abort _)) => apply fixes_raise : fixes.

#[local] Hint Extern 1 (txn_blind _) => (by intros ? ?) : fixes.
#[local] Hint Extern 1 (seqs_blind _) => (by intros ? ?) : fixes.

Lemma fixes_store_flash msg cat : fixes store (flash msg cat).
Proof. by intros c. Qed.
Lemma fixes_seqs_flash msg cat : fixes seqs (flash msg cat).
Proof. by intros c. Qed.
Lemma fixes_session_flash msg cat : fixes session (flash msg cat).
Proof. by intros c. Qed.
Lemma fixes_store_do_logout : fixes store do_logout.
Proof. by intros c. Qed.
Lemma fixes_seqs_do_logout : fixes seqs do_logout.
Proof. by intros c. Qed.
Lemma fixes_store_do_login u : fixes store (do_login u).
Proof. by intros c. Qed.
Lemma fixes_seqs_do_login u : fixes seqs (do_login u).
Proof. by intros c. Qed.
Lemma fixes_seqs_commit : fixes seqs commit.
Proof. by intros c. Qed.
Lemma fixes_session_commit : fixes session commit.
Proof. by intros c. Qed.

#[local] Hint Resolve fixes_store_flash fixes_seqs_flash fixes_session_flash
  fixes_store_do_logout fixes_seqs_do_logout fixes_store_do_login
  fixes_seqs_do_login fixes_seqs_commit fixes_session_commit : fixes.

(** The statements write to the open transaction only (and, for the two
    tables with an identity column, draw from the sequence). *)
Lemma fixes_add_User `{Engine} {X} (f : Ctx → X) username email password url :
  txn_blind f → seqs_blind f →
  fixes f (add_User username email password url).
Proof. intros ??. unfold add_User. auto 30 with fixes. Qed.

Lemma fixes_add_Message `{Engine} {X} (f : Ctx → X) text user_id utcnow :
  txn_blind f → seqs_blind f → fixes f (add_Message text user_id utcnow).
Proof. intros ??. unfold add_Message. auto 30 with fixes. Qed.

Lemma fixes_add_Follow {X} (f : Ctx → X) follow :
  txn_blind f → fixes f (add_Follow follow).
Proof. intros ?. unfold add_Follow. auto 30 with fixes. Qed.

Lemma fixes_add_Like {X} (f : Ctx → X) like :
  txn_blind f → fixes f (add_Like like).
Proof. intros ?. unfold add_Like. auto 30 with fixes. Qed.

Lemma fixes_update_User `{Engine} {X} (f : Ctx → X) user a b c d e :
  txn_blind f → fixes f (update_User user a b c d e).
Proof. intros ?. unfold update_User. auto 30 with fixes. Qed.

Lemma fixes_User_signup `{Bcrypt} `{Engine} {X} (f : Ctx → X) salt a b c d :
  txn_blind f → seqs_blind f → fixes f (User_signup salt a b c d).
Proof.
  intros ??. unfold User_signup. destruct c as [p|]; [|apply fixes_raise].
  destruct (truthy p); [by apply fixes_add_User|apply fixes_raise].
Qed.

#[local] Hint Resolve fixes_add_User fixes_add_Message fixes_add_Follow
  fixes_add_Like fixes_update_User fixes_User_signup : fixes.

Section get_requests.
Context `{ShapeChecks} `{Bcrypt} `{Engine}.

Lemma not_submitted_GET fc rq :
  method rq = GET → validate_on_submit fc rq = false.
Proof. intros Hm. unfold validate_on_submit, is_submitted. by rewrite Hm. Qed.

Lemma fixes_view_GET {X} (f : Ctx → X) e g_user rq :
  fixes f unauthorized → fixes f do_logout →
  method rq = GET → method rq ∈ methods e →
  fixes f (view_function e g_user rq).
Proof.
  intros Hunauth Hlogout Hm Hin. rewrite Hm in Hin.
  destruct e; cbn [methods] in Hin;
    try (by apply list_elem_of_singleton in Hin);
    cbn [view_function];
    unfold signup, login, add_message, show_user, show_following,
      show_followers, show_likes, show_message, homepage, redirect,
      render_template;
    rewrite ?not_submitted_GET by done;
    repeat case_match; auto 10 with fixes.
Qed.


End get_requests.

(* ====================================================================== *)
(** * What the forms accept *)
(* ====================================================================== *)

Lemma truthy_nonempty s : truthy s = true ↔ s ≠ ""%string.
Proof. destruct s; simpl; split; done. Qed.

Lemma field_data_POST rq name :
  method rq = POST → field_data rq name = head (getlist name (form rq)).
Proof.
  intros Hm. unfold field_data, formdata, is_submitted. by rewrite Hm.
Qed.

Section chains.
Context `{ShapeChecks}.

(** [InputRequired(), Length(min, max)] *)
Lemma required_length_iff min max fd name :
  field_validate [InputRequired; Length min max] (process fd name) = true ↔
  ∃ s, data (process fd name) = Some s ∧ s ≠ ""%string
       ∧ min ≤ len s ∧ (max = -1 ∨ len s ≤ max).
Proof.
  split.
  - intros (s & ? & ?%truthy_nonempty & ?)%required_length_valid. eauto.
  - intros (s & Hs & Hne%truthy_nonempty & Hmin & Hmax).
    unfold field_validate, field_errors.
    destruct (process_cases fd name) as [Hp | (r & rest & Hp)];
      rewrite Hp in *; simpl in *; [done|].
    injection Hs as ->. rewrite Hne.
    destruct (Z.leb_spec min (len s)); [|lia]. simpl.
    destruct Hmax as [->|Hmax]; [done|].
    destruct (Z.leb_spec (len s) max); [|lia].
    by rewrite orb_true_r.
Qed.

(** [InputRequired(), Email(), Length(max=max)] *)
Lemma required_email_length_iff max fd name :
  0 ≤ max →
  field_validate [InputRequired; Email; Length (-1) max] (process fd name)
  = true ↔
  ∃ s, data (process fd name) = Some s ∧ s ≠ ""%string
       ∧ valid_email s = true ∧ len s ≤ max.
Proof.
  intros Hmax. unfold field_validate, field_errors.
  destruct (process_cases fd name) as [Hp | (r & rest & Hp)];
    rewrite Hp; simpl.
  - split; [done|]. by intros (s & [=] & _).
  - destruct (truthy r) eqn:Hr; simpl.
    + assert (0 ≤ len r) by (unfold len; lia).
      destruct (Z.leb_spec (-1) (len r)); [|lia].
      destruct (Z.eqb_spec max (-1)); [lia|].
      destruct (valid_email r) eqn:He; simpl;
        destruct (Z.leb_spec (len r) max); simpl; split; try done.
      all: try (intros (s & [= <-] & _ & ? & ?); first [congruence | lia]).
      intros _. exists r. by rewrite <- truthy_nonempty.
    + split; [done|]. intros (s & [= <-] & Hne%truthy_nonempty & _).
      congruence.
Qed.

(** [Optional(), URL(), Length(max=max)], and the same with [Length]
    before [URL]. *)
Lemma optional_url_length_iff max fd name :
  0 ≤ max →
  (field_validate [Optional; URL; Length (-1) max] (process fd name) = true ↔
   ∀ s, head (raw_data (process fd name)) = Some s →
        all_space s = true ∨ (valid_url s = true ∧ len s ≤ max)).
Proof.
  intros Hmax. unfold field_validate, field_errors.
  destruct (process_cases fd name) as [Hp | (r & rest & Hp)];
    rewrite Hp; simpl.
  - split; [|done]. by intros _ s [=].
  - unfold string_check. destruct (all_space r) eqn:Hr; simpl.
    + split; [|done]. intros _ s [= <-]. by left.
    + assert (0 ≤ len r) by (unfold len; lia).
      destruct (Z.leb_spec (-1) (len r)); [|lia].
      destruct (Z.eqb_spec max (-1)); [lia|].
      destruct (valid_url r) eqn:Hu; simpl;
        destruct (Z.leb_spec (len r) max); simpl; split; try done.
      all: try (intros Hs; destruct (Hs r eq_refl) as [?|[? ?]];
                first [congruence | lia]).
      intros _ s [= <-]. by right.
Qed.

Lemma required_iff fd name :
  field_validate [InputRequired] (process fd name) = true ↔
  ∃ s, data (process fd name) = Some s ∧ s ≠ ""%string.
Proof.
  unfold field_validate, field_errors.
  destruct (process_cases fd name) as [Hp | (r & rest & Hp)];
    rewrite Hp; simpl.
  - split; [done|]. by intros (s & [=] & _).
  - destruct (truthy r) eqn:Hr; simpl; split; try done.
    + intros _. exists r. by rewrite <- truthy_nonempty.
    + intros (s & [= <-] & Hne%truthy_nonempty). congruence.
Qed.

Lemma head_raw_data_process rq name :
  head (raw_data (process (formdata rq) name)) = field_data rq name.
Proof.
  unfold field_data.
  by destruct (process_cases (formdata rq) name) as [-> | (r & rest & ->)].
Qed.


(** X6.  What the message form accepts: a POST with a valid token and any
    text that is not empty; no length is checked, and text of white space
    only passes. *)
Theorem MessageForm_validates_iff rq :
  validate_on_submit MessageForm rq = true ↔
  method rq = POST ∧ csrf_token_ok rq = true
  ∧ ∃ s, field_data rq "text" = Some s ∧ s ≠ ""%string.
Proof.
  unfold validate_on_submit, validate, MessageForm. cbn [forallb fst snd].
  rewrite !andb_true_iff, required_iff. unfold field_data, is_submitted.
  split.
  - intros (Hm & Hc & ? & _). split; [by destruct (method rq)|]. eauto.
  - intros (Hm & Hc & ?). by rewrite Hm.
Qed.

Lemma LoginForm_validates_iff rq :
  validate_on_submit LoginForm rq = true ↔
  method rq = POST ∧ csrf_token_ok rq = true
  ∧ (∃ s, field_data rq "username" = Some s ∧ s ≠ ""%string ∧ len s ≤ 30)
  ∧ (∃ s, field_data rq "password" = Some s ∧ 6 ≤ len s ≤ 50).
Proof.
  unfold validate_on_submit, validate, LoginForm. cbn [forallb fst snd].
  rewrite !andb_true_iff, !required_length_iff.
  unfold field_data, is_submitted.
  split.
  - intros (Hm & Hc & (u & ? & ? & _ & [|]) & (p & ? & ? & ? & [|]) & _);
      try done.
    split; [by destruct (method rq)|]. eauto 15.
  - intros (Hm & Hc & (u & ? & ? & ?) & (p & ? & ? & ?)).
    rewrite Hm. split; [done|]. split; [done|].
    split; [exists u; split_and!; [done|done|unfold len; lia|by right]|].
    split; [exists p; split_and!; [done| |lia|right; lia]|done].
    intros ->. unfold len in *. simpl in *. lia.
Qed.

End chains.

(* ====================================================================== *)
(** * Signup, login and logout *)
(* ====================================================================== *)

Section accounts.
Context `{ShapeChecks} `{Bcrypt} `{Engine}.

(** The successful signup, in closed form. *)
Lemma signup_success_result rq c username email password :
  validate_on_submit UserAddForm rq = true →
  field_data rq "username" = Some username →
  field_data rq "email" = Some email →
  field_data rq "password" = Some password →
  len (or_else (field_data rq "image_url") DEFAULT_IMAGE_URL) ≤ 255 →
  users (store c) !! (users_id_seq (seqs c) + 1) = None →
  (∀ k u, users (store c) !! k = Some u →
          User_email u ≠ email ∧ User_username u ≠ username) →
  let id := users_id_seq (seqs c) + 1 in
  let user :=
    mkUser id email username
           (or_else (field_data rq "image_url") DEFAULT_IMAGE_URL)
           DEFAULT_HEADER_IMAGE_URL "" ""
           (generate_password_hash (salt rq) password) in
  handle signup_ rq c
  = (Redirect "/",
     let d := with_users (<[id := user]> (users (store c))) (store c) in
     mkCtx d d (mkSequences id (messages_id_seq (seqs c)))
           (<[CURR_USER_KEY := id]> (delete CURR_USER_KEY (session c)))
           (flashes c)).
Proof.
  intros Hv Hu He Hp Himg Hfresh Hfree id user.
  destruct (UserAddForm_valid rq Hv)
    as (Hm & (s & Hs & _ & Hslen) & (e & He' & _ & Helen)
        & (p & Hp' & Hpt & _)).
  assert (s = username) as -> by congruence.
  assert (e = email) as -> by congruence.
  assert (p = password) as -> by congruence.
  unfold handle. simpl methods. rewrite method_allowed_GET_POST.
  unfold view_function, signup. run. rewrite Hv.
  unfold try_except, User_signup. run.
  rewrite Hp, Hpt, He, Hu.
  unfold add_User, coerce, not_null. run.
  rewrite (varchar_fits 50 email), (varchar_fits 30 username) by done.
  simpl. rewrite varchar_fits by done. simpl.
  rewrite varchar_fits by apply password_hash_fits. simpl.
  rewrite (bool_decide_true (_ = None)) by done. simpl.
  rewrite (bool_decide_true (map_Forall _ _))
    by (intros k u Hk; by destruct (Hfree k u Hk)). simpl.
  rewrite (bool_decide_true (map_Forall _ _))
    by (intros k u Hk; by destruct (Hfree k u Hk)). simpl.
  reflexivity.
Qed.

(** X7.  A valid signup with a username and an email that no stored user
    has: the answer is a redirect to the home page; exactly one row is
    added to [users], with the next id of the sequence, the submitted
    username and email, the bcrypt digest of the password (never the
    password), the image URL or its default, and the defaults for header
    image, bio and location; the session is bound to the new user and no
    message is flashed. *)
Theorem signup_creates_user rq c username email password :
  validate_on_submit UserAddForm rq = true →
  field_data rq "username" = Some username →
  field_data rq "email" = Some email →
  field_data rq "password" = Some password →
  len (or_else (field_data rq "image_url") DEFAULT_IMAGE_URL) ≤ 255 →
  users (store c) !! (users_id_seq (seqs c) + 1) = None →
  (∀ k u, users (store c) !! k = Some u →
          User_email u ≠ email ∧ User_username u ≠ username) →
  let id := users_id_seq (seqs c) + 1 in
  let user :=
    mkUser id email username
           (or_else (field_data rq "image_url") DEFAULT_IMAGE_URL)
           DEFAULT_HEADER_IMAGE_URL "" ""
           (generate_password_hash (salt rq) password) in
  let r := handle signup_ rq c in
  r.1 = Redirect "/"
  ∧ store r.2 = with_users (<[id := user]> (users (store c))) (store c)
  ∧ users_id_seq (seqs r.2) = id
  ∧ session r.2 = <[CURR_USER_KEY := id]> (session c)
  ∧ flashes r.2 = flashes c
  ∧ logged_in r.2 user.
Proof.
  intros Hv Hu He Hp Himg Hfresh Hfree id user r. subst r.
  rewrite (signup_success_result rq c username email password) by done.
  cbn [fst snd store seqs session flashes users_id_seq].
  split_and!; try done.
  - by rewrite insert_delete_eq.
  - exists id. split; [apply lookup_insert_eq|].
    cbn [with_users users]. apply lookup_insert_eq.
Qed.

(** X8.  A valid login form with a username that is not stored, or with a
    password that does not match: the login page is shown again with the
    flash "Invalid credentials."; the session and the rows are as they
    were. *)
Theorem login_no_match rq c username password :
  db_ok (store c) →
  validate_on_submit LoginForm rq = true →
  field_data rq "username" = Some username →
  field_data rq "password" = Some password →
  (∀ k u, users (store c) !! k = Some u → User_username u = username →
          check_password_hash (User_password u) password = false) →
  handle login_ rq c
  = (Rendered "users/login.jinja" [("form"%string, VForm (formdata rq))] 200,
     with_flashes
       (flashes c ++ [("Invalid credentials."%string, "danger"%string)])
       (shutdown_session c)).
Proof.
  intros Hok Hv Hu Hp Hno.
  unfold handle. simpl methods. rewrite method_allowed_GET_POST.
  unfold view_function, login. rewrite Hv, Hu, Hp.
  unfold User_authenticate. run.
  destruct (decide (∃ k u, users (store c) !! k = Some u
                           ∧ User_username u = username))
    as [(k & u & Hk & Hname)|Hnone].
  - subst username. rewrite (filter_username_stored _ k u) by done. simpl.
    by rewrite (Hno k u Hk eq_refl).
  - rewrite filter_username_unknown; [done|].
    intros k u Hk Hname. apply Hnone. eauto.
Qed.

Lemma login_success_result rq c k u password :
  db_ok (store c) →
  validate_on_submit LoginForm rq = true →
  field_data rq "username" = Some (User_username u) →
  field_data rq "password" = Some password →
  users (store c) !! k = Some u →
  check_password_hash (User_password u) password = true →
  handle login_ rq c
  = (Redirect "/",
     with_flashes
       (flashes c
        ++ [("Hello, " +:+ User_username u +:+ "!", "success"%string)])
       (with_session (<[CURR_USER_KEY := User_id u]> (session c))
                     (shutdown_session c))).
Proof.
  intros Hok Hv Hu Hp Hk Hcheck.
  unfold handle. simpl methods. rewrite method_allowed_GET_POST.
  unfold view_function, login. rewrite Hv, Hu, Hp.
  unfold User_authenticate. run.
  rewrite (filter_username_stored _ k u) by done. simpl.
  by rewrite Hcheck.
Qed.

(** X9.  A valid login form with the username of a stored user and a
    matching password: redirect to the home page, flash "Hello,
    <username>!", and the session is bound to that user's id; the rows are
    as they were. *)
Theorem login_binds_session rq c k u password :
  db_ok (store c) →
  validate_on_submit LoginForm rq = true →
  field_data rq "username" = Some (User_username u) →
  field_data rq "password" = Some password →
  users (store c) !! k = Some u →
  check_password_hash (User_password u) password = true →
  handle login_ rq c
  = (Redirect "/",
     with_flashes
       (flashes c
        ++ [("Hello, " +:+ User_username u +:+ "!", "success"%string)])
       (with_session (<[CURR_USER_KEY := User_id u]> (session c))
                     (shutdown_session c)))
  ∧ logged_in (handle login_ rq c).2 u.
Proof.
  intros Hok Hv Hu Hp Hk Hcheck.
  rewrite (login_success_result rq c k u password) by done.
  split; [done|]. exists (User_id u). split; [apply lookup_insert_eq|].
  cbn. by rewrite (users_pk _ Hok k u Hk).
Qed.

(** X10.  Logout by a logged-in user with a valid token removes the user
    id from the session, flashes the success message and redirects to
    /login; the next request then has no [g.user]. *)
Theorem logout_clears_session rq c u :
  method rq = POST →
  csrf_token_ok rq = true →
  logged_in c u →
  handle logout_ rq c
  = (Redirect "/login",
     with_flashes
       (flashes c
        ++ [("You have successfully logged out."%string, "success"%string)])
       (with_session (delete CURR_USER_KEY (session c))
                     (shutdown_session c)))
  ∧ add_user_to_g (handle logout_ rq c).2 = None.
Proof.
  intros Hm Hc Hu.
  assert (handle logout_ rq c
  = (Redirect "/login",
     with_flashes
       (flashes c
        ++ [("You have successfully logged out."%string, "success"%string)])
       (with_session (delete CURR_USER_KEY (session c))
                     (shutdown_session c)))) as ->.
  { unfold handle. rewrite Hm. simpl.
    unfold logout. rewrite (csrf_form_valid rq Hm Hc).
    by rewrite (logged_in_g_user c u Hu). }
  split; [done|]. unfold add_user_to_g. cbn. by rewrite lookup_delete_eq.
Qed.

(** X11.  Round trip: after a successful signup, a login with the same
    username and password, whatever else the two requests carry,
    succeeds and binds the session to the id given at signup (provided
    bcrypt accepts the password for the digest it made of it). *)
Theorem signup_then_login rq rq' c username email password :
  db_ok (store c) →
  validate_on_submit UserAddForm rq = true →
  field_data rq "username" = Some username →
  field_data rq "email" = Some email →
  field_data rq "password" = Some password →
  len (or_else (field_data rq "image_url") DEFAULT_IMAGE_URL) ≤ 255 →
  users (store c) !! (users_id_seq (seqs c) + 1) = None →
  (∀ k u, users (store c) !! k = Some u →
          User_email u ≠ email ∧ User_username u ≠ username) →
  check_password_hash (generate_password_hash (salt rq) password) password
  = true →
  method rq' = POST →
  csrf_token_ok rq' = true →
  field_data rq' "username" = Some username →
  field_data rq' "password" = Some password →
  let r := handle login_ rq' (handle signup_ rq c).2 in
  r.1 = Redirect "/"
  ∧ session r.2 !! CURR_USER_KEY = Some (users_id_seq (seqs c) + 1).
Proof.
  intros Hok Hv Hu He Hp Himg Hfresh Hfree Hcheck Hm' Hc' Hu' Hp' r.
  pose proof (handle_db_ok signup_ rq c Hok) as Hok'.
  destruct (UserAddForm_valid rq Hv)
    as (Hm & (s & Hs & Hst & Hslen) & _ & (p & Hpp & Hpt & Hplen)).
  assert (s = username) as -> by congruence.
  assert (p = password) as -> by congruence.
  assert (validate_on_submit LoginForm rq' = true) as Hv'.
  { apply LoginForm_validates_iff. split_and!; try done.
    - exists username. by rewrite <- truthy_nonempty.
    - eauto. }
  subst r. revert Hok'.
  rewrite (signup_success_result rq c username email password) by done.
  cbn [snd]. intros Hok'.
  set (id := users_id_seq (seqs c) + 1).
  set (user := mkUser id email username _ _ _ _ _).
  rewrite (login_success_result rq' _ id user password); try done.
  - split; [done|]. cbn. apply lookup_insert_eq.
  - cbn. apply lookup_insert_eq.
Qed.

Lemma signup_outcome g_user rq c :
  match signup g_user rq c with
  | Ok resp c' =>
      resp = Redirect "/"
      ∨ store c' = store c
        ∧ session c' = delete CURR_USER_KEY (session c)
  | Raise _ c' =>
      store c' = store c ∧ session c' = delete CURR_USER_KEY (session c)
  end.
Proof.
  unfold signup. rewrite run_bind.
  change (do_logout c)
    with (Ok () (with_session (delete CURR_USER_KEY (session c)) c)).
  generalize (eq_refl : store (with_session (delete CURR_USER_KEY (session c)) c) = store c).
  generalize (eq_refl : session (with_session (delete CURR_USER_KEY (session c)) c) = delete CURR_USER_KEY (session c)).
  generalize (with_session (delete CURR_USER_KEY (session c)) c) as c1.
  intros c1 Hse1 Hst1.
  destruct (validate_on_submit UserAddForm rq); [|by right].
  rewrite run_bind. unfold try_except. rewrite run_bind.
  pose proof (fixes_User_signup store (salt rq) (field_data rq "username")
    (field_data rq "email") (field_data rq "password")
    (Some (or_else (field_data rq "image_url") DEFAULT_IMAGE_URL))
    ltac:(by intros ??) ltac:(by intros ??) c1) as Hst.
  pose proof (fixes_User_signup session (salt rq) (field_data rq "username")
    (field_data rq "email") (field_data rq "password")
    (Some (or_else (field_data rq "image_url") DEFAULT_IMAGE_URL))
    ltac:(by intros ??) ltac:(by intros ??) c1) as Hse.
  destruct (User_signup _ _ _ _ _ c1) as [user c2|e c2].
  - by left.
  - destruct e; run; rewrite ?Hst, ?Hse, ?Hst1, ?Hse1; try done.
    unfold flash, render_template. run. right. by rewrite Hst, Hse.
Qed.

(** X12.  Whatever the request to the signup page, if the answer is not
    the redirect of a successful signup then the stored rows are as they
    were, and nobody is logged in afterwards: the view logs out whoever
    was, before anything else. *)
Theorem signup_without_success rq c :
  (handle signup_ rq c).1 ≠ Redirect "/" →
  store (handle signup_ rq c).2 = store c
  ∧ session (handle signup_ rq c).2 !! CURR_USER_KEY = None.
Proof.
  unfold handle. simpl methods. rewrite method_allowed_GET_POST.
  cbn [view_function].
  pose proof (signup_outcome (add_user_to_g (shutdown_session c)) rq
                (shutdown_session c)) as Ho.
  destruct (signup _ rq (shutdown_session c)) as [resp c'|e c'];
    cbn [fst snd]; intros Hne.
  - destruct Ho as [->|[Hs He]]; [done|].
    split; [exact Hs|]. change (session c' !! CURR_USER_KEY = None).
    rewrite He. apply lookup_delete_eq.
  - destruct Ho as [Hs He].
    split; [exact Hs|]. change (session c' !! CURR_USER_KEY = None).
    rewrite He. apply lookup_delete_eq.
Qed.

End accounts.

(* ====================================================================== *)
(** * Messages and follows through their views *)
(* ====================================================================== *)

Lemma filter_message_id (ms : gmap Z Message) id :
  (∀ k m, ms !! k = Some m → Message_id m = k) →
  filter (λ kv : Z * Message, ¬ Message_id kv.2 = id) ms = delete id ms.
Proof.
  intros Hpk. apply map_eq. intros k.
  destruct (decide (k = id)) as [->|Hne].
  - rewrite lookup_delete_eq. apply map_lookup_filter_None. right.
    intros m Hm Hn. simpl in Hn. by apply Hn, Hpk.
  - rewrite lookup_delete_ne by done.
    destruct (ms !! k) as [m|] eqn:Hk.
    + apply map_lookup_filter_Some. split; [done|]. simpl.
      rewrite (Hpk k m Hk). done.
    + apply map_lookup_filter_None. by left.
Qed.

Section messages_and_follows.
Context `{ShapeChecks} `{Bcrypt} `{Engine}.

(** X13.  A logged-in user posts a valid message form and the engine
    takes the text for the [String(140)] column: the answer is a redirect
    to the user's page, and exactly one row is added to [messages], with
    the next id of the sequence, the text as the engine stored it, the
    clock's time at the insert and the user's id. *)
Theorem add_message_stores_message rq c u text stored :
  db_ok (store c) →
  logged_in c u →
  validate_on_submit MessageForm rq = true →
  field_data rq "text" = Some text →
  varchar 140 text = Some stored →
  messages (store c) !! (messages_id_seq (seqs c) + 1) = None →
  let id := messages_id_seq (seqs c) + 1 in
  let msg := mkMessage id stored (utcnow rq) (User_id u) in
  handle add_message_ rq c
  = (Redirect ("/users/" +:+ pretty (User_id u)),
     let d := with_messages (<[id := msg]> (messages (store c))) (store c) in
     mkCtx d d (mkSequences (users_id_seq (seqs c)) id) (session c)
           (flashes c)).
Proof.
  intros Hok Hu Hv Ht Hs Hfresh id msg.
  destruct Hu as (k & Hk & Hu).
  pose proof (users_pk _ Hok k u Hu) as Hid.
  unfold handle. simpl methods. rewrite method_allowed_GET_POST.
  rewrite (logged_in_g_user c u) by (by exists k).
  unfold view_function, add_message. rewrite Hv, Ht.
  unfold add_Message, coerce, not_null. run. rewrite Hs. run.
  unfold nextval_messages, redirect. run.
  rewrite (bool_decide_true (_ = None)) by done. run.
  rewrite (bool_decide_true (is_Some _)) by (rewrite Hid; eauto). run.
  reflexivity.
Qed.

(** X14.  Deleting a stored message of another user is turned away like an
    unauthorized request, and the message stays. *)
Theorem delete_message_not_owner rq c u id m :
  method rq = POST →
  csrf_token_ok rq = true →
  logged_in c u →
  messages (store c) !! id = Some m →
  Message_user_id m ≠ User_id u →
  handle (delete_message_ id) rq c = unauthorized_outcome c.
Proof.
  intros Hm Hc Hu Hmsg Hne.
  unfold handle. rewrite Hm. simpl.
  rewrite (logged_in_g_user c u Hu).
  unfold delete_message. rewrite (csrf_form_valid rq Hm Hc).
  rewrite run_bind, (run_get_or_404_Message id _ m) by done.
  by rewrite (bool_decide_true _ Hne).
Qed.

(** X15.  Deleting one's own message removes that row and the likes of
    that message, and nothing else; the answer is a redirect to the user's
    page. *)
Theorem delete_message_owner rq c u id m :
  db_ok (store c) →
  method rq = POST →
  csrf_token_ok rq = true →
  logged_in c u →
  messages (store c) !! id = Some m →
  Message_user_id m = User_id u →
  handle (delete_message_ id) rq c
  = (Redirect ("/users/" +:+ pretty (User_id u)),
     let d :=
       with_likes (filter (λ l, Like_message_id l ≠ id) (likes (store c)))
         (with_messages (delete id (messages (store c))) (store c)) in
     with_store d (with_txn d c)).
Proof.
  intros Hok Hm Hc Hu Hmsg Hown.
  pose proof (messages_pk _ Hok id m Hmsg) as Hid.
  unfold handle. rewrite Hm. simpl.
  rewrite (logged_in_g_user c u Hu).
  unfold delete_message. rewrite (csrf_form_valid rq Hm Hc).
  rewrite run_bind, (run_get_or_404_Message id _ m) by done.
  rewrite (bool_decide_false (_ ≠ _)) by (intros Hn; by apply Hn).
  unfold session_delete_Message, delete_Message, delete_Like, redirect.
  run. rewrite Hid. destruct c as [t d q s fl]. cbn in *.
  rewrite (filter_message_id _ id) by apply (messages_pk _ Hok).
  assert (filter
            (λ l, ¬ references_deleted (λ m0, Message_id m0 = id)
                      (with_likes
                         (filter (λ l0, ¬ Like_message_id l0 = id) (likes d))
                         d) l)
            (filter (λ l, ¬ Like_message_id l = id) (likes d))
          = filter (λ l, Like_message_id l ≠ id) (likes d)) as ->.
  { apply set_eq. intros l. rewrite !elem_of_filter.
    unfold references_deleted. destruct d as [us ms fs ls]. cbn.
    split; [tauto|]. intros [Hne Hin]. split_and!; try done.
    destruct (ms !! Like_message_id l) as [m'|] eqn:Hl; [|tauto].
    intros Hm'. apply Hne. rewrite <- Hm'. symmetry.
    by apply (messages_pk _ Hok). }
  by destruct d.
Qed.

(** X16.  Following a stored user [id]: when the logged-in user does not
    follow [id] yet, the edge is added (nothing else changes) and the
    answer is a redirect to the following page; when the edge is already
    there the INSERT violates the primary key, the exception is not caught
    and the request ends in a server error with the rows unchanged.  [id]
    may be the user's own id: following oneself is not refused. *)
Theorem start_following_adds_follow rq c u id v :
  method rq = POST →
  csrf_token_ok rq = true →
  logged_in c u →
  users (store c) !! id = Some v →
  db_ok (store c) →
  handle (start_following_ id) rq c
  = if bool_decide (mkFollow id (User_id u) ∈ follows (store c))
    then (InternalServerError, shutdown_session c)
    else (Redirect ("/users/" +:+ pretty (User_id u) +:+ "/following"),
          let d := with_follows ({[mkFollow id (User_id u)]}
                                   ∪ follows (store c)) (store c) in
          with_store d (with_txn d c)).
Proof.
  intros Hm Hc Hu Hv Hok.
  pose proof (users_pk _ Hok id v Hv) as Hid.
  pose proof Hu as (k & Hk & Hu').
  pose proof (users_pk _ Hok k u Hu') as Hidu.
  unfold handle. rewrite Hm. simpl.
  rewrite (logged_in_g_user c u Hu).
  unfold start_following. rewrite (csrf_form_valid rq Hm Hc).
  unfold get_or_404_User, get_User. run. rewrite Hv. run.
  unfold User_follow, add_Follow, redirect. run. rewrite Hid.
  destruct (decide (mkFollow id (User_id u) ∈ follows (store c)))
    as [Hin|Hin].
  - rewrite (bool_decide_false (_ ∉ _)) by (intros Hn; by apply Hn).
    by rewrite (bool_decide_true (_ ∈ _)).
  - rewrite (bool_decide_true (_ ∉ _)) by done.
    rewrite (bool_decide_false (_ ∈ _)) by done. run.
    cbn [user_being_followed_id user_following_id].
    rewrite (bool_decide_true (is_Some (_ !! id))) by eauto. run.
    rewrite (bool_decide_true (is_Some _)) by (rewrite Hidu; eauto). run.
    reflexivity.
Qed.

(** X17.  Unfollowing a stored user [id] removes the edge from the
    logged-in user to [id] when there is one and changes nothing
    otherwise; either way the answer is the redirect to the following
    page. *)
Theorem stop_following_removes_follow rq c u id v :
  method rq = POST →
  csrf_token_ok rq = true →
  logged_in c u →
  users (store c) !! id = Some v →
  db_ok (store c) →
  handle (stop_following_ id) rq c
  = (Redirect ("/users/" +:+ pretty (User_id u) +:+ "/following"),
     let d := with_follows (follows (store c) ∖ {[mkFollow id (User_id u)]})
                           (store c) in
     with_store d (with_txn d c)).
Proof.
  intros Hm Hc Hu Hv Hok.
  pose proof (users_pk _ Hok id v Hv) as Hid.
  unfold handle. rewrite Hm. simpl.
  rewrite (logged_in_g_user c u Hu).
  unfold stop_following. rewrite (csrf_form_valid rq Hm Hc).
  unfold get_or_404_User, get_User. run. rewrite Hv. run.
  unfold User_unfollow, delete_Follow, redirect. run. rewrite Hid.
  assert (filter (λ f, ¬ (user_being_followed_id f = id
                          ∧ user_following_id f = User_id u))
                 (follows (store c))
          = follows (store c) ∖ {[mkFollow id (User_id u)]}) as ->.
  { apply set_eq. intros [a b]. rewrite elem_of_filter, elem_of_difference,
      elem_of_singleton. cbn. split.
    - intros [Hn Hin]. split; [done|]. intros [= -> ->]. by apply Hn.
    - intros [Hin Hn]. split; [|done]. intros [-> ->]. by apply Hn. }
  reflexivity.
Qed.

End messages_and_follows.

(** X18.  For stored users [A] and [B], [A.is_following(B)] and
    [B.is_followed_by(A)] agree, and they hold exactly when the row
    (followed [B], following [A]) is in [follows]. *)
Theorem is_following_is_followed_by d A B :
  (∀ k u, users d !! k = Some u → User_id u = k) →
  users d !! User_id A = Some A →
  users d !! User_id B = Some B →
  User_is_following d A B = User_is_followed_by d B A
  ∧ (User_is_following d A B = true
     ↔ mkFollow (User_id B) (User_id A) ∈ follows d).
Proof.
  intros Hpk HA HB.
  rewrite User_is_following_spec, User_is_followed_by_spec by done.
  split; [done|]. apply bool_decide_eq_true.
Qed.

(* ====================================================================== *)
(** * The profile edit *)
(* ====================================================================== *)

Lemma run_set_column `{Engine} n old new c :
  len new ≤ n → set_column n old new c = Ok new c.
Proof.
  intros Hle. unfold set_column. case_bool_decide as Heq.
  - by rewrite Heq.
  - by rewrite varchar_fits.
Qed.

Lemma run_User_authenticate `{Bcrypt} c k u password :
  db_ok (txn c) →
  users (txn c) !! k = Some u →
  User_authenticate (User_username u) password c
  = Ok (if check_password_hash (User_password u) password
        then Some u else None) c.
Proof.
  intros Hok Hk. unfold User_authenticate. run.
  rewrite (filter_username_stored _ k u) by done. simpl.
  by destruct (check_password_hash _ _).
Qed.

Section profile.
Context `{ShapeChecks} `{Bcrypt} `{Engine}.

(** X19.  A valid profile form with a password that is not the user's:
    the edit page is shown again with the flash "Wrong password, please
    try again."; no column of any row is changed. *)
Theorem edit_profile_wrong_password rq c u password :
  db_ok (store c) →
  logged_in c u →
  validate_on_submit_obj UserEditForm (User_getattr u) rq = true →
  field_data_obj (User_getattr u) rq "password" = Some password →
  check_password_hash (User_password u) password = false →
  serve [GET; POST] edit_profile rq c
  = (Rendered "users/edit.jinja"
       [("form"%string, VForm (formdata rq));
        ("user_id"%string, VInt (User_id u))] 200,
     with_flashes
       (flashes c
        ++ [("Wrong password, please try again."%string, "danger"%string)])
       (shutdown_session c)).
Proof.
  intros Hok Hu Hv Hp Hcheck. pose proof Hu as (k & Hk & Hu').
  unfold serve. rewrite method_allowed_GET_POST.
  rewrite (logged_in_g_user c u Hu).
  unfold edit_profile. rewrite Hv, Hp. rewrite run_bind.
  rewrite (run_User_authenticate _ k u) by done.
  by rewrite Hcheck.
Qed.

(** X20.  A valid profile form with the user's password, a username and
    an email that no other user has, and values that fit their columns:
    the answer is a redirect to the user's page, and the user's row, and
    only that row, is rewritten with the submitted username, email and
    bio and the image URLs or their defaults; id, location and password
    are as they were. *)
Theorem edit_profile_updates_user rq c u password name mail bio :
  db_ok (store c) →
  logged_in c u →
  validate_on_submit_obj UserEditForm (User_getattr u) rq = true →
  field_data_obj (User_getattr u) rq "password" = Some password →
  check_password_hash (User_password u) password = true →
  field_data_obj (User_getattr u) rq "username" = Some name →
  field_data_obj (User_getattr u) rq "email" = Some mail →
  field_data_obj (User_getattr u) rq "bio" = Some bio →
  let image_url :=
    or_else (field_data_obj (User_getattr u) rq "image_url")
            DEFAULT_IMAGE_URL in
  let header_image_url :=
    or_else (field_data_obj (User_getattr u) rq "header_image_url")
            DEFAULT_HEADER_IMAGE_URL in
  len name ≤ 30 → len mail ≤ 50 →
  len image_url ≤ 255 → len header_image_url ≤ 255 →
  (∀ k' u', users (store c) !! k' = Some u' → k' ≠ User_id u →
            User_username u' ≠ name ∧ User_email u' ≠ mail) →
  serve [GET; POST] edit_profile rq c
  = (Redirect ("/users/" +:+ pretty (User_id u)),
     let row := mkUser (User_id u) mail name image_url header_image_url bio
                       (User_location u) (User_password u) in
     let d := with_users (<[User_id u := row]> (users (store c))) (store c) in
     with_store d (with_txn d c)).
Proof.
  intros Hok Hu Hv Hp Hcheck Hname Hmail Hbio img hdr Hl1 Hl2 Hl3 Hl4 Hfree.
  pose proof Hu as (k & Hk & Hu').
  pose proof (users_pk _ Hok k u Hu') as Hid. subst k.
  unfold serve. rewrite method_allowed_GET_POST.
  rewrite (logged_in_g_user c u Hu).
  unfold edit_profile. rewrite Hv, Hp. rewrite run_bind.
  rewrite (run_User_authenticate _ (User_id u) u) by done.
  rewrite Hcheck. unfold try_except, update_User.
  rewrite Hname, Hmail, Hbio. fold img hdr. unfold not_null. run.
  rewrite !run_set_column by done. run.
  rewrite (bool_decide_true (mail = _ ∨ _)); cycle 1.
  { destruct (decide (mail = User_email u)) as [|Hne]; [by left|right].
    intros k' u' Hk'. destruct (decide (k' = User_id u)) as [->|Hk''].
    - cbn in Hk'. congruence.
    - by destruct (Hfree k' u' Hk' Hk''). }
  run.
  rewrite (bool_decide_true (name = _ ∨ _)); cycle 1.
  { destruct (decide (name = User_username u)) as [|Hne]; [by left|right].
    intros k' u' Hk'. destruct (decide (k' = User_id u)) as [->|Hk''].
    - cbn in Hk'. congruence.
    - by destruct (Hfree k' u' Hk' Hk''). }
  run. unfold redirect. run.
  assert (alter (λ _ : User, mkUser (User_id u) mail name img hdr bio
                               (User_location u) (User_password u))
                (User_id u) (users (store c))
          = <[User_id u := mkUser (User_id u) mail name img hdr bio
                             (User_location u) (User_password u)]>
              (users (store c))) as ->.
  { apply map_eq. intros k. destruct (decide (k = User_id u)) as [->|Hne].
    - by rewrite lookup_alter_eq, lookup_insert_eq, Hu'.
    - by rewrite lookup_alter_ne, lookup_insert_ne. }
  reflexivity.
Qed.

(** X21.  A valid profile form with the user's password, but a username or
    an email that another user has: the UPDATE violates the unique
    constraint, the view rolls back, flashes "Username already taken" (for
    the email too) and shows the edit page again; the rows are as they
    were. *)
Theorem edit_profile_taken rq c u password name mail bio k' u' :
  db_ok (store c) →
  logged_in c u →
  validate_on_submit_obj UserEditForm (User_getattr u) rq = true →
  field_data_obj (User_getattr u) rq "password" = Some password →
  check_password_hash (User_password u) password = true →
  field_data_obj (User_getattr u) rq "username" = Some name →
  field_data_obj (User_getattr u) rq "email" = Some mail →
  field_data_obj (User_getattr u) rq "bio" = Some bio →
  len name ≤ 30 → len mail ≤ 50 →
  len (or_else (field_data_obj (User_getattr u) rq "image_url")
               DEFAULT_IMAGE_URL) ≤ 255 →
  len (or_else (field_data_obj (User_getattr u) rq "header_image_url")
               DEFAULT_HEADER_IMAGE_URL) ≤ 255 →
  users (store c) !! k' = Some u' →
  k' ≠ User_id u →
  User_username u' = name ∨ User_email u' = mail →
  serve [GET; POST] edit_profile rq c
  = (Rendered "users/edit.jinja"
       [("form"%string, VForm (formdata rq));
        ("user_id"%string, VInt (User_id u))] 200,
     with_flashes
       (flashes c ++ [("Username already taken"%string, "danger"%string)])
       (shutdown_session c)).
Proof.
  intros Hok Hu Hv Hp Hcheck Hname Hmail Hbio Hl1 Hl2 Hl3 Hl4 Hk' Hne Htaken.
  pose proof Hu as (k & Hk & Hu').
  pose proof (users_pk _ Hok k u Hu') as Hid. subst k.
  unfold serve. rewrite method_allowed_GET_POST.
  rewrite (logged_in_g_user c u Hu).
  unfold edit_profile. rewrite Hv, Hp. rewrite run_bind.
  rewrite (run_User_authenticate _ (User_id u) u) by done.
  rewrite Hcheck. unfold try_except, update_User.
  rewrite Hname, Hmail, Hbio. unfold not_null. run.
  rewrite !run_set_column by done. run.
  destruct (bool_decide (mail = _ ∨ _)) eqn:Hmail_free; run; [|done].
  rewrite (bool_decide_false (name = _ ∨ _)); [done|].
  apply bool_decide_eq_true in Hmail_free.
  destruct Htaken as [Hn|Hm].
  - intros [->|Hall].
    + apply Hne. by apply (username_unique _ Hok k' (User_id u) u' u).
    + by apply (Hall k' u' Hk').
  - exfalso. destruct Hmail_free as [->|Hall].
    + apply Hne. by apply (email_unique _ Hok k' (User_id u) u' u).
    + by apply (Hall k' u' Hk').
Qed.

End profile.

(* ====================================================================== *)
(** * The request cycle over all routes *)
(* ====================================================================== *)

Lemma bind_pure_or_fails {A B} (m : M A) (k : A → M B) c
    (Q : Result B → Prop) :
  pure_or_fails m →
  (∀ e, Q (Raise e (with_txn (store c) c))) →
  (∀ a, Q (k a c)) →
  Q ((m ≫= k) c).
Proof.
  intros Hm He Ha. rewrite run_bind.
  destruct (Hm c) as [[a ->]|[e ->]]; auto.
Qed.

Lemma pure_or_fails_not_null {A} (v : option A) : pure_or_fails (not_null v).
Proof. intros c. destruct v; [left|right]; eauto. Qed.

Lemma pure_or_fails_set_column `{Engine} n old new :
  pure_or_fails (set_column n old new).
Proof.
  intros c. unfold set_column. case_bool_decide; [left; eauto|].
  destruct (varchar n new); [left|right]; eauto.
Qed.

Lemma update_user_ok d (user row : User) :
  db_ok d →
  users d !! User_id user = Some user →
  User_id row = User_id user →
  (User_email row = User_email user
   ∨ map_Forall (λ _ u, User_email u ≠ User_email row) (users d)) →
  (User_username row = User_username user
   ∨ map_Forall (λ _ u, User_username u ≠ User_username row) (users d)) →
  db_ok (with_users (alter (λ _, row) (User_id user) (users d)) d).
Proof.
  intros Hok Hu Hid Hmail Hname.
  assert (∀ k u, alter (λ _, row) (User_id user) (users d) !! k = Some u →
            (k = User_id user ∧ u = row)
            ∨ (k ≠ User_id user ∧ users d !! k = Some u)) as Hlook.
  { intros k u. destruct (decide (k = User_id user)) as [->|Hne].
    - rewrite lookup_alter_eq, Hu. intros [= <-]. by left.
    - rewrite lookup_alter_ne by done. by right. }
  assert (∀ k, is_Some (users d !! k) →
            is_Some (alter (λ _, row) (User_id user) (users d) !! k))
    as Hmono.
  { intros k Hk. by apply lookup_alter_is_Some. }
  assert (∀ k u, users d !! k = Some u → k ≠ User_id user →
            User_email u ≠ User_email row) as Hm'.
  { intros k u Hk Hne. destruct Hmail as [Heq|Hall]; [|by apply (Hall k u)].
    rewrite Heq. intros Hx. apply Hne.
    by apply (email_unique _ Hok k (User_id user) u user). }
  assert (∀ k u, users d !! k = Some u → k ≠ User_id user →
            User_username u ≠ User_username row) as Hn'.
  { intros k u Hk Hne. destruct Hname as [Heq|Hall]; [|by apply (Hall k u)].
    rewrite Heq. intros Hx. apply Hne.
    by apply (username_unique _ Hok k (User_id user) u user). }
  destruct Hok as [Hupk Hmpk Hun Hem Hmfk Hffk Hlfk].
  split; cbn [with_users users messages follows likes]; try done.
  - intros k u [[-> ->]|[_ Hk]]%Hlook; eauto.
  - intros k1 k2 u1 u2 [[-> ->]|[Hne1 H1]]%Hlook [[-> ->]|[Hne2 H2]]%Hlook Heq;
      try done.
    + by destruct (Hn' k2 u2 H2 Hne2).
    + by destruct (Hn' k1 u1 H1 Hne1).
    + eauto.
  - intros k1 k2 u1 u2 [[-> ->]|[Hne1 H1]]%Hlook [[-> ->]|[Hne2 H2]]%Hlook Heq;
      try done.
    + by destruct (Hm' k2 u2 H2 Hne2).
    + by destruct (Hm' k1 u1 H1 Hne1).
    + eauto.
  - intros k m Hk. apply Hmono. eauto.
  - intros f Hf. destruct (Hffk f Hf). split; by apply Hmono.
  - intros l Hl. destruct (Hlfk l Hl). split; [by apply Hmono|done].
Qed.

Lemma update_User_ok `{Engine} user username email image_url header bio c :
  ctx_ok c →
  users (txn c) !! User_id user = Some user →
  match update_User user username email image_url header bio c with
  | Ok _ c' => ctx_ok c'
  | Raise _ c' => ctx_ok c'
  end.
Proof.
  intros [Ht Hs] Hu. unfold update_User.
  assert (∀ e : exn, ctx_ok (with_txn (store c) c)) as Hfail by (by split).
  do 3 (apply bind_pure_or_fails;
        [apply pure_or_fails_not_null | exact Hfail | intros ?]).
  do 4 (apply bind_pure_or_fails;
        [apply pure_or_fails_set_column | exact Hfail | intros ?]).
  run. case_bool_decide as Hmail; run; [|done].
  case_bool_decide as Hname; run; [|done].
  split; [|done]. by apply update_user_ok.
Qed.

Lemma fixes_store_unauthorized : fixes store unauthorized.
Proof. by intros c. Qed.

Lemma fixes_delete_Follow {X} (f : Ctx → X) (P : Follow → Prop)
    `{∀ x, Decision (P x)} :
  txn_blind f → fixes f (delete_Follow P).
Proof. intros Hf c. apply Hf. Qed.

Lemma fixes_delete_Like {X} (f : Ctx → X) (P : Like → Prop)
    `{∀ x, Decision (P x)} :
  txn_blind f → fixes f (delete_Like P).
Proof. intros Hf c. apply Hf. Qed.

Lemma fixes_delete_Message {X} (f : Ctx → X) (P : Message → Prop)
    `{∀ x, Decision (P x)} :
  txn_blind f → fixes f (delete_Message P).
Proof. intros Hf c. apply Hf. Qed.

Lemma fixes_delete_User_row {X} (f : Ctx → X) id :
  txn_blind f → fixes f (delete_User_row id).
Proof.
  intros Hf. unfold delete_User_row.
  repeat (apply fixes_bind; [|intros ?]);
    first [by apply fixes_delete_Follow | by apply fixes_delete_Like
          | by apply fixes_delete_Message | by apply fixes_modify_txn].
Qed.

Lemma fixes_session_delete_User {X} (f : Ctx → X) user :
  txn_blind f → fixes f (session_delete_User user).
Proof.
  intros Hf. unfold session_delete_User.
  apply fixes_bind; [by apply fixes_delete_Follow|intros _].
  apply fixes_bind; [by apply fixes_delete_Follow|intros _].
  apply fixes_bind; [by apply fixes_delete_Message|intros _].
  apply fixes_bind; [by apply fixes_delete_Like|intros _].
  by apply fixes_delete_User_row.
Qed.

Lemma fixes_session_delete_Message {X} (f : Ctx → X) msg :
  txn_blind f → fixes f (session_delete_Message msg).
Proof.
  intros Hf. unfold session_delete_Message.
  apply fixes_bind; [by apply fixes_delete_Like|intros ?].
  by apply fixes_delete_Message.
Qed.

Lemma fixes_User_toggle_like {X} (f : Ctx → X) self msg :
  txn_blind f → fixes f (User_toggle_like self msg).
Proof.
  intros Hf. unfold User_toggle_like.
  apply fixes_bind; [apply fixes_gets|intros d].
  destruct (existsb _ _); [by apply fixes_delete_Like|by apply fixes_add_Like].
Qed.

Lemma settles_fixes m : fixes store m → settles m.
Proof. intros Hm c. specialize (Hm c). destruct (m c); auto. Qed.

Lemma settles_bind {A} (m : M A) k :
  fixes store m → (∀ a, settles (k a)) → settles (m ≫= k).
Proof.
  intros Hm Hk c. rewrite run_bind. specialize (Hm c).
  destruct (m c) as [a c'|e c']; [|done].
  specialize (Hk a c'). rewrite <- Hm. by destruct (k a c').
Qed.

Lemma settles_commit_redirect url : settles (commit ≫= λ _, redirect url).
Proof. intros c. by left. Qed.

Lemma settles_try_except body handler :
  settles body → (∀ e h, handler e = Some h → fixes store h) →
  settles (try_except body handler).
Proof.
  intros Hb Hh c. unfold try_except. specialize (Hb c).
  destruct (body c) as [a c'|e c']; [done|].
  destruct (handler e) as [h|] eqn:He; [|done].
  specialize (Hh e h He c'). rewrite <- Hb. destruct (h c'); auto.
Qed.

#[local] Hint Resolve fixes_store_unauthorized fixes_delete_Follow
  fixes_delete_Like fixes_delete_Message fixes_delete_User_row
  fixes_session_delete_User fixes_session_delete_Message
  fixes_User_toggle_like : fixes.

(** Splits a view into its steps: the steps before a commit leave the
    committed rows alone, and a commit is followed by a redirect. *)
Ltac settle :=
  repeat first
    [ apply settles_commit_redirect
    | apply settles_bind; [by auto 20 with fixes | intros ?]
    | case_match
    | apply settles_fixes; by auto 20 with fixes ].

Section cycle.
Context `{ShapeChecks} `{Bcrypt} `{Engine}.

Lemma settles_signup g_user rq : settles (signup g_user rq).
Proof.
  intros c. pose proof (signup_outcome g_user rq c) as Ho.
  destruct (signup g_user rq c) as [r c'|e c'].
  - destruct Ho as [->|[? _]]; auto.
  - by destruct Ho.
Qed.

Lemma settles_edit_profile g_user rq : settles (edit_profile g_user rq).
Proof.
  unfold edit_profile, render_template.
  destruct g_user as [user|];
    [|apply settles_fixes, fixes_store_unauthorized].
  destruct (validate_on_submit_obj _ _ _); [|by apply settles_fixes].
  destruct (field_data_obj _ _ "password"); [|by apply settles_fixes].
  apply settles_bind; [apply fixes_User_authenticate|]. intros [auth|].
  - apply settles_try_except.
    + apply settles_bind; [by apply fixes_update_User|]. intros _.
      apply settles_commit_redirect.
    + intros [] h [= <-]. auto 20 with fixes.
  - apply settles_fixes. auto 20 with fixes.
Qed.

Lemma settles_view_function e g_user rq :
  settles (view_function e g_user rq).
Proof.
  destruct e; cbn [view_function]; [apply settles_signup|..];
    unfold login, logout, show_user, show_following, show_followers,
      start_following, stop_following, show_likes, toggle_like, delete_user,
      add_message, show_message, delete_message, homepage, User_follow,
      User_unfollow, render_template;
    settle.
Qed.

Lemma keeps_edit_profile_at rq c :
  ctx_ok c →
  match edit_profile (add_user_to_g c) rq c with
  | Ok _ c' => ctx_ok c'
  | Raise _ c' => ctx_ok c'
  end.
Proof.
  intros Hc. unfold edit_profile, add_user_to_g.
  destruct (session c !! CURR_USER_KEY) as [id|];
    [|by apply keeps_unauthorized].
  unfold get_User. destruct (users (txn c) !! id) as [user|] eqn:Hu;
    [|by apply keeps_unauthorized].
  pose proof (users_pk _ (proj1 Hc) id user Hu) as Hid. subst id.
  destruct (validate_on_submit_obj _ _ _); [|done].
  destruct (field_data_obj _ _ "password") as [password|]; [|done].
  rewrite run_bind, (run_User_authenticate c (User_id user) user)
    by (done || apply Hc).
  destruct (check_password_hash _ _); [|done].
  unfold try_except. rewrite run_bind.
  pose proof (update_User_ok user
    (field_data_obj (User_getattr user) rq "username")
    (field_data_obj (User_getattr user) rq "email")
    (or_else (field_data_obj (User_getattr user) rq "image_url")
             DEFAULT_IMAGE_URL)
    (or_else (field_data_obj (User_getattr user) rq "header_image_url")
             DEFAULT_HEADER_IMAGE_URL)
    (field_data_obj (User_getattr user) rq "bio") c Hc Hu) as Hupd.
  destruct (update_User _ _ _ _ _ _ c) as [[] c'|e c'].
  - destruct Hupd as [Ht Hs]. by split.
  - destruct Hupd as [Ht Hs]. by destruct e.
Qed.

Lemma dispatch_db_ok r rq c :
  db_ok (store c) → db_ok (store (dispatch r rq c).2).
Proof.
  intros Hok. destruct r as [e|]; [by apply handle_db_ok|].
  unfold dispatch, serve. rewrite method_allowed_GET_POST.
  assert (ctx_ok (shutdown_session c)) as Hc by (by split).
  pose proof (keeps_edit_profile_at rq _ Hc) as Hk.
  destruct (edit_profile _ _ _) as [resp c'|ex c']; by destruct Hk.
Qed.



End cycle.

(* ====================================================================== *)
(** * The further properties on the sample data *)
(* ====================================================================== *)

#[local] Existing Instances Sample.checks Sample.bcrypt Sample.engine.

(** The stored users of the sample, one by one. *)
Ltac sample_user Hk :=
  lazymatch type of Hk with
  | ?m !! _ = _ =>
      change m
        with (<[1 := Sample.u1]> (<[2 := Sample.u2]> (∅ : gmap Z User)))
        in Hk
  end;
  apply lookup_insert_Some in Hk as [[<- <-]|[_ Hk]];
    [|apply lookup_insert_Some in Hk as [[<- <-]|[_ Hk]];
      [|by rewrite lookup_empty in Hk]].


Lemma invalid_token_unauthorized_witness :
  handle logout_ Requests.bad_token Sample.ctx
  = unauthorized_outcome Sample.ctx.
Proof.
  apply (invalid_token_unauthorized logout_ Requests.bad_token Sample.ctx).
  - reflexivity.
  - reflexivity.
  - reflexivity.
Defined.

Lemma missing_row_not_found_witness :
  handle (show_user_ 7) Sample.get Sample.ctx
  = (page_not_found, shutdown_session Sample.ctx).
Proof.
  apply (missing_row_not_found (show_user_ 7) Sample.get Sample.ctx
           Sample.u1).
  - exact Sample_logged_in.
  - apply list_elem_of_singleton. reflexivity.
  - intros _. reflexivity.
  - vm_compute. reflexivity.
Defined.


Lemma signup_creates_user_witness :
  let rq := Sample.post Requests.signup_form in
  let c := Sample.ctx in
  let id := users_id_seq (seqs c) + 1 in
  let user :=
    mkUser id "u3@email.com" "u3"
           (or_else (field_data rq "image_url") DEFAULT_IMAGE_URL)
           DEFAULT_HEADER_IMAGE_URL "" ""
           (generate_password_hash (salt rq) "password") in
  let r := handle signup_ rq c in
  r.1 = Redirect "/"
  ∧ store r.2 = with_users (<[id := user]> (users (store c))) (store c)
  ∧ users_id_seq (seqs r.2) = id
  ∧ session r.2 = <[CURR_USER_KEY := id]> (session c)
  ∧ flashes r.2 = flashes c
  ∧ logged_in r.2 user.
Proof.
  intros rq c.
  apply (signup_creates_user rq c "u3" "u3@email.com" "password").
  - vm_compute. reflexivity.
  - reflexivity.
  - reflexivity.
  - reflexivity.
  - vm_compute. intros [=].
  - vm_compute. reflexivity.
  - intros k u Hk. sample_user Hk; split; discriminate.
Defined.

Lemma login_no_match_witness :
  let rq := Sample.post (Requests.login_form "u1" "wrongpw") in
  handle login_ rq Sample.ctx
  = (Rendered "users/login.jinja" [("form"%string, VForm (formdata rq))] 200,
     with_flashes
       (flashes Sample.ctx
        ++ [("Invalid credentials."%string, "danger"%string)])
       (shutdown_session Sample.ctx)).
Proof.
  intros rq.
  apply (login_no_match rq Sample.ctx "u1" "wrongpw").
  - exact Sample_rows_ok.
  - vm_compute. reflexivity.
  - reflexivity.
  - reflexivity.
  - intros k u _ _. vm_compute. reflexivity.
Defined.

Lemma login_binds_session_witness :
  let rq := Sample.post (Requests.login_form "u2" "password") in
  handle login_ rq Sample.ctx
  = (Redirect "/",
     with_flashes
       (flashes Sample.ctx
        ++ [("Hello, " +:+ User_username Sample.u2 +:+ "!",
             "success"%string)])
       (with_session (<[CURR_USER_KEY := User_id Sample.u2]>
                        (session Sample.ctx))
                     (shutdown_session Sample.ctx)))
  ∧ logged_in (handle login_ rq Sample.ctx).2 Sample.u2.
Proof.
  intros rq.
  apply (login_binds_session rq Sample.ctx 2 Sample.u2 "password").
  - exact Sample_rows_ok.
  - vm_compute. reflexivity.
  - reflexivity.
  - reflexivity.
  - reflexivity.
  - reflexivity.
Defined.

Lemma logout_clears_session_witness :
  let rq := Sample.post [] in
  handle logout_ rq Sample.ctx
  = (Redirect "/login",
     with_flashes
       (flashes Sample.ctx
        ++ [("You have successfully logged out."%string, "success"%string)])
       (with_session (delete CURR_USER_KEY (session Sample.ctx))
                     (shutdown_session Sample.ctx)))
  ∧ add_user_to_g (handle logout_ rq Sample.ctx).2 = None.
Proof.
  intros rq.
  apply (logout_clears_session rq Sample.ctx Sample.u1).
  - reflexivity.
  - reflexivity.
  - exact Sample_logged_in.
Defined.

Lemma signup_then_login_witness :
  let rq := Sample.post Requests.signup_form in
  let rq' := Sample.post (Requests.login_form "u3" "password") in
  let r := handle login_ rq' (handle signup_ rq Sample.ctx).2 in
  r.1 = Redirect "/"
  ∧ session r.2 !! CURR_USER_KEY = Some (users_id_seq (seqs Sample.ctx) + 1).
Proof.
  intros rq rq'.
  apply (signup_then_login rq rq' Sample.ctx "u3" "u3@email.com"
           "password").
  - exact Sample_rows_ok.
  - vm_compute. reflexivity.
  - reflexivity.
  - reflexivity.
  - reflexivity.
  - vm_compute. intros [=].
  - vm_compute. reflexivity.
  - intros k u Hk. sample_user Hk; split; discriminate.
  - reflexivity.
  - reflexivity.
  - reflexivity.
  - reflexivity.
  - reflexivity.
Defined.

Lemma signup_without_success_witness :
  store (handle signup_ Sample.get Sample.ctx).2 = store Sample.ctx
  ∧ session (handle signup_ Sample.get Sample.ctx).2 !! CURR_USER_KEY = None.
Proof.
  apply (signup_without_success Sample.get Sample.ctx).
  vm_compute. intros [=].
Defined.

Lemma add_message_stores_message_witness :
  let rq := Sample.post [("text"%string, "hello"%string)] in
  let c := Sample.ctx in
  let u := Sample.u1 in
  let id := messages_id_seq (seqs c) + 1 in
  let msg := mkMessage id "hello" (utcnow rq) (User_id u) in
  handle add_message_ rq c
  = (Redirect ("/users/" +:+ pretty (User_id u)),
     let d := with_messages (<[id := msg]> (messages (store c))) (store c) in
     mkCtx d d (mkSequences (users_id_seq (seqs c)) id) (session c)
           (flashes c)).
Proof.
  intros rq c u.
  apply (add_message_stores_message rq c u "hello" "hello").
  - exact Sample_rows_ok.
  - exact Sample_logged_in.
  - vm_compute. reflexivity.
  - reflexivity.
  - vm_compute. reflexivity.
  - vm_compute. reflexivity.
Defined.

Lemma delete_message_not_owner_witness :
  handle (delete_message_ 2) (Sample.post []) Sample.ctx
  = unauthorized_outcome Sample.ctx.
Proof.
  apply (delete_message_not_owner (Sample.post []) Sample.ctx Sample.u1 2
           Sample.m2).
  - reflexivity.
  - reflexivity.
  - exact Sample_logged_in.
  - reflexivity.
  - vm_compute. intros [=].
Defined.

Lemma delete_message_owner_witness :
  let c := Sample.ctx in
  handle (delete_message_ 1) (Sample.post []) c
  = (Redirect ("/users/" +:+ pretty (User_id Sample.u1)),
     let d :=
       with_likes (filter (λ l, Like_message_id l ≠ 1) (likes (store c)))
         (with_messages (delete 1 (messages (store c))) (store c)) in
     with_store d (with_txn d c)).
Proof.
  intros c.
  apply (delete_message_owner (Sample.post []) c Sample.u1 1 Sample.m1).
  - exact Sample_rows_ok.
  - reflexivity.
  - reflexivity.
  - exact Sample_logged_in.
  - reflexivity.
  - reflexivity.
Defined.

(** [u1] follows [u1]. *)
Lemma start_following_adds_follow_witness :
  let c := Sample.ctx in
  let u := Sample.u1 in
  handle (start_following_ 1) (Sample.post []) c
  = if bool_decide (mkFollow 1 (User_id u) ∈ follows (store c))
    then (InternalServerError, shutdown_session c)
    else (Redirect ("/users/" +:+ pretty (User_id u) +:+ "/following"),
          let d := with_follows ({[mkFollow 1 (User_id u)]}
                                   ∪ follows (store c)) (store c) in
          with_store d (with_txn d c)).
Proof.
  intros c u.
  apply (start_following_adds_follow (Sample.post []) c u 1 Sample.u1).
  - reflexivity.
  - reflexivity.
  - exact Sample_logged_in.
  - reflexivity.
  - exact Sample_rows_ok.
Defined.

Lemma stop_following_removes_follow_witness :
  let c := Sample.ctx in
  let u := Sample.u1 in
  handle (stop_following_ 2) (Sample.post []) c
  = (Redirect ("/users/" +:+ pretty (User_id u) +:+ "/following"),
     let d := with_follows (follows (store c) ∖ {[mkFollow 2 (User_id u)]})
                           (store c) in
     with_store d (with_txn d c)).
Proof.
  intros c u.
  apply (stop_following_removes_follow (Sample.post []) c u 2 Sample.u2).
  - reflexivity.
  - reflexivity.
  - exact Sample_logged_in.
  - reflexivity.
  - exact Sample_rows_ok.
Defined.

Lemma is_following_is_followed_by_witness :
  User_is_following Sample.rows Sample.u1 Sample.u2
  = User_is_followed_by Sample.rows Sample.u2 Sample.u1
  ∧ (User_is_following Sample.rows Sample.u1 Sample.u2 = true
     ↔ mkFollow (User_id Sample.u2) (User_id Sample.u1)
         ∈ follows Sample.rows).
Proof.
  apply (is_following_is_followed_by Sample.rows Sample.u1 Sample.u2).
  - exact (users_pk _ Sample_rows_ok).
  - reflexivity.
  - reflexivity.
Defined.

Lemma edit_profile_wrong_password_witness :
  let rq := Sample.post (Requests.edit_form "u1" "wrongpw") in
  serve [GET; POST] edit_profile rq Sample.ctx
  = (Rendered "users/edit.jinja"
       [("form"%string, VForm (formdata rq));
        ("user_id"%string, VInt (User_id Sample.u1))] 200,
     with_flashes
       (flashes Sample.ctx
        ++ [("Wrong password, please try again."%string, "danger"%string)])
       (shutdown_session Sample.ctx)).
Proof.
  intros rq.
  apply (edit_profile_wrong_password rq Sample.ctx Sample.u1 "wrongpw").
  - exact Sample_rows_ok.
  - exact Sample_logged_in.
  - vm_compute. reflexivity.
  - reflexivity.
  - reflexivity.
Defined.

Lemma edit_profile_updates_user_witness :
  let rq := Sample.post (Requests.edit_form "u1new" "password") in
  let c := Sample.ctx in
  let u := Sample.u1 in
  serve [GET; POST] edit_profile rq c
  = (Redirect ("/users/" +:+ pretty (User_id u)),
     let row := mkUser (User_id u) "u1@email.com" "u1new"
                  DEFAULT_IMAGE_URL DEFAULT_HEADER_IMAGE_URL "hi"
                  (User_location u) (User_password u) in
     let d := with_users (<[User_id u := row]> (users (store c))) (store c) in
     with_store d (with_txn d c)).
Proof.
  intros rq c u.
  apply (edit_profile_updates_user rq c u "password" "u1new" "u1@email.com"
           "hi").
  - exact Sample_rows_ok.
  - exact Sample_logged_in.
  - vm_compute. reflexivity.
  - reflexivity.
  - reflexivity.
  - reflexivity.
  - reflexivity.
  - reflexivity.
  - vm_compute. intros [=].
  - vm_compute. intros [=].
  - vm_compute. intros [=].
  - vm_compute. intros [=].
  - intros k' u' Hk Hne. sample_user Hk; [done|split; discriminate].
Defined.

Lemma edit_profile_taken_witness :
  let rq := Sample.post (Requests.edit_form "u2" "password") in
  serve [GET; POST] edit_profile rq Sample.ctx
  = (Rendered "users/edit.jinja"
       [("form"%string, VForm (formdata rq));
        ("user_id"%string, VInt (User_id Sample.u1))] 200,
     with_flashes
       (flashes Sample.ctx
        ++ [("Username already taken"%string, "danger"%string)])
       (shutdown_session Sample.ctx)).
Proof.
  intros rq.
  apply (edit_profile_taken rq Sample.ctx Sample.u1 "password" "u2"
           "u1@email.com" "hi" 2 Sample.u2).
  - exact Sample_rows_ok.
  - exact Sample_logged_in.
  - vm_compute. reflexivity.
  - reflexivity.
  - reflexivity.
  - reflexivity.
  - reflexivity.
  - reflexivity.
  - vm_compute. intros [=].
  - vm_compute. intros [=].
  - vm_compute. intros [=].
  - vm_compute. intros [=].
  - reflexivity.
  - vm_compute. intros [=].
  - left. reflexivity.
Defined.


